(** * Settings resolution and stack wiring of the Elastic Beanstalk CDK app

    A shallow embedding of the decision logic of the repository:
    [stacks/settings.py] (class-attribute lookup with a default),
    [stacks/network.py] and [stacks/protected.py] (subnet creation, export
    and import of cross-stack names), [stacks/database.py] (snapshot
    detection), [stacks/environment.py] (Redis database id, autoscaling
    options) and [app.py] (the order in which stacks are built and the
    dependencies declared between them). *)

From Stdlib Require Import ZArith String Ascii List Lia.
From stdpp Require Import base option gmap strings list.

Local Open Scope string_scope.
Local Open Scope Z_scope.
Local Open Scope list_scope.

(** ** Python values, exceptions and results *)

(** The values that occur as class attributes of the settings classes.
    [VInstanceType c s] stands for [ec2.InstanceType.of(c, s)] and
    [VClassMethod n] for the bound class method [n] that every settings
    class inherits from [Settings]. *)
Inductive value : Type :=
  | VStr (s : string)
  | VBool (b : bool)
  | VInt (z : Z)
  | VList (l : list string)
  | VTuple (l : list string)
  | VInstanceType (instance_class instance_size : string)
  | VClassMethod (name : string).

(** The exceptions the modelled code raises. [External text] is an exception
    raised by a library outside the repository (boto3), with [str(error)]
    equal to [text]. *)
Inductive exn : Type :=
  | KeyError (msg : string)
  | TypeError (msg : string)
  | AttributeError (msg : string)
  | RuntimeError (msg : string)
  | IndexError (msg : string)
  | ValueError (msg : string)
  | OSError (msg : string)
  | StopIteration
  | External (text : string).

Inductive result (A : Type) : Type :=
  | Ok (a : A)
  | Raise (e : exn).

Arguments Ok {A} a.
Arguments Raise {A} e.

Definition bind {A B : Type} (r : result A) (k : A → result B) : result B :=
  match r with
  | Ok a => k a
  | Raise e => Raise e
  end.

Notation "'let!' x ':=' r 'in' k" := (bind r (fun x => k))
  (at level 10, x name, r at level 100, k at level 200).
Notation "'do!' r 'in' k" := (bind r (fun _ => k))
  (at level 10, r at level 100, k at level 200).

(** [if not cond: raise e] *)
Definition require (cond : bool) (e : exn) : result unit :=
  if cond then Ok tt else Raise e.

(** Truth value of a Python object, as tested by [if x] and [not x]. *)
Definition truthy (v : value) : bool :=
  match v with
  | VStr s => negb (String.eqb s "")
  | VBool b => b
  | VInt z => negb (z =? 0)
  | VList l | VTuple l => negb (Nat.eqb (length l) 0)
  | VInstanceType _ _ => true
  | VClassMethod _ => true
  end.

Definition nonempty (s : string) : bool := negb (String.eqb s "").

(** ** Classes and attribute lookup *)

(** A class is its name, its own [__dict__] and its base class; attribute
    lookup walks the chain of bases (all classes of [settings.py] have a
    single base). The dictionaries hold what [settings.py] writes: the
    class attributes and the three class methods. What the interpreter adds
    to every class ([__doc__], [__module__], [__name__], [__init__], [mro]
    and the like, which [hasattr] finds as well) is not listed: the model
    stands for the code on the names that do not begin with two underscores
    and are not [mro], see [declared_name]. *)
#[warnings="-register-all"]
Inductive pyclass : Type :=
  | PyClass (name : string) (dict : gmap string value) (base : option pyclass).

Definition cls_name (c : pyclass) : string :=
  match c with PyClass n _ _ => n end.

Fixpoint class_lookup (c : pyclass) (n : string) : option value :=
  match c with
  | PyClass _ d b =>
      match d !! n with
      | Some v => Some v
      | None =>
          match b with
          | Some p => class_lookup p n
          | None => None
          end
      end
  end.

Definition hasattr (c : pyclass) (n : string) : bool :=
  match class_lookup c n with
  | Some _ => true
  | None => false
  end.

Definition getattr (c : pyclass) (n : string) : result value :=
  match class_lookup c n with
  | Some v => Ok v
  | None =>
      Raise (AttributeError
               ("type object '" +:+ cls_name c +:+ "' has no attribute '" +:+ n +:+ "'"))
  end.

(** "Class [c] defines or inherits an attribute [n] with value [v]": the
    nearest class of the chain that has [n] in its own dictionary gives the
    value. *)
Inductive attribute_of : pyclass → string → value → Prop :=
  | attr_own name d b n v :
      d !! n = Some v → attribute_of (PyClass name d b) n v
  | attr_inherited name d p n v :
      d !! n = None → attribute_of p n v →
      attribute_of (PyClass name d (Some p)) n v.

Definition has_attribute (c : pyclass) (n : string) : Prop :=
  ∃ v, attribute_of c n v.

(** ** [itertools.cycle] and [next] *)

Module itertools.

(** The iterator first hands out the elements of its argument and keeps
    them; when none is left it starts again from the kept ones. *)
Record cycle_iter : Type := CycleIter {
  cy_pending : list string;
  cy_saved : list string
}.

Definition cycle (l : list string) : cycle_iter :=
  {| cy_pending := l; cy_saved := l |}.

End itertools.

(** [next(it)]; over an empty sequence it raises [StopIteration]. *)
Definition next (it : itertools.cycle_iter) : result (string * itertools.cycle_iter) :=
  match itertools.cy_pending it with
  | x :: rest =>
      Ok (x, {| itertools.cy_pending := rest; itertools.cy_saved := itertools.cy_saved it |})
  | [] =>
      match itertools.cy_saved it with
      | x :: rest =>
          Ok (x, {| itertools.cy_pending := rest; itertools.cy_saved := itertools.cy_saved it |})
      | [] => Raise StopIteration
      end
  end.

(** ** [stacks/settings.py] *)

Module Settings.

(** [class Settings] with its three class methods, as written in
    [settings.py]; what the interpreter adds to the class is left out, as
    said for [pyclass]. *)
Definition base : pyclass :=
  PyClass "Settings"
    (<["get" := VClassMethod "get"]>
     (<["cycle" := VClassMethod "cycle"]>
      (<["length" := VClassMethod "length"]> ∅)))
    None.

(** A subclass of [Settings] with the class attributes that its body
    assigns. *)
Definition subclass (name : string) (attrs : list (string * value)) : pyclass :=
  PyClass name (list_to_map attrs) (Some base).

(** [Settings.get] *)
Definition get (cls : pyclass) (name : string) : result value :=
  if hasattr cls name then getattr cls name
  else if hasattr cls "default" then getattr cls "default"
  else Raise (KeyError ("Not supported by '" +:+ cls_name cls +:+ "': '" +:+ name +:+ "'.")).

(** [isinstance(value, (list, tuple))], with the elements when it holds. *)
Definition as_sequence (v : value) : option (list string) :=
  match v with
  | VList l | VTuple l => Some l
  | _ => None
  end.

Definition type_name (v : value) : string :=
  match v with
  | VStr _ => "<class 'str'>"
  | VBool _ => "<class 'bool'>"
  | VInt _ => "<class 'int'>"
  | VList _ => "<class 'list'>"
  | VTuple _ => "<class 'tuple'>"
  | VInstanceType _ _ => "<class 'aws_cdk.aws_ec2.InstanceType'>"
  | VClassMethod _ => "<class 'method'>"
  end.

(** [Settings.cycle] *)
Definition cycle (cls : pyclass) (name : string) : result itertools.cycle_iter :=
  let! value := get cls name in
  match as_sequence value with
  | None => Raise (TypeError ("Expecting a list, got a " +:+ type_name value))
  | Some l => Ok (itertools.cycle l)
  end.

(** [Settings.length] *)
Definition length (cls : pyclass) (name : string) : result nat :=
  let! value := get cls name in
  match as_sequence value with
  | None => Raise (TypeError ("Expecting a list, got a " +:+ type_name value))
  | Some l => Ok (List.length l)
  end.

End Settings.

(** The settings classes the modelled stacks read. *)

Definition VpcCidrSettings : pyclass :=
  Settings.subclass "VpcCidrSettings"
    [("mainnet", VStr "10.0.0.0/16");
     ("testnet", VStr "10.1.0.0/16");
     ("devnet", VStr "10.11.0.0/16")].

Definition SharedCacheDatabaseSettings : pyclass :=
  Settings.subclass "SharedCacheDatabaseSettings"
    [("mainnet", VBool true);
     ("testnet", VBool true);
     ("devnet", VBool false)].

Definition PublicSubnetCidrSettings : pyclass :=
  Settings.subclass "PublicSubnetCidrSettings"
    [("mainnet", VList ["10.0.0.0/19"; "10.0.32.0/19"; "10.0.64.0/19"]);
     ("testnet", VList ["10.1.0.0/19"; "10.1.32.0/19"]);
     ("devnet", VList ["10.11.0.0/19"; "10.11.32.0/19"])].

Definition PrivateSubnetCidrSettings : pyclass :=
  Settings.subclass "PrivateSubnetCidrSettings"
    [("mainnet", VList ["10.0.96.0/19"; "10.0.128.0/19"; "10.0.160.0/19"]);
     ("testnet", VList ["10.1.64.0/19"; "10.1.96.0/19"]);
     ("devnet", VList ["10.11.64.0/19"; "10.11.96.0/19"])].

Definition AvailabilityZonesSettings : pyclass :=
  Settings.subclass "AvailabilityZonesSettings"
    [("mainnet", VList ["a"; "b"; "c"]);
     ("testnet", VList ["a"; "b"]);
     ("devnet", VList ["a"; "b"])].

Definition MinNodesSettings : pyclass :=
  Settings.subclass "MinNodesSettings"
    [("proddb", VInt 4); ("demodb", VInt 2); ("default", VInt 1)].

Definition MaxNodesSettings : pyclass :=
  Settings.subclass "MaxNodesSettings"
    [("proddb", VInt 2); ("demodb", VInt 1); ("default", VInt 1)].

Definition DatabaseNameSettings : pyclass :=
  Settings.subclass "DatabaseNameSettings"
    [("proddb", VStr "dcdata"); ("demodb", VStr "dcdata"); ("default", VStr "dcdata")].

Definition DatabaseUsernameSettings : pyclass :=
  Settings.subclass "DatabaseUsernameSettings"
    [("proddb", VStr "dcdata"); ("demodb", VStr "dcdata"); ("default", VStr "dcdata")].

Definition DatabaseEncryptionSettings : pyclass :=
  Settings.subclass "DatabaseEncryptionSettings"
    [("proddb", VBool true); ("testnet", VBool true); ("default", VBool false)].

Definition DatabaseDeletionProtectionSettings : pyclass :=
  Settings.subclass "DatabaseDeletionProtectionSettings"
    [("proddb", VBool true); ("demodb", VBool true); ("default", VBool false)].

Definition DatabaseStorageSize : pyclass :=
  Settings.subclass "DatabaseStorageSize"
    [("proddb", VInt 100); ("demodb", VInt 50); ("default", VInt 30)].

Definition DatabaseInstanceTypeSettings : pyclass :=
  Settings.subclass "DatabaseInstanceTypeSettings"
    [("proddb", VInstanceType "STANDARD6_GRAVITON" "LARGE");
     ("testnet", VInstanceType "STANDARD3" "MEDIUM");
     ("default", VInstanceType "BURSTABLE4_GRAVITON" "SMALL")].

Definition DatabaseSnapshotName : pyclass :=
  Settings.subclass "DatabaseSnapshotName"
    [("mainnet", VStr "latest"); ("testnet", VStr "latest"); ("devnet", VStr "latest")].

(** ** Strings *)

(** [s.split(sep)] for a one-character separator. *)
Fixpoint split (sep : ascii) (s : string) : list string :=
  match s with
  | EmptyString => [EmptyString]
  | String c rest =>
      if Ascii.eqb c sep then EmptyString :: split sep rest
      else
        match split sep rest with
        | [] => [String c EmptyString]
        | first :: others => String c first :: others
        end
  end.

(** [needle in hay] on strings. *)
Fixpoint contains (needle hay : string) : bool :=
  String.prefix needle hay ||
  match hay with
  | EmptyString => false
  | String _ rest => contains needle rest
  end.

Definition digit_char (d : N) : ascii :=
  ascii_of_N (48 + d).

(** Decimal digits of [n], most significant first, in front of [acc]. *)
Fixpoint decimal_acc (fuel : nat) (n : N) (acc : string) : string :=
  let acc' := String (digit_char (n mod 10)%N) acc in
  match fuel with
  | O => acc'
  | S fuel' =>
      if (n / 10 =? 0)%N then acc' else decimal_acc fuel' (n / 10)%N acc'
  end.

(** [str(n)] for a natural number [n]; a number has no more decimal digits
    than binary ones. *)
Definition str_N (n : N) : string := decimal_acc (N.size_nat n) n EmptyString.

Definition str_nat (n : nat) : string := str_N (N.of_nat n).

(** [str(z)] for an integer. *)
Definition str_int (z : Z) : string :=
  if z <? 0 then String "-" (str_N (Z.to_N (- z))) else str_N (Z.to_N z).

(** [s[-1]] *)
Fixpoint last_char (s : string) : result string :=
  match s with
  | EmptyString => Raise (IndexError "string index out of range")
  | String c EmptyString => Ok (String c EmptyString)
  | String _ rest => last_char rest
  end.

(** A settings value used as a [str] (by [.split]) and as a [List[str]] (by
    [enumerate]), as the annotations of [settings.py] type them. *)
Definition as_str (v : value) : result string :=
  match v with
  | VStr s => Ok s
  | _ => Raise (AttributeError "object has no attribute 'split'")
  end.

Definition as_list (v : value) : result (list string) :=
  match Settings.as_sequence v with
  | Some l => Ok l
  | None => Raise (TypeError "object is not iterable")
  end.

(** ** Constructs shared by the stacks *)

(** A value that is only known at deployment: the result of
    [Fn.import_value(name)], or an attribute of a construct of this app. *)
Inductive token : Type :=
  | ImportValue (export_name : string)
  | Ref (construct_id : string) (attribute : string).

(** [ec2.Subnet], created ([cidr_block] given) or imported. *)
Record Subnet : Type := MkSubnet {
  subnet_construct_id : string;
  subnet_id : token;
  cidr_block : option string;
  availability_zone : string
}.

(** [ec2.Vpc], created or imported with [from_vpc_attributes]. *)
Record Vpc : Type := MkVpc {
  vpc_construct_id : string;
  vpc_id : token;
  vpc_cidr_block : value;
  vpc_availability_zones : option value;
  vpc_max_azs : option nat;
  public_subnet_ids : list token;
  private_subnet_ids : list token
}.

(** [ec2.CfnNatGateway(self, id, allocation_id=..., subnet_id=...,
    connectivity_type=...)] *)
Record NatGateway : Type := MkNatGateway {
  nat_construct_id : string;
  allocation_id : token;
  nat_subnet_id : token;
  connectivity_type : string
}.

(** [CfnOutput(self, id, export_name=..., value=...)] *)
Record CfnOutput : Type := MkCfnOutput {
  output_id : string;
  export_name : string;
  output_value : token
}.

(** [self._vpc.vpc_id] *)
Definition vpc_id_of (vpc : option Vpc) : result token :=
  match vpc with
  | Some v => Ok (vpc_id v)
  | None => Raise (AttributeError "'NoneType' object has no attribute 'vpc_id'")
  end.

(** [l[index]] *)
Definition getitem {A : Type} (l : list A) (index : nat) : result A :=
  match l !! index with
  | Some x => Ok x
  | None => Raise (IndexError "list index out of range")
  end.

(** The two f-strings naming the cross-stack values of the network. *)
Definition vpc_export_name (application network : string) : string :=
  application +:+ "::" +:+ network +:+ "::vpc::id".

Definition subnet_export_name (application network kind : string) (index : nat) : string :=
  application +:+ "::" +:+ network +:+ "::subnet::" +:+ kind +:+ "::"
    +:+ str_nat (index + 1) +:+ "::id".

(** [cidr_block.split(".")[:2] != vpc_cidr.split(".")[:2]] *)
Definition cidr_mismatch (cidr_block vpc_cidr : string) : bool :=
  negb (bool_decide (take 2 (split "." cidr_block) = take 2 (split "." vpc_cidr))).

(** ** [stacks/network.py] *)

Module NetworkStack.

Record t : Type := Mk {
  _application : string;
  _network : string;
  region : string;
  _vpc : option Vpc;
  _public_subnets : list Subnet;
  _private_subnets : list Subnet;
  _nat_gateways : list NatGateway;
  _igw : option string;
  _eip : list string;
  _endpoints : list string;
  outputs : list CfnOutput
}.

(** [__init__] *)
Definition new (application network region : string) : t :=
  {| _application := application; _network := network; region := region;
     _vpc := None; _public_subnets := []; _private_subnets := [];
     _nat_gateways := []; _igw := None; _eip := []; _endpoints := [];
     outputs := [] |}.

Definition prefix (self : t) : string :=
  _application self +:+ "-" +:+ _network self.

Definition _create_vpc (self : t) : result t :=
  let id := prefix self +:+ "-vpc" in
  let! cidr := Settings.get VpcCidrSettings (_network self) in
  let! max_azs := Settings.length AvailabilityZonesSettings (_network self) in
  Ok {| _application := _application self; _network := _network self;
        region := region self;
        _vpc := Some {| vpc_construct_id := id; vpc_id := Ref id "vpc_id";
                        vpc_cidr_block := cidr;
                        vpc_availability_zones := None;
                        vpc_max_azs := Some max_azs;
                        public_subnet_ids := []; private_subnet_ids := [] |};
        _public_subnets := _public_subnets self;
        _private_subnets := _private_subnets self;
        _nat_gateways := _nat_gateways self; _igw := _igw self;
        _eip := _eip self; _endpoints := _endpoints self;
        outputs := outputs self |}.

(** The loop of [_create_public_subnets] and [_create_private_subnets]
    ([kind] is ["public"] or ["private"]): [subnets] is the list appended
    to, [index] the position reached by [enumerate]. *)
Fixpoint create_subnets (kind : string) (self : t) (vpc_cidr : value)
    (index : nat) (cidr_blocks : list string) (availability_zones : itertools.cycle_iter)
    (subnets : list Subnet) : result (list Subnet) :=
  match cidr_blocks with
  | [] => Ok subnets
  | cidr_block :: rest =>
      let! vpc_cidr_str := as_str vpc_cidr in
      if cidr_mismatch cidr_block vpc_cidr_str
      then Raise (RuntimeError "The VPC CIDR and the subnet CIDR don't mwatch!")
      else
        let id := prefix self +:+ "-" +:+ kind +:+ "-subnet-" +:+ str_nat (index + 1) in
        let! _ := vpc_id_of (_vpc self) in
        let! zone := next availability_zones in
        let subnet :=
          {| subnet_construct_id := id; subnet_id := Ref id "subnet_id";
             cidr_block := Some cidr_block;
             availability_zone := region self +:+ fst zone |} in
        create_subnets kind self vpc_cidr (S index) rest (snd zone) (subnets ++ [subnet])
  end.

Definition _create_public_subnets (self : t) : result t :=
  let! vpc_cidr := Settings.get VpcCidrSettings (_network self) in
  let! cidr_blocks := Settings.get PublicSubnetCidrSettings (_network self) in
  let! availability_zones := Settings.cycle AvailabilityZonesSettings (_network self) in
  let! blocks := as_list cidr_blocks in
  let! subnets :=
    create_subnets "public" self vpc_cidr 0 blocks availability_zones (_public_subnets self) in
  Ok {| _application := _application self; _network := _network self;
        region := region self; _vpc := _vpc self;
        _public_subnets := subnets;
        _private_subnets := _private_subnets self;
        _nat_gateways := _nat_gateways self; _igw := _igw self;
        _eip := _eip self; _endpoints := _endpoints self;
        outputs := outputs self |}.

Definition _create_private_subnets (self : t) : result t :=
  let! vpc_cidr := Settings.get VpcCidrSettings (_network self) in
  let! cidr_blocks := Settings.get PrivateSubnetCidrSettings (_network self) in
  let! availability_zones := Settings.cycle AvailabilityZonesSettings (_network self) in
  let! blocks := as_list cidr_blocks in
  let! subnets :=
    create_subnets "private" self vpc_cidr 0 blocks availability_zones (_private_subnets self) in
  Ok {| _application := _application self; _network := _network self;
        region := region self; _vpc := _vpc self;
        _public_subnets := _public_subnets self;
        _private_subnets := subnets;
        _nat_gateways := _nat_gateways self; _igw := _igw self;
        _eip := _eip self; _endpoints := _endpoints self;
        outputs := outputs self |}.

Definition _create_internet_gateway (self : t) : result t :=
  let id := prefix self +:+ "-internet-gateway" in
  let! _ := match _public_subnets self with
            | [] => Ok tt
            | _ :: _ => let! _ := vpc_id_of (_vpc self) in Ok tt
            end in
  Ok {| _application := _application self; _network := _network self;
        region := region self; _vpc := _vpc self;
        _public_subnets := _public_subnets self;
        _private_subnets := _private_subnets self;
        _nat_gateways := _nat_gateways self; _igw := Some id;
        _eip := _eip self; _endpoints := _endpoints self;
        outputs := outputs self |}.

Definition _create_eip (self : t) : result t :=
  let! cidr_blocks := Settings.get PrivateSubnetCidrSettings (_network self) in
  let! blocks := as_list cidr_blocks in
  let eips :=
    imap (fun index _ => prefix self +:+ "-nat-ip-" +:+ str_nat (index + 1)) blocks in
  Ok {| _application := _application self; _network := _network self;
        region := region self; _vpc := _vpc self;
        _public_subnets := _public_subnets self;
        _private_subnets := _private_subnets self;
        _nat_gateways := _nat_gateways self; _igw := _igw self;
        _eip := _eip self ++ eips; _endpoints := _endpoints self;
        outputs := outputs self |}.

(** The loop of [_create_nat_gateways]: one gateway per private subnet,
    placed in the public subnet of the same index, with the elastic IP of
    the same index. The default route that the private subnet then gets to
    the gateway is kept inside the subnet construct of the CDK and has no
    field here. *)
Fixpoint create_nat_gateways (self : t) (index count : nat) (gateways : list NatGateway)
    : result (list NatGateway) :=
  match count with
  | O => Ok gateways
  | S count' =>
      let id := prefix self +:+ "-nat-" +:+ str_nat (index + 1) in
      let! eip := getitem (_eip self) index in
      let! subnet := getitem (_public_subnets self) index in
      let nat :=
        {| nat_construct_id := id;
           allocation_id := Ref eip "attr_allocation_id";
           nat_subnet_id := subnet_id subnet;
           connectivity_type := "public" |} in
      create_nat_gateways self (S index) count' (gateways ++ [nat])
  end.

Definition _create_nat_gateways (self : t) : result t :=
  let! _ := require (negb (Nat.eqb (List.length (_eip self)) 0))
              (AttributeError "AWS Elastic IPs not created!") in
  let! gateways :=
    create_nat_gateways self 0 (List.length (_private_subnets self)) (_nat_gateways self) in
  Ok {| _application := _application self; _network := _network self;
        region := region self; _vpc := _vpc self;
        _public_subnets := _public_subnets self;
        _private_subnets := _private_subnets self;
        _nat_gateways := gateways; _igw := _igw self;
        _eip := _eip self; _endpoints := _endpoints self;
        outputs := outputs self |}.

Definition _create_vpc_endpoints (self : t) : result t :=
  let! _ := require (bool_decide (is_Some (_vpc self))) (AttributeError "VPC not created!") in
  let! _ := require (negb (Nat.eqb (List.length (_private_subnets self)) 0))
              (AttributeError "Private subnets not created!") in
  Ok {| _application := _application self; _network := _network self;
        region := region self; _vpc := _vpc self;
        _public_subnets := _public_subnets self;
        _private_subnets := _private_subnets self;
        _nat_gateways := _nat_gateways self; _igw := _igw self;
        _eip := _eip self;
        _endpoints := _endpoints self ++
          [prefix self +:+ "-eb-health-vpc-endpoint";
           prefix self +:+ "-eb-vpc-endpoint";
           prefix self +:+ "-s3-vpc-endpoint";
           prefix self +:+ "-redis-vpc-endpoint"];
        outputs := outputs self |}.

Definition deploy (self : t) : result t :=
  let! _ := require (nonempty (_application self)) (AttributeError "Unknown application name!") in
  let! _ := require (nonempty (_network self)) (AttributeError "Unknown network name!") in
  let! _ := require (nonempty (region self)) (AttributeError "Unknown region name!") in
  let! self := _create_vpc self in
  let! self := _create_public_subnets self in
  let! self := _create_private_subnets self in
  let! self := _create_internet_gateway self in
  let! self := _create_eip self in
  let! self := _create_nat_gateways self in
  _create_vpc_endpoints self.

(** One [CfnOutput] per subnet, named by its position in the list. *)
Definition subnet_outputs (self : t) (kind : string) (subnets : list Subnet)
    : list CfnOutput :=
  imap (fun index subnet =>
          let name := subnet_export_name (_application self) (_network self) kind index in
          {| output_id := name; export_name := name; output_value := subnet_id subnet |})
       subnets.

Definition export (self : t) : result t :=
  let name := vpc_export_name (_application self) (_network self) in
  let! id := vpc_id_of (_vpc self) in
  let vpc_output := {| output_id := name; export_name := name; output_value := id |} in
  Ok {| _application := _application self; _network := _network self;
        region := region self; _vpc := _vpc self;
        _public_subnets := _public_subnets self;
        _private_subnets := _private_subnets self;
        _nat_gateways := _nat_gateways self; _igw := _igw self;
        _eip := _eip self; _endpoints := _endpoints self;
        outputs := outputs self ++ [vpc_output]
                     ++ subnet_outputs self "public" (_public_subnets self)
                     ++ subnet_outputs self "private" (_private_subnets self) |}.

(** The names published by the stack. *)
Definition export_names (self : t) : list string :=
  map export_name (outputs self).

End NetworkStack.

(** ** [stacks/protected.py] *)

(** [len(v)] *)
Definition py_len (v : value) : result nat :=
  match v with
  | VStr s => Ok (String.length s)
  | VList l | VTuple l => Ok (List.length l)
  | _ => Raise (TypeError "object has no len()")
  end.

Module NetworkProtectedStack.

Record t : Type := Mk {
  _application : string;
  _network : string;
  region : string;
  _vpc : option Vpc;
  _public_subnets : list Subnet;
  _private_subnets : list Subnet
}.

(** [__init__] *)
Definition new (application network region : string) : t :=
  {| _application := application; _network := network; region := region;
     _vpc := None; _public_subnets := []; _private_subnets := [] |}.

(** [[Fn.import_value(f"...::subnet::{kind}::{index + 1}::id") for index in range(count)]] *)
Definition import_subnet_ids (self : t) (kind : string) (count : nat) : list token :=
  map (fun index =>
         ImportValue (subnet_export_name (_application self) (_network self) kind index))
      (seq 0 count).

Definition _import_vpc (self : t) : result t :=
  let! _ := require (nonempty (_network self)) (AttributeError "Network not loaded") in
  let id := _application self +:+ "-" +:+ _network self +:+ "-vpc" in
  let vpc_id := ImportValue (vpc_export_name (_application self) (_network self)) in
  let! vpc_cidr_block := Settings.get VpcCidrSettings (_network self) in
  let! availability_zones := Settings.get AvailabilityZonesSettings (_network self) in
  let! public_cidrs := Settings.get PublicSubnetCidrSettings (_network self) in
  let! public_count := py_len public_cidrs in
  let! private_cidrs := Settings.get PrivateSubnetCidrSettings (_network self) in
  let! private_count := py_len private_cidrs in
  Ok {| _application := _application self; _network := _network self;
        region := region self;
        _vpc := Some {| vpc_construct_id := id; vpc_id := vpc_id;
                        vpc_cidr_block := vpc_cidr_block;
                        vpc_availability_zones := Some availability_zones;
                        vpc_max_azs := None;
                        public_subnet_ids := import_subnet_ids self "public" public_count;
                        private_subnet_ids := import_subnet_ids self "private" private_count |};
        _public_subnets := _public_subnets self;
        _private_subnets := _private_subnets self |}.

(** The list comprehension of [_import_public_subnets] and
    [_import_private_subnets], from position [index] for [count] more
    subnets. *)
Fixpoint import_subnets (kind : string) (self : t) (index count : nat)
    (availability_zones : itertools.cycle_iter) : result (list Subnet) :=
  match count with
  | O => Ok []
  | S count' =>
      let name := subnet_export_name (_application self) (_network self) kind index in
      let! zone := next availability_zones in
      let subnet :=
        {| subnet_construct_id := name; subnet_id := ImportValue name;
           cidr_block := None;
           availability_zone := region self +:+ fst zone |} in
      let! others := import_subnets kind self (S index) count' (snd zone) in
      Ok (subnet :: others)
  end.

Definition _import_public_subnets (self : t) : result t :=
  let! _ := require (nonempty (region self)) (AttributeError "Region is empty!") in
  let! _ := require (nonempty (_network self)) (AttributeError "Network is empty!") in
  let! _ := require (nonempty (_application self)) (AttributeError "Application is empty!") in
  let! availability_zones := Settings.cycle AvailabilityZonesSettings (_network self) in
  let! count := Settings.length PublicSubnetCidrSettings (_network self) in
  let! subnets := import_subnets "public" self 0 count availability_zones in
  Ok {| _application := _application self; _network := _network self;
        region := region self; _vpc := _vpc self;
        _public_subnets := subnets;
        _private_subnets := _private_subnets self |}.

Definition _import_private_subnets (self : t) : result t :=
  let! availability_zones := Settings.cycle AvailabilityZonesSettings (_network self) in
  let! count := Settings.length PrivateSubnetCidrSettings (_network self) in
  let! subnets := import_subnets "private" self 0 count availability_zones in
  Ok {| _application := _application self; _network := _network self;
        region := region self; _vpc := _vpc self;
        _public_subnets := _public_subnets self;
        _private_subnets := subnets |}.

Definition load (self : t) : result t :=
  let! _ := require (nonempty (_application self)) (AttributeError "Unknown application name!") in
  let! _ := require (nonempty (_network self)) (AttributeError "Unknown network name!") in
  let! _ := require (nonempty (region self)) (AttributeError "Unknown region name!") in
  let! self := _import_vpc self in
  let! self := _import_public_subnets self in
  _import_private_subnets self.

Definition imported_name (tok : token) : list string :=
  match tok with
  | ImportValue name => [name]
  | Ref _ _ => []
  end.

(** Every name passed to [Fn.import_value] for the values the stack holds,
    in the order of the calls. *)
Definition import_names (self : t) : list string :=
  match _vpc self with
  | Some vpc =>
      imported_name (vpc_id vpc)
        ++ flat_map imported_name (public_subnet_ids vpc)
        ++ flat_map imported_name (private_subnet_ids vpc)
  | None => []
  end
  ++ flat_map (fun subnet => imported_name (subnet_id subnet)) (_public_subnets self)
  ++ flat_map (fun subnet => imported_name (subnet_id subnet)) (_private_subnets self).

End NetworkProtectedStack.

(** ** [hashlib.sha256] (FIPS 180-4), on 32-bit words kept in [Z] *)

Module hashlib.

Definition mask32 : Z := 0xffffffff.

Definition add32 (a b : Z) : Z := (a + b) mod 2 ^ 32.

Definition rotr (n x : Z) : Z :=
  Z.lor (Z.shiftr x n) (Z.land (Z.shiftl x (32 - n)) mask32).

Definition not32 (x : Z) : Z := Z.lxor x mask32.

Definition Ch (x y z : Z) : Z := Z.lxor (Z.land x y) (Z.land (not32 x) z).
Definition Maj (x y z : Z) : Z :=
  Z.lxor (Z.lxor (Z.land x y) (Z.land x z)) (Z.land y z).
Definition Sigma0 (x : Z) : Z := Z.lxor (Z.lxor (rotr 2 x) (rotr 13 x)) (rotr 22 x).
Definition Sigma1 (x : Z) : Z := Z.lxor (Z.lxor (rotr 6 x) (rotr 11 x)) (rotr 25 x).
Definition sigma0 (x : Z) : Z := Z.lxor (Z.lxor (rotr 7 x) (rotr 18 x)) (Z.shiftr x 3).
Definition sigma1 (x : Z) : Z := Z.lxor (Z.lxor (rotr 17 x) (rotr 19 x)) (Z.shiftr x 10).

(** The constants are derived as the standard defines them, from the
    first sixty-four primes: the first 32 bits of the fractional parts of
    their cube roots ([K]) and, for the first eight, of their square roots
    ([H0]). *)
Definition is_prime (n : nat) : bool :=
  forallb (fun d => negb (Nat.eqb (n mod d) 0)) (seq 2 (n - 2)).

Definition primes : list Z :=
  map Z.of_nat (List.filter is_prime (seq 2 310)).

(** The largest [r] below [2 ^ (bit + 1)] with [r ^ 3 <= n], bit by bit. *)
Fixpoint cube_root (bit : nat) (n r : Z) : Z :=
  let candidate := r + 2 ^ Z.of_nat bit in
  let r' := if candidate ^ 3 <=? n then candidate else r in
  match bit with
  | O => r'
  | S bit' => cube_root bit' n r'
  end.

Definition K : list Z :=
  map (fun p => cube_root 34 (p * 2 ^ 96) 0 mod 2 ^ 32) primes.

Definition H0 : list Z :=
  map (fun p => Z.sqrt (p * 2 ^ 64) mod 2 ^ 32) (take 8 primes).

(** [s.encode("utf-8")]: a [string] is kept as its UTF-8 bytes. *)
Fixpoint encode (s : string) : list Z :=
  match s with
  | EmptyString => []
  | String c rest => Z.of_N (N_of_ascii c) :: encode rest
  end.

(** Big-endian bytes of [x], [n] of them. *)
Fixpoint be_bytes (n : nat) (x : Z) : list Z :=
  match n with
  | O => []
  | S n' => be_bytes n' (Z.shiftr x 8) ++ [Z.land x 0xff]
  end.

(** The message followed by the bit [1], zeros up to 56 modulo 64 bytes,
    and the bit length on 8 bytes. *)
Definition pad (message : list Z) : list Z :=
  let len := Z.of_nat (List.length message) in
  let zeros := Z.to_nat ((55 - len) mod 64) in
  message ++ [0x80] ++ replicate zeros 0 ++ be_bytes 8 (8 * len).

Fixpoint words (fuel : nat) (bytes : list Z) : list Z :=
  match fuel, bytes with
  | S fuel', b0 :: b1 :: b2 :: b3 :: rest =>
      (Z.shiftl b0 24 + Z.shiftl b1 16 + Z.shiftl b2 8 + b3) :: words fuel' rest
  | _, _ => []
  end.

(** The message schedule, latest word first: [w] holds [W[t-1], W[t-2], ...]. *)
Fixpoint schedule (count : nat) (w : list Z) : list Z :=
  match count with
  | O => w
  | S count' =>
      let get i := nth i w 0 in
      let next := add32 (add32 (sigma1 (get 1%nat)) (get 6%nat))
                        (add32 (sigma0 (get 14%nat)) (get 15%nat)) in
      schedule count' (next :: w)
  end.

Record state : Type := State { a : Z; b : Z; c : Z; d : Z; e : Z; f : Z; g : Z; h : Z }.

Definition round (s : state) (kw : Z * Z) : state :=
  let T1 := add32 (add32 (add32 (h s) (Sigma1 (e s))) (add32 (Ch (e s) (f s) (g s)) (fst kw)))
                  (snd kw) in
  let T2 := add32 (Sigma0 (a s)) (Maj (a s) (b s) (c s)) in
  {| a := add32 T1 T2; b := a s; c := b s; d := c s;
     e := add32 (d s) T1; f := e s; g := f s; h := g s |}.

Definition of_list (l : list Z) : state :=
  let get i := nth i l 0 in
  {| a := get 0%nat; b := get 1%nat; c := get 2%nat; d := get 3%nat;
     e := get 4%nat; f := get 5%nat; g := get 6%nat; h := get 7%nat |}.

Definition to_list (s : state) : list Z :=
  [a s; b s; c s; d s; e s; f s; g s; h s].

(** One 64-byte block, given as its sixteen words. *)
Definition compress (hash : list Z) (block : list Z) : list Z :=
  let w := rev (schedule 48 (rev block)) in
  let final := fold_left round (zip K w) (of_list hash) in
  zip_with add32 hash (to_list final).

Fixpoint blocks (fuel : nat) (ws : list Z) (hash : list Z) : list Z :=
  match fuel, ws with
  | S fuel', _ :: _ => blocks fuel' (drop 16 ws) (compress hash (take 16 ws))
  | _, _ => hash
  end.

Definition sha256 (message : list Z) : list Z :=
  let padded := pad message in
  let ws := words (List.length padded) padded in
  blocks (List.length ws) ws H0.

Definition hex_char (x : Z) : ascii :=
  if x <? 10 then ascii_of_N (Z.to_N (48 + x)) else ascii_of_N (Z.to_N (87 + x)).

(** [count] hexadecimal digits of [x], most significant first. *)
Fixpoint hex (count : nat) (x : Z) (acc : string) : string :=
  match count with
  | O => acc
  | S count' => hex count' (Z.shiftr x 4) (String (hex_char (Z.land x 0xf)) acc)
  end.

(** [hashlib.sha256(message).hexdigest()] *)
Definition hexdigest (message : list Z) : string :=
  fold_right (fun word acc => hex 8 word acc) EmptyString (sha256 message).

End hashlib.

(** The value of a hexadecimal digit, if it is one. *)
Definition hex_value (ch : ascii) : option Z :=
  let n := Z.of_N (N_of_ascii ch) in
  if (48 <=? n) && (n <=? 57) then Some (n - 48)
  else if (97 <=? n) && (n <=? 102) then Some (n - 87)
  else if (65 <=? n) && (n <=? 70) then Some (n - 55)
  else None.

(** [int(s, 16)] for a string of hexadecimal digits; other strings (and the
    empty one) are refused. *)
Fixpoint int16_acc (s : string) (acc : Z) : option Z :=
  match s with
  | EmptyString => Some acc
  | String ch rest =>
      match hex_value ch with
      | Some v => int16_acc rest (16 * acc + v)
      | None => None
      end
  end.

Definition int16 (s : string) : result Z :=
  match s with
  | EmptyString => Raise (ValueError "invalid literal for int() with base 16")
  | _ =>
      match int16_acc s 0 with
      | Some z => Ok z
      | None => Raise (ValueError "invalid literal for int() with base 16")
      end
  end.

(** ** [stacks/database.py] *)

(** What a call into boto3 does: it returns, or it raises an exception whose
    [str] is [text]. *)
Inductive outcome (A : Type) : Type :=
  | Returned (a : A)
  | Failed (text : string).

Arguments Returned {A} a.
Arguments Failed {A} text.

Definition call {A : Type} (o : outcome A) : result A :=
  match o with
  | Returned a => Ok a
  | Failed text => Raise (External text)
  end.

(** An entry of [response["DBSnapshots"]]. *)
Record DBSnapshot : Type := MkDBSnapshot {
  DBSnapshotIdentifier : string;
  Status : string
}.

(** [client.describe_db_snapshots(DBSnapshotIdentifier=name)], giving the
    list [response["DBSnapshots"]]. *)
Record rds_client : Type := MkRdsClient {
  describe_db_snapshots : value → outcome (list DBSnapshot)
}.

(** [boto3.session.Session(profile_name=profile).client("rds")] *)
Record boto3 : Type := MkBoto3 {
  session_client : string → outcome rds_client
}.

(** The keyword arguments built by [_get_common_rds_config]. *)
Record rds_config : Type := MkRdsConfig {
  allocated_storage : value;
  instance_identifier : string;
  instance_type : value;
  deletion_protection : value;
  port : Z
}.

Inductive DatabaseInstance : Type :=
  | DatabaseInstanceFromSnapshot (id : string) (snapshot_identifier : string)
      (username : value) (config : rds_config)
  | DatabaseInstanceFromScratch (id : string) (storage_encrypted database_name : value)
      (username : value) (secret_name : string) (config : rds_config).

Module DatabaseStack.

(** The fields of [NetworkProtectedStack] are in [parent]. *)
Record t : Type := Mk {
  parent : NetworkProtectedStack.t;
  account : string;
  _application : string;
  _database : string;
  _network : string;
  _profile : string;
  _db : option DatabaseInstance;
  _sg : option string
}.

(** [__init__] *)
Definition new (application profile network database region account : string) : t :=
  {| parent := NetworkProtectedStack.new application network region;
     account := account;
     _application := application; _database := database;
     _network := network; _profile := profile;
     _db := None; _sg := None |}.

Definition region (self : t) : string := NetworkProtectedStack.region (parent self).

Definition resource_prefix (self : t) : string :=
  _application self +:+ "-" +:+ _network self +:+ "-" +:+ _database self.

Definition set_db (self : t) (db : DatabaseInstance) : t :=
  {| parent := parent self; account := account self;
     _application := _application self; _database := _database self;
     _network := _network self; _profile := _profile self;
     _db := Some db; _sg := _sg self |}.

Definition _create_sg (self : t) : result t :=
  Ok {| parent := parent self; account := account self;
        _application := _application self; _database := _database self;
        _network := _network self; _profile := _profile self;
        _db := _db self;
        _sg := Some (resource_prefix self +:+ "-database-security-group") |}.

Definition _get_common_rds_config (self : t) : result rds_config :=
  let! allocated_storage := Settings.get DatabaseStorageSize (_database self) in
  let! instance_type := Settings.get DatabaseInstanceTypeSettings (_database self) in
  let! deletion_protection := Settings.get DatabaseDeletionProtectionSettings (_database self) in
  Ok {| allocated_storage := allocated_storage;
        instance_identifier := resource_prefix self +:+ "-db";
        instance_type := instance_type;
        deletion_protection := deletion_protection;
        port := 3306 |}.

Definition _snapshot_exists (aws : boto3) (self : t) : result bool :=
  let! name := Settings.get DatabaseSnapshotName (_network self) in
  let! client := call (session_client aws (_profile self)) in
  match describe_db_snapshots client name with
  | Failed text =>
      if contains "DBSnapshotNotFound" text then Ok false
      else Raise (External text)
  | Returned snapshots =>
      match snapshots with
      | snapshot :: _ =>
          if String.eqb (Status snapshot) "available" then Ok true else Ok false
      | [] => Ok false
      end
  end.

(** [":".join([...])] needs the snapshot name to be a [str]. *)
Definition _get_snapshot_arn (self : t) : result string :=
  let! name := Settings.get DatabaseSnapshotName (_network self) in
  match name with
  | VStr name =>
      Ok ("arn:aws:rds:" +:+ region self +:+ ":" +:+ account self +:+ ":snapshot:" +:+ name)
  | _ => Raise (TypeError "sequence item 6: expected str instance")
  end.

Definition _create_db_from_snapshot (self : t) : result t :=
  let! snapshot_identifier := _get_snapshot_arn self in
  let! username := Settings.get DatabaseUsernameSettings (_database self) in
  let! config := _get_common_rds_config self in
  Ok (set_db self
        (DatabaseInstanceFromSnapshot (resource_prefix self +:+ "-db")
           snapshot_identifier username config)).

Definition _create_db_from_scratch (self : t) : result t :=
  let! storage_encrypted := Settings.get DatabaseEncryptionSettings (_database self) in
  let! database_name := Settings.get DatabaseNameSettings (_database self) in
  let! username := Settings.get DatabaseUsernameSettings (_database self) in
  let! config := _get_common_rds_config self in
  Ok (set_db self
        (DatabaseInstanceFromScratch (resource_prefix self +:+ "-db")
           storage_encrypted database_name username
           (resource_prefix self +:+ "-database-credentials") config)).

Definition _create_db (aws : boto3) (self : t) : result t :=
  let! exists_ := _snapshot_exists aws self in
  if (exists_ : bool) then _create_db_from_snapshot self
  else _create_db_from_scratch self.

Definition deploy (aws : boto3) (self : t) : result t :=
  let! _ := require (nonempty (_application self)) (AttributeError "Unknown application name!") in
  let! _ := require (nonempty (_network self)) (AttributeError "Unknown network name!") in
  let! _ := require (nonempty (_profile self)) (AttributeError "Unknown profile name!") in
  let! _ := require (nonempty (_database self)) (AttributeError "Unknown database name!") in
  let! _ := require (nonempty (region self)) (AttributeError "Unknown region name!") in
  let! _ := require (negb (Nat.eqb (List.length (NetworkProtectedStack._private_subnets (parent self))) 0))
              (AttributeError "Private subnets not found!") in
  let! self := _create_sg self in
  _create_db aws self.

(** Which constructor built [self._db]. *)
Definition restored_from_snapshot (self : t) : bool :=
  match _db self with
  | Some (DatabaseInstanceFromSnapshot _ _ _ _) => true
  | _ => false
  end.

Definition created_from_scratch (self : t) : bool :=
  match _db self with
  | Some (DatabaseInstanceFromScratch _ _ _ _ _ _) => true
  | _ => false
  end.

End DatabaseStack.

(** ** [stacks/environment.py] *)

Module BeanstalkStack.

Record t : Type := Mk {
  _application : string;
  _environment : string;
  _database : string;
  _network : string;
  _redis_db : string
}.

Definition _get_redis_db (network environment : string) : result string :=
  let! _ := require (nonempty network) (AttributeError "Network is missing") in
  let! _ := require (nonempty environment) (AttributeError "Environment is missing") in
  let! shared := Settings.get SharedCacheDatabaseSettings network in
  if truthy shared then Ok "0"
  else
    let! digest := int16 (hashlib.hexdigest (hashlib.encode environment)) in
    let numeric := digest mod 10 ^ 8 in
    last_char (str_int numeric).

(** [__init__]: the attributes are set, then [_redis_db] is computed. *)
Definition new (application network database environment : string) : result t :=
  let! redis_db := _get_redis_db network environment in
  Ok {| _application := application; _environment := environment;
        _database := database; _network := network; _redis_db := redis_db |}.

Definition _get_autoscaling_options (self : t) : result (gmap string value) :=
  let! min_size := Settings.get MinNodesSettings (_environment self) in
  let! max_size := Settings.get MaxNodesSettings (_environment self) in
  Ok (<["MinSize" := min_size]> (<["MaxSize" := max_size]> ∅)).

End BeanstalkStack.

(** ** [app.py] *)

Module App.

(** The variables of [app.py] that hold a stack. *)
Inductive stack : Type :=
  | registry | network | security | bastion | application
  | media | cache | opensearch | database | environment.

(** The class each of them is an instance of. *)
Inductive stack_class : Type :=
  | RegistryStack | NetworkStack | SecurityStack | BastionStack
  | ApplicationStack | MediaStack | CacheStack | OpensearchStack
  | DatabaseStack | BeanstalkStack.

#[global] Instance stack_eq_dec : EqDecision stack.
Proof. solve_decision. Defined.

#[global] Instance stack_class_eq_dec : EqDecision stack_class.
Proof. solve_decision. Defined.

(** The statements of the script after its logging set-up:
    [x = C(app, ...)], [x.load()], [x.deploy()], [x.export()],
    [x.add_dependency(y)] and [app.synth()]. *)
Inductive statement : Type :=
  | Instantiate (target : stack) (class : stack_class)
  | Load (target : stack)
  | Deploy (target : stack)
  | Export (target : stack)
  | AddDependency (dependent dependency : stack)
  | Synth.

#[global] Instance statement_eq_dec : EqDecision statement.
Proof. solve_decision. Defined.

(** [x = C(...); x.load(); x.deploy(); x.export()] *)
Definition build (target : stack) (class : stack_class) : list statement :=
  [Instantiate target class; Load target; Deploy target; Export target].

Definition program : list statement :=
  build registry RegistryStack
    ++ build network NetworkStack
    ++ build security SecurityStack
    ++ build bastion BastionStack
    ++ build application ApplicationStack
    ++ build media MediaStack
    ++ build cache CacheStack
    ++ build opensearch OpensearchStack
    ++ build database DatabaseStack
    ++ build environment BeanstalkStack
    ++ [AddDependency registry network;
        AddDependency bastion network;
        AddDependency security network;
        AddDependency database network;
        AddDependency media network;
        AddDependency cache network;
        AddDependency bastion security;
        AddDependency opensearch security;
        AddDependency application registry;
        AddDependency environment security;
        AddDependency environment cache;
        AddDependency environment database;
        AddDependency environment opensearch;
        AddDependency environment application;
        Synth].

(** The stacks the script instantiates, in order, with their classes. *)
Definition instantiated (p : list statement) : list (stack * stack_class) :=
  flat_map (fun st => match st with
                      | Instantiate target class => [(target, class)]
                      | _ => []
                      end) p.

(** The ordering constraints [(dependent, dependency)] the script declares. *)
Definition dependencies (p : list statement) : list (stack * stack) :=
  flat_map (fun st => match st with
                      | AddDependency x y => [(x, y)]
                      | _ => []
                      end) p.

(** Position in [p] of the first statement satisfying [test]. *)
Fixpoint position (test : statement → bool) (p : list statement) : option nat :=
  match p with
  | [] => None
  | st :: rest => if test st then Some O else S <$> position test rest
  end.

Definition is_instantiate (target : stack) (st : statement) : bool :=
  match st with
  | Instantiate x _ => bool_decide (x = target)
  | _ => false
  end.

(** [x] is instantiated, and [first] is run, before [second] is
    instantiated. *)
Definition runs_before (p : list statement) (first : statement) (second : stack) : bool :=
  match position (fun st => bool_decide (st = first)) p, position (is_instantiate second) p with
  | Some i, Some j => Nat.ltb i j
  | _, _ => false
  end.

Definition instantiated_before (p : list statement) (first second : stack) : bool :=
  match position (is_instantiate first) p, position (is_instantiate second) p with
  | Some i, Some j => Nat.ltb i j
  | _, _ => false
  end.

(** The dependency [y] of [x] is built (instantiated, loaded, deployed and
    exported) before [x] is instantiated. *)
Definition in_dependency_order (p : list statement) (x y : stack) : bool :=
  instantiated_before p y x
    && runs_before p (Load y) x && runs_before p (Deploy y) x && runs_before p (Export y) x.

(** The parameters read from the command line and the environment;
    [None] is a context value or variable that is not set. *)
Record cli : Type := MkCli {
  profile_ctx : option string;
  application_ctx : option string;
  database_ctx : option string;
  network_ctx : option string;
  environment_ctx : option string;
  CDK_DEFAULT_ACCOUNT : option string;
  CDK_DEFAULT_REGION : option string
}.

(** [not x] for a value that is [None] or a string. *)
Definition missing (x : option string) : bool :=
  match x with
  | Some s => negb (nonempty s)
  | None => true
  end.

(** [os.environ[name]] *)
Definition environ (name : string) (x : option string) : result string :=
  match x with
  | Some s => Ok s
  | None => Raise (KeyError name)
  end.

(** The construction of [settings] and the checks that follow it. *)
Definition validate (c : cli) : result unit :=
  let! _ := environ "CDK_DEFAULT_ACCOUNT" (CDK_DEFAULT_ACCOUNT c) in
  let! _ := environ "CDK_DEFAULT_REGION" (CDK_DEFAULT_REGION c) in
  let! _ := require (negb (missing (application_ctx c))) (ValueError "Missing 'application' parameter.") in
  let! _ := require (negb (missing (database_ctx c))) (ValueError "Missing 'database' parameter.") in
  let! _ := require (negb (missing (network_ctx c))) (ValueError "Missing 'network' parameter.") in
  let! _ := require (negb (missing (environment_ctx c))) (ValueError "Missing 'environment' parameter.") in
  let! _ := require (negb (missing (CDK_DEFAULT_ACCOUNT c))) (OSError "Missing 'CDK_DEFAULT_ACCOUNT' environment variable") in
  require (negb (missing (CDK_DEFAULT_REGION c))) (OSError "Missing 'CDK_DEFAULT_REGION' environment variable").

End App.

(** * The other stacks and the wiring between them *)

(** Further settings classes of [stacks/settings.py]. *)

Definition ServerAmiSettings : pyclass :=
  Settings.subclass "ServerAmiSettings"
    [("production", VStr "ami-075200050e2c8899b"); ("default", VStr "ami-075200050e2c8899b")].

Definition ServerKeyPairSettings : pyclass :=
  Settings.subclass "ServerKeyPairSettings"
    [("mainnet", VStr "MkpProduction"); ("testnet", VStr "MkpTesting");
     ("devnet", VStr "MkpDevelopment")].

Definition BastionInstanceTypeSettings : pyclass :=
  Settings.subclass "BastionInstanceTypeSettings"
    [("mainnet", VInstanceType "STANDARD6_GRAVITON" "SMALL");
     ("testnet", VInstanceType "BURSTABLE4_GRAVITON" "SMALL");
     ("default", VInstanceType "BURSTABLE4_GRAVITON" "SMALL")].

Definition RollingUpdateRollingUpdateEnabledSettings : pyclass :=
  Settings.subclass "RollingUpdateRollingUpdateEnabledSettings"
    [("proddb", VBool true); ("demodb", VBool true); ("default", VBool false)].

Definition RollingUpdateMinInstancesInServiceSettings : pyclass :=
  Settings.subclass "RollingUpdateMinInstancesInServiceSettings"
    [("proddb", VInt 1); ("demodb", VInt 1)].

Definition RollingUpdateMaxBatchSizeSettings : pyclass :=
  Settings.subclass "RollingUpdateMaxBatchSizeSettings"
    [("proddb", VInt 1); ("demodb", VInt 1)].

(** ** [stacks/bastion.py] *)

(** [ec2.Instance], with the subnet it is placed in. *)
Record Instance : Type := MkInstance {
  instance_construct_id : string;
  ec2_instance_type : value;
  instance_availability_zone : string;
  key_name : value;
  machine_image : value;
  instance_subnet : Subnet
}.

Module BastionStack.

(** The fields of [NetworkProtectedStack] are in [parent]. *)
Record t : Type := Mk {
  parent : NetworkProtectedStack.t;
  _application : string;
  _network : string;
  _ec2 : list Instance;
  _sg : option string;
  _eip : list string;
  _role : option token
}.

Definition MAX_EC2_INSTANCES : nat := 2.

(** [__init__] *)
Definition new (application network region : string) : t :=
  {| parent := NetworkProtectedStack.new application network region;
     _application := application; _network := network;
     _ec2 := []; _sg := None; _eip := []; _role := None |}.

Definition region (self : t) : string := NetworkProtectedStack.region (parent self).

Definition resource_prefix (self : t) : string :=
  _application self +:+ "-" +:+ _network self.

Definition role_import_name (application network : string) : string :=
  application +:+ "::" +:+ network +:+ "::application::ec2::role::name".

(** [load]: the network is imported, then the role of the security stack. *)
Definition load (self : t) : result t :=
  let! parent := NetworkProtectedStack.load (parent self) in
  Ok {| parent := parent;
        _application := _application self; _network := _network self;
        _ec2 := _ec2 self; _sg := _sg self; _eip := _eip self;
        _role := Some (ImportValue (role_import_name (_application self) (_network self))) |}.

Definition _create_sg (self : t) : result t :=
  Ok {| parent := parent self;
        _application := _application self; _network := _network self;
        _ec2 := _ec2 self;
        _sg := Some (resource_prefix self +:+ "-bastion-security-group");
        _eip := _eip self; _role := _role self |}.

(** The loop of [_create_ec2] over [self._public_subnets[:MAX_EC2_INSTANCES]]:
    one server per subnet, in the next availability zone of the cycle. *)
Fixpoint create_instances (self : t) (index : nat) (subnets : list Subnet)
    (availability_zones : itertools.cycle_iter) (instances : list Instance)
    : result (list Instance) :=
  match subnets with
  | [] => Ok instances
  | subnet :: others =>
      let! zone := next availability_zones in
      let az := region self +:+ fst zone in
      let id := resource_prefix self +:+ "-bastion-" +:+ str_nat (index + 1) in
      let! instance_type := Settings.get BastionInstanceTypeSettings (_network self) in
      let! key_name := Settings.get ServerKeyPairSettings (_network self) in
      let! image := Settings.get ServerAmiSettings (_network self) in
      let bastion :=
        {| instance_construct_id := id; ec2_instance_type := instance_type;
           instance_availability_zone := az; key_name := key_name;
           machine_image := image; instance_subnet := subnet |} in
      create_instances self (S index) others (snd zone) (instances ++ [bastion])
  end.

Definition _create_ec2 (self : t) : result t :=
  let! _ := require (bool_decide (is_Some (_sg self)))
              (RuntimeError "The security group for the bastion server has not been created!") in
  let! _ := require (bool_decide (is_Some (_role self))) (RuntimeError "EC2 role not found!") in
  let! availability_zones := Settings.cycle AvailabilityZonesSettings (_network self) in
  let! instances :=
    create_instances self 0
      (take MAX_EC2_INSTANCES (NetworkProtectedStack._public_subnets (parent self)))
      availability_zones (_ec2 self) in
  Ok {| parent := parent self;
        _application := _application self; _network := _network self;
        _ec2 := instances; _sg := _sg self; _eip := _eip self; _role := _role self |}.

Definition _create_eip (self : t) : result t :=
  let eips :=
    imap (fun index _ => resource_prefix self +:+ "-elastic-ip-" +:+ str_nat (index + 1))
         (_ec2 self) in
  Ok {| parent := parent self;
        _application := _application self; _network := _network self;
        _ec2 := _ec2 self; _sg := _sg self; _eip := _eip self ++ eips;
        _role := _role self |}.

Definition deploy (self : t) : result t :=
  let! _ := require (nonempty (_application self)) (AttributeError "Unknown application name!") in
  let! _ := require (nonempty (_network self)) (AttributeError "Unknown network name!") in
  let! _ := require (nonempty (region self)) (AttributeError "Unknown region name!") in
  let! _ := require (negb (Nat.eqb (List.length (NetworkProtectedStack._public_subnets (parent self))) 0))
              (AttributeError "Public subnets not found!") in
  let! self := _create_sg self in
  let! self := _create_ec2 self in
  _create_eip self.

Definition bastion_export_name (application network : string) (index : nat) : string :=
  application +:+ "::" +:+ network +:+ "::bastion::" +:+ str_nat (index + 1) +:+ "::ip".

(** The export names of [export]: one per bastion server. *)
Definition export_names (self : t) : list string :=
  imap (fun index _ => bastion_export_name (_application self) (_network self) index)
       (_ec2 self).

(** The names passed to [Fn.import_value] by [load]. *)
Definition import_names (self : t) : list string :=
  NetworkProtectedStack.import_names (parent self)
    ++ match _role self with
       | Some (ImportValue name) => [name]
       | _ => []
       end.

End BastionStack.

(** ** Export and import names of the stacks *)

(** [sep.join(parts)] *)
Fixpoint join (sep : string) (parts : list string) : string :=
  match parts with
  | [] => EmptyString
  | part :: others =>
      match others with
      | [] => part
      | _ :: _ => part +:+ sep +:+ join sep others
      end
  end.

(** The export names of the [CfnOutput]s of each [export], in order, for the
    stacks whose resources are not modelled. *)
Module Exports.

Definition registry (application : string) : list string :=
  [application +:+ "::deployments::bucket::name";
   application +:+ "::ecr::uri";
   application +:+ "::ecr::name"].

Definition security (application network : string) : list string :=
  map (fun name => application +:+ "::" +:+ network +:+ name)
    ["::application::ec2::role::name";
     "::application::bastion::role::name";
     "::application::ec2::profile::name";
     "::application::elb::role::name";
     "::application::ec2::sg::id";
     "::application::elb::sg::id"].

Definition application (application network : string) : list string :=
  [application +:+ "::" +:+ network +:+ "::application::name"].

Definition media (application network : string) : list string :=
  [application +:+ "::" +:+ network +:+ "::bucket::name";
   application +:+ "::" +:+ network +:+ "::cdn::domain"].

Definition cache (application network : string) : list string :=
  [application +:+ "::" +:+ network +:+ "::cache::host";
   application +:+ "::" +:+ network +:+ "::cache::port"].

Definition opensearch (application network : string) : list string :=
  [application +:+ "::" +:+ network +:+ "::opensearch::host"].

Definition database (application network database : string) : list string :=
  map (fun name => application +:+ "::" +:+ network +:+ "::" +:+ database +:+ name)
    ["::database::host"; "::database::port"; "::database::secret"].

Definition environment (application network environment : string) : list string :=
  [application +:+ "::" +:+ network +:+ "::app::" +:+ environment +:+ "::url";
   application +:+ "::" +:+ network +:+ "::frontend::" +:+ environment +:+ "::bucket::name";
   application +:+ "::" +:+ network +:+ "::app::" +:+ environment +:+ "::secret::name";
   application +:+ "::" +:+ network +:+ "::app::" +:+ environment +:+ "::redis::db"].

End Exports.

(** The names [BeanstalkStack.load] passes to [Fn.import_value] after the
    network is imported, in order. *)
Definition beanstalk_import_names (application network database : string) : list string :=
  [application +:+ "::" +:+ network +:+ "::application::name";
   application +:+ "::" +:+ network +:+ "::cache::host";
   application +:+ "::" +:+ network +:+ "::cache::port";
   application +:+ "::" +:+ network +:+ "::" +:+ database +:+ "::database::host";
   application +:+ "::" +:+ network +:+ "::" +:+ database +:+ "::database::port";
   application +:+ "::" +:+ network +:+ "::" +:+ database +:+ "::database::secret";
   application +:+ "::" +:+ network +:+ "::opensearch::host";
   application +:+ "::" +:+ network +:+ "::application::ec2::sg::id";
   application +:+ "::" +:+ network +:+ "::application::elb::sg::id";
   application +:+ "::" +:+ network +:+ "::application::ec2::role::name";
   application +:+ "::" +:+ network +:+ "::application::elb::role::name";
   application +:+ "::" +:+ network +:+ "::application::ec2::profile::name";
   application +:+ "::" +:+ network +:+ "::bucket::name";
   application +:+ "::" +:+ network +:+ "::cdn::domain";
   application +:+ "::deployments::bucket::name"].

Module Wiring.

(** The values of the [settings] dictionary of [app.py] once validated. *)
Record settings : Type := MkSettings {
  profile : string;
  application : string;
  database : string;
  network : string;
  environment : string;
  account : string;
  region : string
}.

(** The [construct_id] each stack is instantiated with. *)
Definition construct_id (c : settings) (target : App.stack) : string :=
  match target with
  | App.registry => join "-" [application c; "registry"; "stack"]
  | App.network => join "-" [application c; network c; "net"; "stack"]
  | App.security => join "-" [application c; network c; "security"; "stack"]
  | App.bastion => join "-" [application c; network c; "bastion"; "stack"]
  | App.application => join "-" [application c; network c; "app"; "stack"]
  | App.media => join "-" [application c; network c; "media"; "stack"]
  | App.cache => join "-" [application c; network c; "redis"; "stack"]
  | App.opensearch => join "-" [application c; network c; "os"; "stack"]
  | App.database => join "-" [application c; network c; database c; "database"; "stack"]
  | App.environment =>
      join "-" [application c; network c; database c; environment c; "environment"; "stack"]
  end.

(** The names exported by the network stack once deployed. *)
Definition network_exports (c : settings) : list string :=
  match
    (let! s := NetworkStack.deploy (NetworkStack.new (application c) (network c) (region c)) in
     NetworkStack.export s)
  with
  | Ok s => NetworkStack.export_names s
  | Raise _ => []
  end.

(** The names imported by [NetworkProtectedStack.load]. *)
Definition network_imports (c : settings) : list string :=
  match NetworkProtectedStack.load
          (NetworkProtectedStack.new (application c) (network c) (region c)) with
  | Ok p => NetworkProtectedStack.import_names p
  | Raise _ => []
  end.

(** The bastion stack after [load] and [deploy]. *)
Definition bastion_stack (c : settings) : result BastionStack.t :=
  let! self := BastionStack.load (BastionStack.new (application c) (network c) (region c)) in
  BastionStack.deploy self.

(** The names each stack has exported when its [export] returns. *)
Definition exports (c : settings) (target : App.stack) : list string :=
  match target with
  | App.registry => Exports.registry (application c)
  | App.network => network_exports c
  | App.security => Exports.security (application c) (network c)
  | App.bastion =>
      match bastion_stack c with
      | Ok self => BastionStack.export_names self
      | Raise _ => []
      end
  | App.application => Exports.application (application c) (network c)
  | App.media => Exports.media (application c) (network c)
  | App.cache => Exports.cache (application c) (network c)
  | App.opensearch => Exports.opensearch (application c) (network c)
  | App.database => Exports.database (application c) (network c) (database c)
  | App.environment => Exports.environment (application c) (network c) (environment c)
  end.

(** The names each stack has imported when its [load] returns: the stacks
    derived from [NetworkProtectedStack] import the network, the bastion
    and environment stacks import more. *)
Definition imports (c : settings) (target : App.stack) : list string :=
  match target with
  | App.registry | App.network | App.application | App.media => []
  | App.security | App.cache | App.opensearch | App.database => network_imports c
  | App.bastion =>
      network_imports c ++ [BastionStack.role_import_name (application c) (network c)]
  | App.environment =>
      network_imports c
        ++ beanstalk_import_names (application c) (network c) (database c)
  end.

(** [x] depends on [y] through at most [fuel + 1] declared dependencies. *)
Fixpoint reaches (fuel : nat) (deps : list (App.stack * App.stack)) (x y : App.stack) : bool :=
  existsb (fun d =>
             if bool_decide (fst d = x) then
               if bool_decide (snd d = y) then true
               else
                 match fuel with
                 | O => false
                 | S fuel' => reaches fuel' deps (snd d) y
                 end
             else false)
          deps.

(** [x] depends on [y], directly or not, by the [add_dependency] calls of
    [app.py]. *)
Definition depends_on (x y : App.stack) : bool :=
  reaches 10 (App.dependencies App.program) x y.

End Wiring.

(** ** [stacks/environment.py]: the option settings of the environment *)

(** The objects found in the dictionary of options. A [dict] keeps its items
    in insertion order; [OOther text truth] is an object of any other type,
    with its [str] and its truth value. *)
#[warnings="-register-all"]
Inductive pyobj : Type :=
  | ODict (items : list (string * pyobj))
  | OList (items : list pyobj)
  | OStr (s : string)
  | OBool (b : bool)
  | OInt (z : Z)
  | OOther (text : string) (truth : bool).

(** A comprehension whose body may raise: the items are evaluated in order
    and the first exception ends the loop. *)
Section comprehension.

Context {A B : Type}.
Variable body : A → result B.

Fixpoint comprehension (items : list A) : result (list B) :=
  match items with
  | [] => Ok []
  | item :: rest =>
      let! item := body item in
      let! rest := comprehension rest in
      Ok (item :: rest)
  end.

End comprehension.

(** Truth value of an object, as tested by [if option and value]. *)
Definition truth_of (o : pyobj) : bool :=
  match o with
  | ODict items => negb (Nat.eqb (List.length items) 0)
  | OList items => negb (Nat.eqb (List.length items) 0)
  | OStr s => nonempty s
  | OBool b => b
  | OInt z => negb (z =? 0)
  | OOther _ truth => truth
  end.

(** [value.items()] *)
Definition items_of (o : pyobj) : result (list (string * pyobj)) :=
  match o with
  | ODict items => Ok items
  | _ => Raise (AttributeError "object has no attribute 'items'")
  end.

(** [eb.CfnEnvironment.OptionSettingProperty] *)
Record OptionSettingProperty : Type := MkOptionSettingProperty {
  namespace : string;
  option_name : string;
  option_value : pyobj
}.

Module EnvironmentOptions.

Section json.

(** [json.dumps] of a list; of a [bool] and of an [int] it gives the JSON
    literal. *)
Variable json_dumps : list pyobj → string.

Definition json_dumps_bool (b : bool) : string :=
  if b then "true" else "false".

Definition json_dumps_int (z : Z) : string := str_int z.

(** [BeanstalkStack._cast_to_string] *)
Fixpoint _cast_to_string (value : pyobj) : result pyobj :=
  match value with
  | ODict items =>
      let! items :=
        comprehension
          (λ entry : string * pyobj,
             let! item := _cast_to_string (snd entry) in Ok (fst entry, item))
          items in
      Ok (ODict items)
  | OList items =>
      let! items := comprehension _cast_to_string items in
      Ok (OStr (json_dumps items))
  | OStr _ => Ok value
  | OBool b => Ok (OStr (json_dumps_bool b))
  | OInt z => Ok (OStr (json_dumps_int z))
  | OOther text _ => Raise (TypeError ("Invalid option: " +:+ text))
  end.

(** The last step of [BeanstalkStack._get_options], applied to the
    dictionary of the namespaces it has collected. *)
Definition _get_options (options : pyobj) : result pyobj :=
  _cast_to_string options.

(** The options of one namespace that pass [if option and value]. *)
Definition settings_of_namespace (name : string) (options : list (string * pyobj))
    : list OptionSettingProperty :=
  map (λ entry, MkOptionSettingProperty name (fst entry) (snd entry))
      (List.filter (λ entry, nonempty (fst entry) && truth_of (snd entry)) options).

(** The list [option_settings] built by [BeanstalkStack._create_env]. *)
Fixpoint option_settings_of (namespaces : list (string * pyobj))
    : result (list OptionSettingProperty) :=
  match namespaces with
  | [] => Ok []
  | (name, options) :: rest =>
      let! options := items_of options in
      let! rest := option_settings_of rest in
      Ok (settings_of_namespace name options ++ rest)
  end.

Definition option_settings (options : pyobj) : result (list OptionSettingProperty) :=
  let! options := _get_options options in
  let! namespaces := items_of options in
  option_settings_of namespaces.

End json.

(** [BeanstalkStack._get_rolling_update_options] *)
Definition _get_rolling_update_options (self : BeanstalkStack.t)
    : result (gmap string value) :=
  let! enabled :=
    Settings.get RollingUpdateRollingUpdateEnabledSettings (BeanstalkStack._network self) in
  if truthy enabled then
    let! max_batch_size :=
      Settings.get RollingUpdateMaxBatchSizeSettings (BeanstalkStack._network self) in
    let! min_instances :=
      Settings.get RollingUpdateMinInstancesInServiceSettings (BeanstalkStack._network self) in
    Ok (<["MaxBatchSize" := max_batch_size]>
        (<["MinInstancesInService" := min_instances]>
         (<["RollingUpdateEnabled" := VBool true]> ∅)))
  else Ok ∅.

End EnvironmentOptions.

(** * Vocabulary of the properties *)

Local Open Scope nat_scope.
Local Open Scope list_scope.

(** ** Round-robin assignment of availability zones *)

(** The state of the iterator over [z] after [i] calls of [next]: it still
    has to hand out the elements of [z] from some position [j] congruent to
    [i]; position [length z] is the exhausted first pass. *)
Definition cycle_at (z : list string) (i : nat) (it : itertools.cycle_iter) : Prop :=
  itertools.cy_saved it = z ∧
  ∃ j, j ≤ length z ∧ itertools.cy_pending it = drop j z ∧ j mod length z = i mod length z.

(** The availability zones of a list of subnets follow [z] round-robin,
    the subnet at position [i] being the one numbered [first + i]. *)
Definition zones_assigned (region : string) (z : list string) (first : nat)
    (subnets : list Subnet) : Prop :=
  ∀ i s, subnets !! i = Some s →
    ∃ zone, z !! ((first + i) mod length z) = Some zone ∧
            availability_zone s = region +:+ zone.

(** The availability zones configured for a network. *)
Definition tier_zones (network : string) (z : list string) : Prop :=
  ∃ v, Settings.get AvailabilityZonesSettings network = Ok v ∧
       Settings.as_sequence v = Some z.

(** ** Names of attributes *)

(** A name that the interpreter does not answer for by itself: the
    attributes every class has without declaring them are named with two
    leading underscores, but for the method [mro]. For such a name
    [hasattr] finds what the class dictionaries of the model hold, and
    nothing else. *)
Definition declared_name (n : string) : bool :=
  negb (String.prefix "__" n) && negb (String.eqb n "mro").

(** ** Networks and CIDR blocks *)

(** The three networks of [settings.py]. *)
Definition tiers : list string := ["mainnet"; "testnet"; "devnet"].

(** The first two dotted components of a subnet CIDR and of the VPC CIDR
    differ. *)
Definition prefix_differs (cidr_block vpc_cidr : string) : Prop :=
  take 2 (split "." cidr_block) ≠ take 2 (split "." vpc_cidr).

(** The names a network with [publics] public and [privates] private
    subnets is known by. *)
Definition public_names (a n : string) (count : nat) : list string :=
  map (subnet_export_name a n "public") (seq 0 count).

Definition private_names (a n : string) (count : nat) : list string :=
  map (subnet_export_name a n "private") (seq 0 count).

(** ** Sample clients of the database stack *)


Definition aws_with_snapshot : boto3 :=
  {| session_client := fun _ =>
       Returned {| describe_db_snapshots := fun _ =>
         Returned [ {| DBSnapshotIdentifier := "latest"; Status := "available" |} ] |} |}.

Definition aws_unreachable : boto3 :=
  {| session_client := fun _ =>
       Returned {| describe_db_snapshots := fun _ =>
         Failed "Could not connect to the endpoint URL" |} |}.

Definition database_stack_example : DatabaseStack.t :=
  DatabaseStack.new "app" "default" "devnet" "demodb" "us-west-2" "767087296931".

(** ** Digits *)

Definition is_decimal_digit (s : string) : Prop :=
  s ∈ ["0"; "1"; "2"; "3"; "4"; "5"; "6"; "7"; "8"; "9"].

(** A string made of hexadecimal digits only. *)
Fixpoint all_hex (s : string) : Prop :=
  match s with
  | EmptyString => True
  | String ch rest => is_Some (hex_value ch) ∧ all_hex rest
  end.

(** ** Stack ids *)

(** The last nine characters of the [construct_id] of each stack. *)
Definition construct_id_ending (target : App.stack) : string :=
  match target with
  | App.registry => "try-stack"
  | App.network => "net-stack"
  | App.security => "ity-stack"
  | App.bastion => "ion-stack"
  | App.application => "app-stack"
  | App.media => "dia-stack"
  | App.cache => "dis-stack"
  | App.opensearch => "-os-stack"
  | App.database => "ase-stack"
  | App.environment => "ent-stack"
  end.

(** ** Reading a decimal string *)

(** The number a string of decimal digits denotes. *)
Fixpoint decimal_value (s : string) : N :=
  match s with
  | EmptyString => 0%N
  | String ch rest =>
      ((N_of_ascii ch - 48) * 10 ^ N.of_nat (String.length rest) + decimal_value rest)%N
  end.

(** ** Dictionaries of options *)

(** "Nothing but dictionaries and strings": what Elastic Beanstalk takes. *)
Fixpoint plain (o : pyobj) : bool :=
  match o with
  | ODict items => forallb (λ entry, plain (snd entry)) items
  | OStr _ => true
  | _ => false
  end.

(** "[o] holds [x]": [x] is [o] itself, or a value of the dictionary [o], or
    an element of the list [o], or is held by one of these. *)
Inductive holds : pyobj → pyobj → Prop :=
  | holds_itself o : holds o o
  | holds_in_dict items name item x :
      (name, item) ∈ items → holds item x → holds (ODict items) x
  | holds_in_list items item x :
      item ∈ items → holds item x → holds (OList items) x.

(** A [json.dumps] to run the examples with: it only counts the elements. *)
Definition json_dumps_sample (items : list pyobj) : string :=
  "[" +:+ str_nat (List.length items) +:+ "]".

(** A dictionary of options, what [_cast_to_string] makes of it, and the
    option settings it gives. *)
Definition options_example : pyobj :=
  ODict [("aws:ec2:instances",
          ODict [("EnableSpot", OBool false); ("SupportedArchitectures", OStr "x86_64");
                 ("InstanceTypes", OStr "")]);
         ("aws:autoscaling:asg",
          ODict [("MinSize", OInt 0); ("MaxSize", OInt 1)]);
         ("aws:autoscaling:launchconfiguration",
          ODict [("RootVolumeSize", OInt 30); ("SecurityGroups", OList [OStr "sg-1"])])].

Definition options_example_cast : pyobj :=
  ODict [("aws:ec2:instances",
          ODict [("EnableSpot", OStr "false"); ("SupportedArchitectures", OStr "x86_64");
                 ("InstanceTypes", OStr "")]);
         ("aws:autoscaling:asg",
          ODict [("MinSize", OStr "0"); ("MaxSize", OStr "1")]);
         ("aws:autoscaling:launchconfiguration",
          ODict [("RootVolumeSize", OStr "30"); ("SecurityGroups", OStr "[1]")])].

Definition options_example_settings : list OptionSettingProperty :=
  [MkOptionSettingProperty "aws:ec2:instances" "EnableSpot" (OStr "false");
   MkOptionSettingProperty "aws:ec2:instances" "SupportedArchitectures" (OStr "x86_64");
   MkOptionSettingProperty "aws:autoscaling:asg" "MinSize" (OStr "0");
   MkOptionSettingProperty "aws:autoscaling:asg" "MaxSize" (OStr "1");
   MkOptionSettingProperty "aws:autoscaling:launchconfiguration" "RootVolumeSize" (OStr "30");
   MkOptionSettingProperty "aws:autoscaling:launchconfiguration" "SecurityGroups"
     (OStr "[1]")].

(** * Properties *)

(** ** The result monad *)

Lemma bind_Ok_inv {A B : Type} (r : result A) (k : A → result B) (b : B) :
  bind r k = Ok b → ∃ a, r = Ok a ∧ k a = Ok b.
Proof. destruct r as [a|e]; simpl; [eauto | discriminate]. Qed.

Lemma bind_Raise_inv {A B : Type} (r : result A) (k : A → result B) (e : exn) :
  bind r k = Raise e → r = Raise e ∨ ∃ a, r = Ok a ∧ k a = Raise e.
Proof. destruct r as [a|e']; simpl; [eauto | intros [= ->]; auto]. Qed.

Lemma require_Ok_inv (cond : bool) (e : exn) (u : unit) :
  require cond e = Ok u → cond = true.
Proof. destruct cond; simpl; [done | discriminate]. Qed.

(** Splits a hypothesis [bind r k = Ok b] into its two steps. *)
Ltac bind_inv H :=
  let a := fresh "a" in
  let Hr := fresh "Hstep" in
  apply bind_Ok_inv in H as (a & Hr & H).

Tactic Notation "bind_step" hyp(H) "as" ident(a) ident(Hr) :=
  apply bind_Ok_inv in H as (a & Hr & H).

(** ** Attribute lookup and [Settings.get] *)

Lemma class_lookup_sound : ∀ (c : pyclass) (n : string) (v : value),
  class_lookup c n = Some v → attribute_of c n v.
Proof.
  fix IH 1. intros [name d b] n v. simpl.
  destruct (d !! n) as [w|] eqn:Hd.
  - intros [= ->]. by apply attr_own.
  - destruct b as [p|]; [|discriminate].
    intros Hp. apply attr_inherited; [done|]. by apply IH.
Qed.

Lemma class_lookup_complete (c : pyclass) (n : string) (v : value) :
  attribute_of c n v → class_lookup c n = Some v.
Proof.
  induction 1 as [name d b n v Hd | name d p n v Hd _ IH]; simpl.
  - by rewrite Hd.
  - by rewrite Hd.
Qed.

Lemma class_lookup_None (c : pyclass) (n : string) :
  class_lookup c n = None ↔ ¬ has_attribute c n.
Proof.
  split.
  - intros Hn [v Hv]. apply class_lookup_complete in Hv. congruence.
  - intros Hn. destruct (class_lookup c n) as [v|] eqn:Hl; [|done].
    exfalso. apply Hn. exists v. by apply class_lookup_sound.
Qed.

Lemma get_exact (c : pyclass) (n : string) (v : value) :
  class_lookup c n = Some v → Settings.get c n = Ok v.
Proof. intros H. unfold Settings.get, hasattr, getattr. by rewrite H. Qed.

Lemma get_default (c : pyclass) (n : string) (d : value) :
  class_lookup c n = None → class_lookup c "default" = Some d →
  Settings.get c n = Ok d.
Proof. intros Hn Hd. unfold Settings.get, hasattr, getattr. by rewrite Hn, Hd. Qed.

Lemma get_missing (c : pyclass) (n : string) :
  class_lookup c n = None → class_lookup c "default" = None →
  Settings.get c n =
    Raise (KeyError ("Not supported by '" +:+ cls_name c +:+ "': '" +:+ n +:+ "'.")).
Proof. intros Hn Hd. unfold Settings.get, hasattr. by rewrite Hn, Hd. Qed.

(** The attributes a subclass of [Settings] answers to: its own, then the
    three class methods. *)
Lemma subclass_lookup_other (name : string) (attrs : list (string * value)) (n : string) :
  n ∉ attrs.*1 → n ≠ "get" → n ≠ "cycle" → n ≠ "length" →
  class_lookup (Settings.subclass name attrs) n = None.
Proof.
  intros Hattrs Hget Hcycle Hlength. unfold Settings.subclass. simpl.
  rewrite (proj1 (not_elem_of_list_to_map attrs n) Hattrs).
  by rewrite !lookup_insert_ne, lookup_empty.
Qed.

(** A value returned by [Settings.get] is an attribute of the class, named
    as asked or ["default"]. *)
Lemma get_Ok_inv (c : pyclass) (n : string) (v : value) :
  Settings.get c n = Ok v →
  class_lookup c n = Some v ∨
  (class_lookup c n = None ∧ class_lookup c "default" = Some v).
Proof.
  unfold Settings.get, hasattr, getattr.
  destruct (class_lookup c n) as [w|]; [intros [= ->]; auto|].
  destruct (class_lookup c "default") as [w|]; [intros [= ->]; auto | discriminate].
Qed.

(** C1. [Settings.get]: for every class [C] and name [n], [C.get(n)] is the
    attribute named [n] when [C] defines or inherits one; otherwise the
    attribute named [default] when there is one; otherwise a [KeyError] is
    raised. When both exist the exact name wins over the default. *)
Theorem Settings_get_resolution (C : pyclass) (n : string) :
  (∀ v, attribute_of C n v → Settings.get C n = Ok v) ∧
  (∀ d, ¬ has_attribute C n → attribute_of C "default" d → Settings.get C n = Ok d) ∧
  (¬ has_attribute C n → ¬ has_attribute C "default" →
     ∃ msg, Settings.get C n = Raise (KeyError msg)) ∧
  (∀ v d, attribute_of C n v → attribute_of C "default" d → Settings.get C n = Ok v).
Proof.
  split; [|split; [|split]].
  - intros v Hv. by apply get_exact, class_lookup_complete.
  - intros d Hn Hd. apply get_default.
    + by apply class_lookup_None.
    + by apply class_lookup_complete.
  - intros Hn Hd. eexists. apply get_missing; by apply class_lookup_None.
  - intros v d Hv _. by apply get_exact, class_lookup_complete.
Qed.

Lemma Settings_get_resolution_witness :
  Settings.get MaxNodesSettings "proddb" = Ok (VInt 2) ∧
  Settings.get MaxNodesSettings "staging" = Ok (VInt 1) ∧
  Settings.get MaxNodesSettings "length" = Ok (VClassMethod "length") ∧
  ∃ msg, Settings.get VpcCidrSettings "staging" = Raise (KeyError msg).
Proof.
  split; [|split; [|split]].
  - apply (proj1 (Settings_get_resolution MaxNodesSettings "proddb")).
    apply class_lookup_sound. vm_compute. reflexivity.
  - apply (proj1 (proj2 (Settings_get_resolution MaxNodesSettings "staging"))).
    + apply class_lookup_None. vm_compute. reflexivity.
    + apply class_lookup_sound. vm_compute. reflexivity.
  - apply (proj1 (Settings_get_resolution MaxNodesSettings "length")).
    apply class_lookup_sound. vm_compute. reflexivity.
  - apply (proj1 (proj2 (proj2 (Settings_get_resolution VpcCidrSettings "staging")))).
    + apply class_lookup_None. vm_compute. reflexivity.
    + apply class_lookup_None. vm_compute. reflexivity.
Defined.

(** ** [itertools.cycle] hands out its elements round-robin *)

Lemma cycle_at_start (z : list string) : cycle_at z 0 (itertools.cycle z).
Proof. split; [done|]. exists 0. split; [lia|]. by rewrite drop_0. Qed.

Lemma mod_succ_congr (a b k : nat) :
  a mod k = b mod k → S a mod k = S b mod k.
Proof.
  intros H. rewrite <- (Nat.add_1_r a), <- (Nat.add_1_r b).
  rewrite (Nat.Div0.add_mod a 1), (Nat.Div0.add_mod b 1). by rewrite H.
Qed.

Lemma next_cycle_at (z : list string) (i : nat) (it : itertools.cycle_iter) :
  z ≠ [] → cycle_at z i it →
  ∃ x it', next it = Ok (x, it') ∧ z !! (i mod length z) = Some x ∧ cycle_at z (S i) it'.
Proof.
  intros Hz [Hsaved (j & Hj & Hpending & Hmod)].
  destruct it as [pending saved]. simpl in *. subst saved pending.
  assert (0 < length z) as Hlen by (destruct z; [done | simpl; lia]).
  unfold next. simpl.
  destruct (drop j z) as [|x rest] eqn:Hdrop.
  - (* the first pass is over: start again from the saved elements *)
    assert (j = length z) as ->.
    { apply (f_equal length) in Hdrop. rewrite length_drop in Hdrop.
      simpl in Hdrop. lia. }
    rewrite Nat.Div0.mod_same in Hmod.
    destruct z as [|x rest]; [done|].
    exists x, {| itertools.cy_pending := rest; itertools.cy_saved := x :: rest |}.
    split; [done|]. split; [by rewrite <- Hmod|].
    split; [done|]. exists 1. split; [simpl; lia|]. split; [done|].
    rewrite (mod_succ_congr i 0 (length (x :: rest))).
    + done.
    + rewrite <- Hmod. by rewrite Nat.Div0.mod_0_l.
  - assert (j < length z) as Hlt.
    { apply (f_equal length) in Hdrop. rewrite length_drop in Hdrop.
      simpl in Hdrop. lia. }
    assert (z !! j = Some x) as Hx.
    { rewrite <- (Nat.add_0_r j), <- lookup_drop. by rewrite Hdrop. }
    exists x, {| itertools.cy_pending := rest; itertools.cy_saved := z |}.
    split; [done|]. split.
    + rewrite <- Hmod. by rewrite Nat.mod_small.
    + split; [done|]. exists (S j). split; [lia|]. split.
      * simpl. rewrite (drop_S z x j Hx) in Hdrop. congruence.
      * by apply mod_succ_congr.
Qed.

Lemma zones_assigned_cons (region : string) (z : list string) (first : nat)
    (s : Subnet) (subnets : list Subnet) (zone : string) :
  z !! (first mod length z) = Some zone →
  availability_zone s = region +:+ zone →
  zones_assigned region z (S first) subnets →
  zones_assigned region z first (s :: subnets).
Proof.
  intros Hz Hs Hrest [|i] s' Hi.
  - injection Hi as <-. exists zone. by rewrite Nat.add_0_r.
  - simpl in Hi. destruct (Hrest i s' Hi) as (zone' & Hz' & Hs').
    exists zone'. by rewrite <- Nat.add_succ_comm.
Qed.

(** ** The loops that create and import subnets *)

Lemma cidr_mismatch_true (cidr_block vpc_cidr : string) :
  cidr_mismatch cidr_block vpc_cidr = true ↔ prefix_differs cidr_block vpc_cidr.
Proof.
  unfold cidr_mismatch, prefix_differs.
  rewrite negb_true_iff, bool_decide_eq_false. done.
Qed.

Lemma cidr_mismatch_false (cidr_block vpc_cidr : string) :
  cidr_mismatch cidr_block vpc_cidr = false ↔ ¬ prefix_differs cidr_block vpc_cidr.
Proof.
  rewrite <- cidr_mismatch_true. destruct (cidr_mismatch cidr_block vpc_cidr); naive_solver.
Qed.

Lemma import_subnets_spec (kind : string) (self : NetworkProtectedStack.t)
    (z : list string) :
  z ≠ [] →
  ∀ count index it, cycle_at z index it →
  ∃ subnets,
    NetworkProtectedStack.import_subnets kind self index count it = Ok subnets ∧
    length subnets = count ∧
    zones_assigned (NetworkProtectedStack.region self) z index subnets ∧
    map subnet_id subnets =
      map (fun i => ImportValue
                      (subnet_export_name (NetworkProtectedStack._application self)
                         (NetworkProtectedStack._network self) kind i))
          (seq index count).
Proof.
  intros Hz. induction count as [|count IH]; intros index it Hit; simpl.
  - exists []. repeat split. intros i s Hi. by rewrite lookup_nil in Hi.
  - destruct (next_cycle_at z index it Hz Hit) as (x & it' & -> & Hx & Hit').
    simpl. destruct (IH (S index) it' Hit') as (others & -> & Hlen & Hzones & Hids).
    simpl. eexists. split; [done|]. split; [simpl; by rewrite Hlen|]. split.
    + by eapply zones_assigned_cons.
    + simpl. by rewrite Hids.
Qed.

Lemma create_subnets_spec (kind : string) (self : NetworkStack.t) (v : string)
    (z : list string) :
  z ≠ [] → is_Some (NetworkStack._vpc self) →
  ∀ blocks index it acc,
    cycle_at z index it →
    Forall (fun b => ¬ prefix_differs b v) blocks →
    ∃ new,
      NetworkStack.create_subnets kind self (VStr v) index blocks it acc = Ok (acc ++ new) ∧
      length new = length blocks ∧
      zones_assigned (NetworkStack.region self) z index new ∧
      map cidr_block new = map Some blocks.
Proof.
  intros Hz [vpc Hvpc].
  induction blocks as [|b blocks IH]; intros index it acc Hit Hall; simpl.
  - exists []. rewrite app_nil_r. repeat split. intros i s Hi. by rewrite lookup_nil in Hi.
  - apply Forall_cons in Hall as [Hb Hall].
    apply cidr_mismatch_false in Hb. rewrite Hb, Hvpc. simpl.
    destruct (next_cycle_at z index it Hz Hit) as (x & it' & -> & Hx & Hit').
    simpl.
    match goal with
    | |- context [NetworkStack.create_subnets _ _ _ _ _ _ ?acc'] =>
        destruct (IH (S index) it' acc' Hit' Hall) as (new & -> & Hlen & Hzones & Hcidr)
    end.
    eexists (_ :: new). rewrite <- app_assoc. split; [done|].
    split; [simpl; by rewrite Hlen|]. split.
    + by eapply zones_assigned_cons.
    + simpl. by rewrite Hcidr.
Qed.

Lemma create_subnets_length (kind : string) (self : NetworkStack.t) (vpc_cidr : value) :
  ∀ blocks index it acc subnets,
    NetworkStack.create_subnets kind self vpc_cidr index blocks it acc = Ok subnets →
    length subnets = length acc + length blocks.
Proof.
  induction blocks as [|b blocks IH]; intros index it acc subnets; simpl.
  - intros [= <-]. lia.
  - intros H. bind_inv H.
    destruct (cidr_mismatch b a); [discriminate|].
    bind_inv H. bind_inv H. apply IH in H. rewrite H, length_app. simpl. lia.
Qed.

(** A run of the loop that passes its first element has called [next]. *)
Lemma create_subnets_zones (kind : string) (self : NetworkStack.t) (vpc_cidr : value)
    (blocks : list string) (index : nat) (it : itertools.cycle_iter) (acc subnets : list Subnet) :
  NetworkStack.create_subnets kind self vpc_cidr index blocks it acc = Ok subnets →
  blocks ≠ [] → ∃ zone, next it = Ok zone.
Proof.
  destruct blocks as [|b blocks]; [done|]. simpl. intros H _.
  bind_inv H. destruct (cidr_mismatch b a); [discriminate|].
  bind_inv H. bind_inv H. eauto.
Qed.

Lemma create_subnets_RuntimeError (kind : string) (self : NetworkStack.t) (vpc_cidr : value) :
  ∀ blocks index it acc msg,
    NetworkStack.create_subnets kind self vpc_cidr index blocks it acc = Raise (RuntimeError msg) →
    ∃ v, vpc_cidr = VStr v ∧ Exists (fun b => prefix_differs b v) blocks.
Proof.
  induction blocks as [|b blocks IH]; intros index it acc msg; simpl; [discriminate|].
  destruct vpc_cidr as [v| | | | | |]; simpl; try discriminate.
  destruct (cidr_mismatch b v) eqn:Hb.
  - intros _. exists v. split; [done|]. apply Exists_cons_hd. by apply cidr_mismatch_true.
  - destruct (vpc_id_of (NetworkStack._vpc self)) as [tok|e] eqn:Hvpc; simpl.
    + destruct (next it) as [zone|e] eqn:Hnext; simpl.
      * intros H. apply IH in H as (v' & [= <-] & Hex).
        exists v. split; [done|]. by apply Exists_cons_tl.
      * unfold next in Hnext.
        destruct (itertools.cy_pending it); [destruct (itertools.cy_saved it)|]; try discriminate.
        injection Hnext as <-. discriminate.
    + unfold vpc_id_of in Hvpc. destruct (NetworkStack._vpc self); [discriminate|].
      injection Hvpc as <-. discriminate.
Qed.

Lemma create_subnets_mismatch (kind : string) (self : NetworkStack.t) (v : string)
    (z : list string) :
  z ≠ [] → is_Some (NetworkStack._vpc self) →
  ∀ blocks index it acc,
    cycle_at z index it →
    Exists (fun b => prefix_differs b v) blocks →
    NetworkStack.create_subnets kind self (VStr v) index blocks it acc =
      Raise (RuntimeError "The VPC CIDR and the subnet CIDR don't mwatch!").
Proof.
  intros Hz [vpc Hvpc].
  induction blocks as [|b blocks IH]; intros index it acc Hit Hex; simpl.
  - by apply Exists_nil in Hex.
  - destruct (cidr_mismatch b v) eqn:Hb; [done|].
    apply Exists_cons in Hex as [Hhd|Htl].
    + apply cidr_mismatch_true in Hhd. congruence.
    + rewrite Hvpc. simpl.
      destruct (next_cycle_at z index it Hz Hit) as (x & it' & -> & _ & Hit').
      simpl. by apply IH.
Qed.

Lemma create_subnets_Ok_zones (kind : string) (self : NetworkStack.t) (vpc_cidr : value)
    (z : list string) :
  z ≠ [] →
  ∀ blocks index it acc subnets,
    cycle_at z index it →
    NetworkStack.create_subnets kind self vpc_cidr index blocks it acc = Ok subnets →
    ∃ new, subnets = (acc ++ new) ∧ length new = length blocks ∧
           zones_assigned (NetworkStack.region self) z index new.
Proof.
  intros Hz. induction blocks as [|b blocks IH]; intros index it acc subnets Hit; simpl.
  - intros [= <-]. exists []. rewrite app_nil_r. repeat split.
    intros i s Hi. by rewrite lookup_nil in Hi.
  - intros H. bind_inv H. destruct (cidr_mismatch b a); [discriminate|].
    bind_inv H. bind_inv H.
    destruct (next_cycle_at z index it Hz Hit) as (x & it' & Hnext & Hx & Hit').
    rewrite Hnext in Hstep1. injection Hstep1 as <-. simpl in H.
    apply (IH _ _ _ _ Hit') in H as (new & -> & Hlen & Hzones).
    eexists (_ :: new). rewrite <- app_assoc. split; [done|].
    split; [simpl; by rewrite Hlen|]. by eapply zones_assigned_cons.
Qed.

Lemma tier_zones_cycle (network : string) (z : list string) :
  tier_zones network z → Settings.cycle AvailabilityZonesSettings network = Ok (itertools.cycle z).
Proof. intros (v & Hv & Hz). unfold Settings.cycle. rewrite Hv. simpl. by rewrite Hz. Qed.

(** Case analysis on a hypothesis [n ∈ tiers]. *)
Ltac tier_cases H :=
  unfold tiers in H;
  repeat (apply elem_of_cons in H as [H|H]; [subst|]);
  [..|by apply elem_of_nil in H].

(** What [settings.py] configures for its three networks. *)
Lemma configured_subnets (n : string) :
  n ∈ tiers →
  nonempty n = true ∧
  ∃ v publics privates,
    Settings.get VpcCidrSettings n = Ok (VStr v) ∧
    Settings.get PublicSubnetCidrSettings n = Ok (VList publics) ∧
    Settings.get PrivateSubnetCidrSettings n = Ok (VList privates) ∧
    publics ≠ [] ∧ privates ≠ [] ∧
    Forall (fun b => ¬ prefix_differs b v) publics ∧
    Forall (fun b => ¬ prefix_differs b v) privates.
Proof.
  intros Hn. tier_cases Hn.
  all: split; [reflexivity|].
  all: eexists _, _, _.
  all: split; [vm_compute; reflexivity|].
  all: split; [vm_compute; reflexivity|].
  all: split; [vm_compute; reflexivity|].
  all: split; [discriminate|].
  all: split; [discriminate|].
  all: split; repeat constructor.
  all: apply cidr_mismatch_false; vm_compute; reflexivity.
Qed.

(** C8. Availability zones are handed out round-robin. With a non-empty
    list [z] of availability zones, the subnet at zero-based position [i] is
    placed in zone [region + z[i mod length z]], when subnets are created
    and when they are imported; the loops do not fail for want of zones,
    however many subnets there are. For the three networks of
    [settings.py], the methods that create and that import the subnets
    return, with one subnet per configured CIDR block (there is at least
    one), each in its round-robin zone. *)
Theorem availability_zone_round_robin (z : list string) (Hz : z ≠ []) :
  (∀ kind self v blocks,
     is_Some (NetworkStack._vpc self) →
     Forall (fun b => ¬ prefix_differs b v) blocks →
     ∃ subnets,
       NetworkStack.create_subnets kind self (VStr v) 0 blocks (itertools.cycle z) [] = Ok subnets ∧
       length subnets = length blocks ∧
       zones_assigned (NetworkStack.region self) z 0 subnets) ∧
  (∀ kind self count,
     ∃ subnets,
       NetworkProtectedStack.import_subnets kind self 0 count (itertools.cycle z) = Ok subnets ∧
       length subnets = count ∧
       zones_assigned (NetworkProtectedStack.region self) z 0 subnets) ∧
  (∀ self self',
     tier_zones (NetworkStack._network self) z →
     NetworkStack._public_subnets self = [] →
     NetworkStack._create_public_subnets self = Ok self' →
     zones_assigned (NetworkStack.region self) z 0 (NetworkStack._public_subnets self')) ∧
  (∀ self self',
     tier_zones (NetworkStack._network self) z →
     NetworkStack._private_subnets self = [] →
     NetworkStack._create_private_subnets self = Ok self' →
     zones_assigned (NetworkStack.region self) z 0 (NetworkStack._private_subnets self')) ∧
  (∀ self self',
     tier_zones (NetworkProtectedStack._network self) z →
     NetworkProtectedStack._import_public_subnets self = Ok self' →
     zones_assigned (NetworkProtectedStack.region self) z 0
       (NetworkProtectedStack._public_subnets self')) ∧
  (∀ self self',
     tier_zones (NetworkProtectedStack._network self) z →
     NetworkProtectedStack._import_private_subnets self = Ok self' →
     zones_assigned (NetworkProtectedStack.region self) z 0
       (NetworkProtectedStack._private_subnets self')) ∧
  (∀ self,
     NetworkStack._network self ∈ tiers →
     tier_zones (NetworkStack._network self) z →
     is_Some (NetworkStack._vpc self) →
     NetworkStack._public_subnets self = [] →
     ∃ self' blocks,
       Settings.get PublicSubnetCidrSettings (NetworkStack._network self) = Ok (VList blocks) ∧
       blocks ≠ [] ∧
       NetworkStack._create_public_subnets self = Ok self' ∧
       length (NetworkStack._public_subnets self') = length blocks ∧
       zones_assigned (NetworkStack.region self) z 0 (NetworkStack._public_subnets self')) ∧
  (∀ self,
     NetworkStack._network self ∈ tiers →
     tier_zones (NetworkStack._network self) z →
     is_Some (NetworkStack._vpc self) →
     NetworkStack._private_subnets self = [] →
     ∃ self' blocks,
       Settings.get PrivateSubnetCidrSettings (NetworkStack._network self) = Ok (VList blocks) ∧
       blocks ≠ [] ∧
       NetworkStack._create_private_subnets self = Ok self' ∧
       length (NetworkStack._private_subnets self') = length blocks ∧
       zones_assigned (NetworkStack.region self) z 0 (NetworkStack._private_subnets self')) ∧
  (∀ self,
     NetworkProtectedStack._network self ∈ tiers →
     tier_zones (NetworkProtectedStack._network self) z →
     nonempty (NetworkProtectedStack.region self) = true →
     nonempty (NetworkProtectedStack._application self) = true →
     ∃ self' blocks,
       Settings.get PublicSubnetCidrSettings (NetworkProtectedStack._network self)
         = Ok (VList blocks) ∧
       blocks ≠ [] ∧
       NetworkProtectedStack._import_public_subnets self = Ok self' ∧
       length (NetworkProtectedStack._public_subnets self') = length blocks ∧
       zones_assigned (NetworkProtectedStack.region self) z 0
         (NetworkProtectedStack._public_subnets self')) ∧
  (∀ self,
     NetworkProtectedStack._network self ∈ tiers →
     tier_zones (NetworkProtectedStack._network self) z →
     ∃ self' blocks,
       Settings.get PrivateSubnetCidrSettings (NetworkProtectedStack._network self)
         = Ok (VList blocks) ∧
       blocks ≠ [] ∧
       NetworkProtectedStack._import_private_subnets self = Ok self' ∧
       length (NetworkProtectedStack._private_subnets self') = length blocks ∧
       zones_assigned (NetworkProtectedStack.region self) z 0
         (NetworkProtectedStack._private_subnets self')).
Proof.
  split; [|split; [|split; [|split; [|split; [|split; [|split; [|split; [|split]]]]]]]].
  - intros kind self v blocks Hvpc Hall.
    destruct (create_subnets_spec kind self v z Hz Hvpc blocks 0 (itertools.cycle z) []
                (cycle_at_start z) Hall) as (new & Hnew & Hlen & Hzones & _).
    exists new. by rewrite Hnew.
  - intros kind self count.
    destruct (import_subnets_spec kind self z Hz count 0 (itertools.cycle z) (cycle_at_start z))
      as (subnets & Hs & Hlen & Hzones & _).
    by exists subnets.
  - intros self self' Hzones Hempty H. unfold NetworkStack._create_public_subnets in H.
    rewrite (tier_zones_cycle _ _ Hzones), Hempty in H.
    do 2 bind_inv H. simpl in H. do 2 bind_inv H. injection H as <-. simpl.
    apply (create_subnets_Ok_zones _ _ _ z Hz _ _ _ _ _ (cycle_at_start z)) in Hstep2
      as (new & -> & _ & Hnew).
    done.
  - intros self self' Hzones Hempty H. unfold NetworkStack._create_private_subnets in H.
    rewrite (tier_zones_cycle _ _ Hzones), Hempty in H.
    do 2 bind_inv H. simpl in H. do 2 bind_inv H. injection H as <-. simpl.
    apply (create_subnets_Ok_zones _ _ _ z Hz _ _ _ _ _ (cycle_at_start z)) in Hstep2
      as (new & -> & _ & Hnew).
    done.
  - intros self self' Hzones H. unfold NetworkProtectedStack._import_public_subnets in H.
    rewrite (tier_zones_cycle _ _ Hzones) in H.
    do 3 bind_inv H. simpl in H. do 2 bind_inv H. injection H as <-. simpl.
    destruct (import_subnets_spec "public" self z Hz a2 0 (itertools.cycle z) (cycle_at_start z))
      as (subnets & Hs & _ & Hassigned & _).
    rewrite Hs in Hstep3. by injection Hstep3 as <-.
  - intros self self' Hzones H. unfold NetworkProtectedStack._import_private_subnets in H.
    rewrite (tier_zones_cycle _ _ Hzones) in H. simpl in H.
    do 2 bind_inv H. injection H as <-. simpl.
    destruct (import_subnets_spec "private" self z Hz a 0 (itertools.cycle z) (cycle_at_start z))
      as (subnets & Hs & _ & Hassigned & _).
    rewrite Hs in Hstep0. by injection Hstep0 as <-.
  - intros self Hn Hzones Hvpc Hempty.
    destruct (configured_subnets _ Hn)
      as (_ & v & publics & privates & Hv & Hp & _ & Hne & _ & Hall & _).
    unfold NetworkStack._create_public_subnets.
    rewrite Hv, Hp, (tier_zones_cycle _ _ Hzones), Hempty. simpl.
    destruct (create_subnets_spec "public" self v z Hz Hvpc publics 0 (itertools.cycle z) []
                (cycle_at_start z) Hall) as (new & Hnew & Hlen & Hassigned & _).
    rewrite Hnew. simpl. eexists _, publics. split; [done|]. split; [done|].
    split; [reflexivity|]. simpl. done.
  - intros self Hn Hzones Hvpc Hempty.
    destruct (configured_subnets _ Hn)
      as (_ & v & publics & privates & Hv & _ & Hq & _ & Hne & _ & Hall).
    unfold NetworkStack._create_private_subnets.
    rewrite Hv, Hq, (tier_zones_cycle _ _ Hzones), Hempty. simpl.
    destruct (create_subnets_spec "private" self v z Hz Hvpc privates 0 (itertools.cycle z) []
                (cycle_at_start z) Hall) as (new & Hnew & Hlen & Hassigned & _).
    rewrite Hnew. simpl. eexists _, privates. split; [done|]. split; [done|].
    split; [reflexivity|]. simpl. done.
  - intros self Hn Hzones Hregion Happlication.
    destruct (configured_subnets _ Hn)
      as (Hnetwork & v & publics & privates & _ & Hp & _ & Hne & _).
    unfold NetworkProtectedStack._import_public_subnets.
    rewrite Hregion, Hnetwork, Happlication. simpl.
    rewrite (tier_zones_cycle _ _ Hzones). simpl.
    unfold Settings.length. rewrite Hp. simpl.
    destruct (import_subnets_spec "public" self z Hz (length publics) 0 (itertools.cycle z)
                (cycle_at_start z)) as (subnets & Hs & Hlen & Hassigned & _).
    rewrite Hs. simpl. eexists _, publics. split; [done|]. split; [done|].
    split; [reflexivity|]. simpl. done.
  - intros self Hn Hzones.
    destruct (configured_subnets _ Hn)
      as (_ & v & publics & privates & _ & _ & Hq & _ & Hne & _).
    unfold NetworkProtectedStack._import_private_subnets.
    rewrite (tier_zones_cycle _ _ Hzones). simpl.
    unfold Settings.length. rewrite Hq. simpl.
    destruct (import_subnets_spec "private" self z Hz (length privates) 0 (itertools.cycle z)
                (cycle_at_start z)) as (subnets & Hs & Hlen & Hassigned & _).
    rewrite Hs. simpl. eexists _, privates. split; [done|]. split; [done|].
    split; [reflexivity|]. simpl. done.
Qed.

Lemma availability_zone_round_robin_witness :
  ["a"; "b"] ≠ ([] : list string) ∧
  (∃ subnets,
     NetworkProtectedStack.import_subnets "public"
       (NetworkProtectedStack.new "app" "devnet" "us-west-2") 0 5 (itertools.cycle ["a"; "b"])
       = Ok subnets ∧
     length subnets = 5 ∧
     zones_assigned "us-west-2" ["a"; "b"] 0 subnets) ∧
  ∃ self' blocks,
    Settings.get PublicSubnetCidrSettings "devnet" = Ok (VList blocks) ∧
    blocks ≠ [] ∧
    NetworkProtectedStack._import_public_subnets
      (NetworkProtectedStack.new "app" "devnet" "us-west-2") = Ok self' ∧
    length (NetworkProtectedStack._public_subnets self') = length blocks ∧
    zones_assigned "us-west-2" ["a"; "b"] 0 (NetworkProtectedStack._public_subnets self').
Proof.
  pose proof (availability_zone_round_robin ["a"; "b"] ltac:(discriminate))
    as (_ & Himport & _ & _ & _ & _ & _ & _ & Htier & _).
  split; [discriminate|]. split.
  - apply Himport.
  - apply (Htier (NetworkProtectedStack.new "app" "devnet" "us-west-2")).
    + unfold tiers. simpl. repeat constructor.
    + exists (VList ["a"; "b"]). split; [vm_compute; reflexivity | reflexivity].
    + reflexivity.
    + reflexivity.
Defined.

(** ** The CIDR check of the network stack *)

Lemma configured_cidrs (n : string) :
  n ∈ tiers →
  ∃ v publics privates,
    Settings.get VpcCidrSettings n = Ok (VStr v) ∧
    Settings.get PublicSubnetCidrSettings n = Ok (VList publics) ∧
    Settings.get PrivateSubnetCidrSettings n = Ok (VList privates) ∧
    Forall (fun b => ¬ prefix_differs b v) (publics ++ privates).
Proof.
  intros Hn. tier_cases Hn.
  all: eexists _, _, _.
  all: split; [vm_compute; reflexivity|].
  all: split; [vm_compute; reflexivity|].
  all: split; [vm_compute; reflexivity|].
  all: simpl; repeat constructor.
  all: apply cidr_mismatch_false; vm_compute; reflexivity.
Qed.

Lemma configured_subnets_pass (kind : string) (self : NetworkStack.t) (v : string)
    (blocks : list string) (index : nat) (it : itertools.cycle_iter) (acc : list Subnet)
    (msg : string) :
  Forall (fun b => ¬ prefix_differs b v) blocks →
  NetworkStack.create_subnets kind self (VStr v) index blocks it acc ≠ Raise (RuntimeError msg).
Proof.
  intros Hall H. apply create_subnets_RuntimeError in H as (v' & [= <-] & Hex).
  apply Exists_exists in Hex as (b & Hb & Hdiff).
  rewrite Forall_forall in Hall. by apply (Hall b).
Qed.

(** C3. The subnet loops raise a [RuntimeError] exactly when some subnet
    CIDR and the VPC CIDR differ in their first two dotted components; for
    the networks mainnet, testnet and devnet every public and private subnet
    CIDR of the settings agrees with the VPC CIDR of the network, so subnet
    creation never raises that error for them. *)
Theorem cidr_check_raises_exactly_on_mismatch :
  (∀ kind self v blocks z,
     is_Some (NetworkStack._vpc self) → z ≠ [] →
     (∃ msg, NetworkStack.create_subnets kind self (VStr v) 0 blocks (itertools.cycle z) []
             = Raise (RuntimeError msg))
     ↔ Exists (fun b => prefix_differs b v) blocks) ∧
  (∀ n, n ∈ tiers →
     ∃ v publics privates,
       Settings.get VpcCidrSettings n = Ok (VStr v) ∧
       Settings.get PublicSubnetCidrSettings n = Ok (VList publics) ∧
       Settings.get PrivateSubnetCidrSettings n = Ok (VList privates) ∧
       Forall (fun b => ¬ prefix_differs b v) (publics ++ privates)) ∧
  (∀ self msg,
     NetworkStack._network self ∈ tiers →
     NetworkStack._create_public_subnets self ≠ Raise (RuntimeError msg) ∧
     NetworkStack._create_private_subnets self ≠ Raise (RuntimeError msg)).
Proof.
  split; [|split].
  - intros kind self v blocks z Hvpc Hz. split.
    + intros [msg H]. by apply create_subnets_RuntimeError in H as (v' & [= <-] & Hex).
    + intros Hex. eexists.
      by apply (create_subnets_mismatch kind self v z Hz Hvpc blocks 0 (itertools.cycle z) []
                  (cycle_at_start z)).
  - apply configured_cidrs.
  - intros self msg Hn.
    destruct (configured_cidrs _ Hn) as (v & publics & privates & Hv & Hpub & Hpriv & Hall).
    apply Forall_app in Hall as [Hpublics Hprivates].
    unfold NetworkStack._create_public_subnets, NetworkStack._create_private_subnets.
    rewrite Hv, Hpub, Hpriv. simpl.
    split.
    + intros H. apply bind_Raise_inv in H as [H|(it & Hit & H)].
      { unfold Settings.cycle in H. apply bind_Raise_inv in H as [H|(w & Hw & H)].
        - unfold Settings.get in H.
          repeat (destruct (hasattr _ _)); try discriminate;
            unfold getattr in H; destruct (class_lookup _ _); discriminate.
        - destruct (Settings.as_sequence w); discriminate. }
      apply bind_Raise_inv in H as [H|(subnets & _ & H)]; [|discriminate].
      by apply configured_subnets_pass in H.
    + intros H. apply bind_Raise_inv in H as [H|(it & Hit & H)].
      { unfold Settings.cycle in H. apply bind_Raise_inv in H as [H|(w & Hw & H)].
        - unfold Settings.get in H.
          repeat (destruct (hasattr _ _)); try discriminate;
            unfold getattr in H; destruct (class_lookup _ _); discriminate.
        - destruct (Settings.as_sequence w); discriminate. }
      apply bind_Raise_inv in H as [H|(subnets & _ & H)]; [|discriminate].
      by apply configured_subnets_pass in H.
Qed.

Lemma cidr_check_raises_exactly_on_mismatch_witness :
  (∃ msg,
     NetworkStack.create_subnets "public"
       (NetworkStack.Mk "app" "mainnet" "us-west-2"
          (Some (MkVpc "app-mainnet-vpc" (Ref "app-mainnet-vpc" "vpc_id")
                   (VStr "10.0.0.0/16") None (Some 3) [] []))
          [] [] [] None [] [] [])
       (VStr "10.0.0.0/16") 0 ["10.0.0.0/19"; "10.1.32.0/19"] (itertools.cycle ["a"; "b"; "c"]) []
     = Raise (RuntimeError msg)) ∧
  NetworkStack._create_public_subnets (NetworkStack.new "app" "testnet" "us-west-2")
    ≠ Raise (RuntimeError "The VPC CIDR and the subnet CIDR don't mwatch!").
Proof.
  split.
  - apply (proj1 cidr_check_raises_exactly_on_mismatch).
    + simpl. eauto.
    + discriminate.
    + apply Exists_cons_tl, Exists_cons_hd. apply cidr_mismatch_true. vm_compute. reflexivity.
  - apply (proj2 (proj2 cidr_check_raises_exactly_on_mismatch)).
    simpl. unfold tiers. repeat constructor.
Defined.

(** ** Names exported by the network stack and imported by the others *)

Lemma imap_names {A B : Type} (name : B → string) (g : nat → string) (l : list A) :
  ∀ f : nat → A → B,
    (∀ i x, name (f i x) = g i) →
    map name (imap f l) = map g (seq 0 (length l)).
Proof.
  revert g. induction l as [|x l IH]; intros g f Hf; simpl; [done|].
  rewrite Hf. f_equal. rewrite <- seq_shift, map_map.
  apply IH. intros i y. apply Hf.
Qed.

Lemma subnet_outputs_names (self : NetworkStack.t) (kind : string) (subnets : list Subnet) :
  map export_name (NetworkStack.subnet_outputs self kind subnets) =
  map (subnet_export_name (NetworkStack._application self) (NetworkStack._network self) kind)
      (seq 0 (length subnets)).
Proof. unfold NetworkStack.subnet_outputs. by apply imap_names. Qed.

Lemma imported_names_map (g : nat → string) (l : list nat) :
  flat_map NetworkProtectedStack.imported_name (map (fun i => ImportValue (g i)) l) = map g l.
Proof. induction l as [|i l IH]; simpl; [done|]. by rewrite IH. Qed.

Lemma imported_names_subnets (g : nat → string) (l : list nat) (subnets : list Subnet) :
  map subnet_id subnets = map (fun i => ImportValue (g i)) l →
  flat_map (fun s => NetworkProtectedStack.imported_name (subnet_id s)) subnets = map g l.
Proof.
  intros H. rewrite <- (imported_names_map g l), <- H.
  clear H. induction subnets as [|s subnets IH]; simpl; [done|]. by rewrite IH.
Qed.

Lemma Settings_cycle_Ok_inv (cls : pyclass) (n : string) (it : itertools.cycle_iter) :
  Settings.cycle cls n = Ok it →
  ∃ v z, Settings.get cls n = Ok v ∧ Settings.as_sequence v = Some z ∧ it = itertools.cycle z.
Proof.
  unfold Settings.cycle. intros H. bind_inv H.
  destruct (Settings.as_sequence a) as [z|] eqn:Hz; [|discriminate].
  injection H as <-. eauto.
Qed.

Lemma Settings_length_of_sequence (cls : pyclass) (n : string) (v : value) (l : list string) :
  Settings.get cls n = Ok v → Settings.as_sequence v = Some l →
  Settings.length cls n = Ok (length l) ∧ py_len v = Ok (length l).
Proof.
  intros Hv Hl. unfold Settings.length. rewrite Hv. simpl. rewrite Hl.
  split; [done|]. destruct v; simpl in *; try discriminate; by injection Hl as ->.
Qed.

Lemma as_list_Ok_inv (v : value) (l : list string) :
  as_list v = Ok l → Settings.as_sequence v = Some l.
Proof. unfold as_list. destruct (Settings.as_sequence v); [intros [= ->]; done | discriminate]. Qed.

Lemma next_cycle_nonempty (z : list string) (zone : string * itertools.cycle_iter) :
  next (itertools.cycle z) = Ok zone → z ≠ [].
Proof. intros H ->. discriminate. Qed.

(** What a successful [deploy] of a fresh network stack has read and built. *)
Lemma deploy_Ok_inv (a n r : string) (s : NetworkStack.t) :
  NetworkStack.deploy (NetworkStack.new a n r) = Ok s →
  nonempty a = true ∧ nonempty n = true ∧ nonempty r = true ∧
  ∃ vc zv z pv publics qv privates,
    Settings.get VpcCidrSettings n = Ok vc ∧
    Settings.get AvailabilityZonesSettings n = Ok zv ∧
    Settings.as_sequence zv = Some z ∧ z ≠ [] ∧
    Settings.get PublicSubnetCidrSettings n = Ok pv ∧
    Settings.as_sequence pv = Some publics ∧
    Settings.get PrivateSubnetCidrSettings n = Ok qv ∧
    Settings.as_sequence qv = Some privates ∧
    NetworkStack._application s = a ∧ NetworkStack._network s = n ∧
    NetworkStack.outputs s = [] ∧ is_Some (NetworkStack._vpc s) ∧
    length (NetworkStack._public_subnets s) = length publics ∧
    length (NetworkStack._private_subnets s) = length privates.
Proof.
  unfold NetworkStack.deploy. intros H.
  bind_step H as u1 Ha. apply require_Ok_inv in Ha. simpl in Ha.
  bind_step H as u2 Hn. apply require_Ok_inv in Hn. simpl in Hn.
  bind_step H as u3 Hr. apply require_Ok_inv in Hr. simpl in Hr.
  do 3 (split; [done|]).
  (* _create_vpc *)
  bind_step H as s1 H1. unfold NetworkStack._create_vpc in H1. simpl in H1.
  bind_step H1 as vc Hvc. bind_step H1 as max_azs Hmax. injection H1 as <-.
  (* _create_public_subnets *)
  bind_step H as s2 H2. unfold NetworkStack._create_public_subnets in H2. simpl in H2.
  bind_step H2 as vc2 Hvc2. bind_step H2 as pv Hpv. bind_step H2 as it Hit.
  bind_step H2 as publics Hpublics. bind_step H2 as pubs Hpubs. injection H2 as <-.
  apply Settings_cycle_Ok_inv in Hit as (zv & z & Hzv & Hz & ->).
  apply as_list_Ok_inv in Hpublics.
  apply create_subnets_length in Hpubs. simpl in Hpubs.
  (* _create_private_subnets *)
  bind_step H as s3 H3. unfold NetworkStack._create_private_subnets in H3. simpl in H3.
  bind_step H3 as vc3 Hvc3. bind_step H3 as qv Hqv. bind_step H3 as it Hit.
  bind_step H3 as privates Hprivates. bind_step H3 as privs Hprivs. injection H3 as <-.
  apply Settings_cycle_Ok_inv in Hit as (zv' & z' & Hzv' & Hz' & ->).
  rewrite Hzv in Hzv'. injection Hzv' as <-. rewrite Hz in Hz'. injection Hz' as <-.
  apply as_list_Ok_inv in Hprivates.
  pose proof (create_subnets_length _ _ _ _ _ _ _ _ Hprivs) as Hlen. simpl in Hlen.
  (* _create_internet_gateway, _create_eip, _create_nat_gateways *)
  bind_step H as s4 H4. unfold NetworkStack._create_internet_gateway in H4. simpl in H4.
  bind_step H4 as u4 Higw. injection H4 as <-.
  bind_step H as s5 H5. unfold NetworkStack._create_eip in H5. simpl in H5.
  bind_step H5 as qv5 Hqv5. bind_step H5 as blocks5 Hblocks5. injection H5 as <-.
  bind_step H as s6 H6. unfold NetworkStack._create_nat_gateways in H6. simpl in H6.
  bind_step H6 as u6 Heip. bind_step H6 as gateways Hgateways. injection H6 as <-.
  (* _create_vpc_endpoints *)
  unfold NetworkStack._create_vpc_endpoints in H.
  bind_step H as u7 Hvpc. bind_step H as u8 Hnonempty.
  apply require_Ok_inv in Hnonempty. simpl in Hnonempty. injection H as <-. simpl.
  assert (privates ≠ []) as Hne.
  { intros ->. simpl in Hlen. rewrite Hlen in Hnonempty. discriminate. }
  destruct (create_subnets_zones _ _ _ _ _ _ _ _ Hprivs Hne) as [zone Hzone].
  apply next_cycle_nonempty in Hzone.
  exists vc, zv, z, pv, publics, qv, privates.
  repeat (split; [done|]). done.
Qed.

(** Looking a name up twice adds nothing to the set of names looked up. *)
Lemma list_to_set_repeated (x : string) (l : list string) :
  (list_to_set ((x :: l) ++ l) : gset string) = list_to_set (x :: l).
Proof.
  apply set_eq. intros y.
  rewrite !elem_of_list_to_set, elem_of_app, !elem_of_cons. tauto.
Qed.

Lemma export_Ok (s : NetworkStack.t) :
  is_Some (NetworkStack._vpc s) → NetworkStack.outputs s = [] →
  ∃ s', NetworkStack.export s = Ok s' ∧
        NetworkStack.export_names s' =
          vpc_export_name (NetworkStack._application s) (NetworkStack._network s)
            :: public_names (NetworkStack._application s) (NetworkStack._network s)
                 (length (NetworkStack._public_subnets s))
            ++ private_names (NetworkStack._application s) (NetworkStack._network s)
                 (length (NetworkStack._private_subnets s)).
Proof.
  intros [vpc Hvpc] Hout. unfold NetworkStack.export. rewrite Hvpc, Hout. simpl.
  eexists. split; [done|].
  unfold NetworkStack.export_names. simpl. f_equal.
  rewrite map_app. by rewrite !subnet_outputs_names.
Qed.

#[local] Arguments Settings.get : simpl never.
#[local] Arguments Settings.length : simpl never.
#[local] Arguments Settings.cycle : simpl never.
#[local] Arguments py_len : simpl never.

Lemma load_Ok (a n r : string) (vc zv pv qv : value) (z publics privates : list string) :
  nonempty a = true → nonempty n = true → nonempty r = true →
  Settings.get VpcCidrSettings n = Ok vc →
  Settings.get AvailabilityZonesSettings n = Ok zv →
  Settings.as_sequence zv = Some z → z ≠ [] →
  Settings.get PublicSubnetCidrSettings n = Ok pv →
  Settings.as_sequence pv = Some publics →
  Settings.get PrivateSubnetCidrSettings n = Ok qv →
  Settings.as_sequence qv = Some privates →
  ∃ p vpc,
    NetworkProtectedStack.load (NetworkProtectedStack.new a n r) = Ok p ∧
    NetworkProtectedStack._vpc p = Some vpc ∧
    length (public_subnet_ids vpc) = length publics ∧
    length (private_subnet_ids vpc) = length privates ∧
    length (NetworkProtectedStack._public_subnets p) = length publics ∧
    length (NetworkProtectedStack._private_subnets p) = length privates ∧
    NetworkProtectedStack.import_names p =
      (vpc_export_name a n
         :: public_names a n (length publics) ++ private_names a n (length privates))
      ++ public_names a n (length publics) ++ private_names a n (length privates).
Proof.
  intros Ha Hn Hr Hvc Hzv Hz Hne Hpv Hpublics Hqv Hprivates.
  destruct (Settings_length_of_sequence _ _ _ _ Hpv Hpublics) as [Hlenp Hpylenp].
  destruct (Settings_length_of_sequence _ _ _ _ Hqv Hprivates) as [Hlenq Hpylenq].
  assert (Settings.cycle AvailabilityZonesSettings n = Ok (itertools.cycle z)) as Hcycle.
  { apply tier_zones_cycle. by exists zv. }
  unfold NetworkProtectedStack.load, NetworkProtectedStack._import_vpc,
    NetworkProtectedStack._import_public_subnets,
    NetworkProtectedStack._import_private_subnets.
  simpl. rewrite Ha, Hn, Hr. simpl.
  rewrite Hvc, Hzv, Hpv, Hqv. simpl. rewrite Hpylenp, Hpylenq. simpl.
  rewrite Hcycle, Hlenp. simpl.
  match goal with
  | |- context [NetworkProtectedStack.import_subnets "public" ?self 0 _ _] =>
      destruct (import_subnets_spec "public" self z Hne (length publics) 0 (itertools.cycle z)
                  (cycle_at_start z)) as (pubs & -> & Hlpubs & _ & Hpubs)
  end.
  simpl. rewrite Ha, Hn, Hr. simpl. rewrite Hcycle, Hlenq. simpl.
  match goal with
  | |- context [NetworkProtectedStack.import_subnets "private" ?self 0 _ _] =>
      destruct (import_subnets_spec "private" self z Hne (length privates) 0 (itertools.cycle z)
                  (cycle_at_start z)) as (privs & -> & Hlprivs & _ & Hprivs)
  end.
  simpl in *. eexists _, _. split; [done|]. split; [done|]. simpl.
  unfold NetworkProtectedStack.import_subnet_ids.
  rewrite !length_map, !length_seq. do 4 (split; [done|]).
  unfold NetworkProtectedStack.import_names. simpl.
  rewrite !imported_names_map.
  rewrite (imported_names_subnets _ _ _ Hpubs), (imported_names_subnets _ _ _ Hprivs).
  unfold public_names, private_names. by rewrite <- !app_assoc.
Qed.

Lemma deploy_configured (a n r : string) :
  n ∈ tiers → a ≠ "" → r ≠ "" →
  ∃ s, NetworkStack.deploy (NetworkStack.new a n r) = Ok s.
Proof.
  intros Hn Ha Hr.
  destruct a as [|a0 a]; [done|]. destruct r as [|r0 r]; [done|].
  tier_cases Hn.
  all: match goal with
       | |- ∃ s, ?d = Ok s =>
           destruct d as [s|e] eqn:Hd; [by exists s | exfalso; vm_compute in Hd; discriminate]
       end.
Qed.

Example mainnet_export_names :
  (let! s := NetworkStack.deploy (NetworkStack.new "app" "mainnet" "us-west-2") in
   let! s := NetworkStack.export s in
   Ok (NetworkStack.export_names s, map availability_zone (NetworkStack._public_subnets s)))
  = Ok (["app::mainnet::vpc::id";
         "app::mainnet::subnet::public::1::id"; "app::mainnet::subnet::public::2::id";
         "app::mainnet::subnet::public::3::id";
         "app::mainnet::subnet::private::1::id"; "app::mainnet::subnet::private::2::id";
         "app::mainnet::subnet::private::3::id"],
        ["us-west-2a"; "us-west-2b"; "us-west-2c"]).
Proof. vm_compute. reflexivity. Qed.

(** C4. The names exported by the network stack are the names the other
    stacks import. For every application [a], network [n] and region: when
    the network stack deploys, its [export] publishes the VPC id and one
    name per public and per private subnet, numbered from 1; [load] of a
    network-protected stack for the same [a] and [n] succeeds and looks up
    exactly that set of names, importing as many public and private subnet
    ids as the network has public and private subnet CIDRs. The network
    stack does deploy for mainnet, testnet and devnet. *)
Theorem exported_names_are_imported_names (a n r : string) :
  (∀ s, NetworkStack.deploy (NetworkStack.new a n r) = Ok s →
     ∃ s' p vpc publics privates,
       NetworkStack.export s = Ok s' ∧
       NetworkProtectedStack.load (NetworkProtectedStack.new a n r) = Ok p ∧
       (list_to_set (NetworkStack.export_names s') : gset string)
         = list_to_set (NetworkProtectedStack.import_names p) ∧
       NetworkStack.export_names s' =
         vpc_export_name a n
           :: public_names a n (length publics) ++ private_names a n (length privates) ∧
       (∃ pv, Settings.get PublicSubnetCidrSettings n = Ok pv ∧
              Settings.as_sequence pv = Some publics) ∧
       (∃ qv, Settings.get PrivateSubnetCidrSettings n = Ok qv ∧
              Settings.as_sequence qv = Some privates) ∧
       NetworkProtectedStack._vpc p = Some vpc ∧
       length (public_subnet_ids vpc) = length publics ∧
       length (private_subnet_ids vpc) = length privates ∧
       length (NetworkProtectedStack._public_subnets p) = length publics ∧
       length (NetworkProtectedStack._private_subnets p) = length privates) ∧
  (n ∈ tiers → a ≠ "" → r ≠ "" →
     ∃ s, NetworkStack.deploy (NetworkStack.new a n r) = Ok s).
Proof.
  split; [|apply deploy_configured].
  intros s Hs.
  apply deploy_Ok_inv in Hs
    as (Ha & Hn & Hr & vc & zv & z & pv & publics & qv & privates & Hvc & Hzv & Hz & Hne
        & Hpv & Hpublics & Hqv & Hprivates & Hsa & Hsn & Hout & Hvpc & Hlpub & Hlpriv).
  destruct (export_Ok s Hvpc Hout) as (s' & Hexport & Hnames).
  destruct (load_Ok a n r vc zv pv qv z publics privates) as
    (p & vpc & Hload & Hpvpc & Hl1 & Hl2 & Hl3 & Hl4 & Himports); try done.
  rewrite Hsa, Hsn, Hlpub, Hlpriv in Hnames.
  exists s', p, vpc, publics, privates.
  split; [done|]. split; [done|]. split.
  { rewrite Hnames, Himports. symmetry. apply list_to_set_repeated. }
  split; [done|]. split; [eauto|]. split; [eauto|]. done.
Qed.

Lemma exported_names_are_imported_names_witness :
  ∃ s s' p,
    NetworkStack.deploy (NetworkStack.new "app" "devnet" "us-west-2") = Ok s ∧
    NetworkStack.export s = Ok s' ∧
    NetworkProtectedStack.load (NetworkProtectedStack.new "app" "devnet" "us-west-2") = Ok p ∧
    (list_to_set (NetworkStack.export_names s') : gset string)
      = list_to_set (NetworkProtectedStack.import_names p).
Proof.
  destruct (exported_names_are_imported_names "app" "devnet" "us-west-2") as [Himp Hdep].
  destruct Hdep as [s Hs]; [unfold tiers; repeat constructor | discriminate | discriminate |].
  destruct (Himp s Hs) as (s' & p & vpc & publics & privates & He & Hl & Hset & _).
  exists s, s', p. exact (conj Hs (conj He (conj Hl Hset))).
Defined.

(** ** Snapshot detection in the database stack *)

Lemma get_with_default (c : pyclass) (n : string) (d : value) :
  class_lookup c "default" = Some d → ∃ v, Settings.get c n = Ok v.
Proof.
  intros Hd. unfold Settings.get, hasattr, getattr.
  destruct (class_lookup c n); [eauto|]. rewrite Hd. eauto.
Qed.

Lemma get_common_rds_config_Ok (self : DatabaseStack.t) :
  ∃ config, DatabaseStack._get_common_rds_config self = Ok config.
Proof.
  unfold DatabaseStack._get_common_rds_config.
  destruct (get_with_default DatabaseStorageSize (DatabaseStack._database self) (VInt 30))
    as [v1 ->]; [by vm_compute|].
  destruct (get_with_default DatabaseInstanceTypeSettings (DatabaseStack._database self)
              (VInstanceType "BURSTABLE4_GRAVITON" "SMALL")) as [v2 ->]; [by vm_compute|].
  destruct (get_with_default DatabaseDeletionProtectionSettings (DatabaseStack._database self)
              (VBool false)) as [v3 ->]; [by vm_compute|].
  simpl. eauto.
Qed.

Lemma create_db_from_scratch_Ok (self : DatabaseStack.t) :
  ∃ self', DatabaseStack._create_db_from_scratch self = Ok self' ∧
           DatabaseStack.created_from_scratch self' = true ∧
           DatabaseStack.restored_from_snapshot self' = false.
Proof.
  unfold DatabaseStack._create_db_from_scratch.
  destruct (get_with_default DatabaseEncryptionSettings (DatabaseStack._database self)
              (VBool false)) as [v1 ->]; [by vm_compute|].
  destruct (get_with_default DatabaseNameSettings (DatabaseStack._database self)
              (VStr "dcdata")) as [v2 ->]; [by vm_compute|].
  destruct (get_with_default DatabaseUsernameSettings (DatabaseStack._database self)
              (VStr "dcdata")) as [v3 ->]; [by vm_compute|].
  destruct (get_common_rds_config_Ok self) as [config ->].
  simpl. eauto.
Qed.

Lemma create_db_from_snapshot_Ok (self : DatabaseStack.t) (name : string) :
  Settings.get DatabaseSnapshotName (DatabaseStack._network self) = Ok (VStr name) →
  ∃ self', DatabaseStack._create_db_from_snapshot self = Ok self' ∧
           DatabaseStack.restored_from_snapshot self' = true ∧
           DatabaseStack.created_from_scratch self' = false.
Proof.
  intros Hname.
  unfold DatabaseStack._create_db_from_snapshot, DatabaseStack._get_snapshot_arn.
  rewrite Hname. simpl.
  destruct (get_with_default DatabaseUsernameSettings (DatabaseStack._database self)
              (VStr "dcdata")) as [v3 ->]; [by vm_compute|].
  destruct (get_common_rds_config_Ok self) as [config ->].
  simpl. eauto.
Qed.

(** C2. [_snapshot_exists] answers [False] when listing the snapshots fails
    with a text containing [DBSnapshotNotFound] or lists nothing, [True]
    when the first snapshot listed is available, [False] when it is in
    another state, and re-raises any other failure of the listing;
    [_create_db] restores the database from the snapshot exactly when the
    answer is [True], creates it from scratch when it is [False], and lets
    the re-raised exception through. *)
Theorem snapshot_decides_database_creation
    (aws : boto3) (self : DatabaseStack.t) (name : string) (client : rds_client)
    (Hname : Settings.get DatabaseSnapshotName (DatabaseStack._network self) = Ok (VStr name))
    (Hclient : session_client aws (DatabaseStack._profile self) = Returned client) :
  (∀ text,
     describe_db_snapshots client (VStr name) = Failed text →
     contains "DBSnapshotNotFound" text = true →
     DatabaseStack._snapshot_exists aws self = Ok false) ∧
  (describe_db_snapshots client (VStr name) = Returned [] →
     DatabaseStack._snapshot_exists aws self = Ok false) ∧
  (∀ snapshot others,
     describe_db_snapshots client (VStr name) = Returned (snapshot :: others) →
     Status snapshot = "available" →
     DatabaseStack._snapshot_exists aws self = Ok true) ∧
  (∀ snapshot others,
     describe_db_snapshots client (VStr name) = Returned (snapshot :: others) →
     Status snapshot ≠ "available" →
     DatabaseStack._snapshot_exists aws self = Ok false) ∧
  (∀ text,
     describe_db_snapshots client (VStr name) = Failed text →
     contains "DBSnapshotNotFound" text = false →
     DatabaseStack._snapshot_exists aws self = Raise (External text)) ∧
  (DatabaseStack._snapshot_exists aws self = Ok true ↔
     ∃ self', DatabaseStack._create_db aws self = Ok self' ∧
              DatabaseStack.restored_from_snapshot self' = true) ∧
  (DatabaseStack._snapshot_exists aws self = Ok false ↔
     ∃ self', DatabaseStack._create_db aws self = Ok self' ∧
              DatabaseStack.created_from_scratch self' = true) ∧
  (∀ e, DatabaseStack._snapshot_exists aws self = Raise e →
        DatabaseStack._create_db aws self = Raise e).
Proof.
  assert (∀ o, describe_db_snapshots client (VStr name) = o →
               DatabaseStack._snapshot_exists aws self =
               match o with
               | Failed text =>
                   if contains "DBSnapshotNotFound" text then Ok false
                   else Raise (External text)
               | Returned [] => Ok false
               | Returned (snapshot :: _) =>
                   if String.eqb (Status snapshot) "available" then Ok true else Ok false
               end) as Hexists.
  { intros o <-. unfold DatabaseStack._snapshot_exists.
    rewrite Hname, Hclient. simpl. by destruct (describe_db_snapshots client (VStr name)). }
  destruct (create_db_from_scratch_Ok self) as (scratch & Hscratch & Hs1 & Hs2).
  destruct (create_db_from_snapshot_Ok self name Hname) as (restored & Hrestored & Hr1 & Hr2).
  repeat split.
  - intros text Hd Hc. rewrite (Hexists _ Hd). by rewrite Hc.
  - intros Hd. by rewrite (Hexists _ Hd).
  - intros snapshot others Hd Hst. rewrite (Hexists _ Hd). rewrite Hst. done.
  - intros snapshot others Hd Hst. rewrite (Hexists _ Hd).
    apply String.eqb_neq in Hst. by rewrite Hst.
  - intros text Hd Hc. rewrite (Hexists _ Hd). by rewrite Hc.
  - intros Ht. unfold DatabaseStack._create_db. rewrite Ht. simpl. eauto.
  - intros (self' & Hc & Hr). unfold DatabaseStack._create_db in Hc.
    destruct (DatabaseStack._snapshot_exists aws self) as [[|]|e]; simpl in Hc;
      [done | | discriminate].
    rewrite Hscratch in Hc. injection Hc as <-. congruence.
  - intros Hf. unfold DatabaseStack._create_db. rewrite Hf. simpl. eauto.
  - intros (self' & Hc & Hr). unfold DatabaseStack._create_db in Hc.
    destruct (DatabaseStack._snapshot_exists aws self) as [[|]|e]; simpl in Hc;
      [ | done | discriminate].
    rewrite Hrestored in Hc. injection Hc as <-. congruence.
  - intros e He. unfold DatabaseStack._create_db. by rewrite He.
Qed.

Lemma snapshot_decides_database_creation_witness :
  DatabaseStack._snapshot_exists aws_with_snapshot database_stack_example = Ok true ∧
  ∃ self', DatabaseStack._create_db aws_with_snapshot database_stack_example = Ok self' ∧
           DatabaseStack.restored_from_snapshot self' = true.
Proof.
  pose proof (snapshot_decides_database_creation aws_with_snapshot database_stack_example
                "latest"
                {| describe_db_snapshots := fun _ =>
                     Returned [ {| DBSnapshotIdentifier := "latest"; Status := "available" |} ] |}
                ltac:(vm_compute; reflexivity) ltac:(reflexivity)) as H.
  destruct H as (_ & _ & Havailable & _ & _ & Hrestore & _).
  assert (DatabaseStack._snapshot_exists aws_with_snapshot database_stack_example = Ok true)
    as Hexists by (eapply Havailable; reflexivity).
  split; [exact Hexists|]. by apply Hrestore.
Defined.

(** ** Validation and failures *)

Example other_listing_failures_are_raised :
  DatabaseStack._create_db aws_unreachable database_stack_example
    = Raise (External "Could not connect to the endpoint URL").
Proof. vm_compute. reflexivity. Qed.




(** ** The order of the stacks in [app.py] *)

(** C5, as stated, fails: [registry.add_dependency(network)] is declared,
    yet [registry] is instantiated, loaded, deployed and exported before
    [network] is instantiated. *)
Lemma registry_is_built_before_its_dependency :
  (App.registry, App.network) ∈ App.dependencies App.program ∧
  App.in_dependency_order App.program App.registry App.network = false ∧
  App.instantiated_before App.program App.registry App.network = true ∧
  App.runs_before App.program (App.Export App.registry) App.network = true.
Proof.
  split; [vm_compute; repeat constructor|]. split; [|split]; vm_compute; reflexivity.
Qed.

(** C5, amended. For every ordering constraint [x.add_dependency(y)] that
    [app.py] declares, except [registry.add_dependency(network)], the stack
    [y] is instantiated, loaded, deployed and exported before [x] is
    instantiated. *)
Theorem stacks_built_in_dependency_order (x y : App.stack) :
  (x, y) ∈ App.dependencies App.program →
  (x, y) ≠ (App.registry, App.network) →
  App.in_dependency_order App.program x y = true.
Proof.
  intros Hin Hne. vm_compute in Hin.
  repeat (apply elem_of_cons in Hin as [[= -> ->]|Hin]; [try done; vm_compute; reflexivity|]).
  by apply elem_of_nil in Hin.
Qed.

Lemma stacks_built_in_dependency_order_witness :
  App.in_dependency_order App.program App.environment App.database = true.
Proof.
  apply stacks_built_in_dependency_order.
  - vm_compute. repeat constructor.
  - discriminate.
Defined.

(** C6, as stated, fails: the script does not instantiate nine stacks. *)
Lemma orchestrator_does_not_compose_nine_stacks :
  length (App.instantiated App.program) ≠ 9.
Proof. vm_compute. discriminate. Qed.

(** C6, amended. [app.py] composes exactly ten concrete stacks, each of a
    class of its own: registry, network, security, bastion, application,
    media, cache, search, database and environment. *)
Theorem orchestrator_composes_ten_stacks :
  App.instantiated App.program =
    [(App.registry, App.RegistryStack); (App.network, App.NetworkStack);
     (App.security, App.SecurityStack); (App.bastion, App.BastionStack);
     (App.application, App.ApplicationStack); (App.media, App.MediaStack);
     (App.cache, App.CacheStack); (App.opensearch, App.OpensearchStack);
     (App.database, App.DatabaseStack); (App.environment, App.BeanstalkStack)] ∧
  length (App.instantiated App.program) = 10 ∧
  NoDup (map fst (App.instantiated App.program)) ∧
  NoDup (map snd (App.instantiated App.program)).
Proof.
  split; [reflexivity|]. split; [reflexivity|].
  split; apply (bool_decide_unpack _); vm_compute; reflexivity.
Qed.

(** ** Autoscaling sizes *)

(** C9. At the environment [proddb] the autoscaling options have
    [MinSize] 4 and [MaxSize] 2; at [demodb], 2 and 1: the minimum exceeds
    the maximum. At every name that falls back on the defaults both are 1. *)
Theorem autoscaling_min_exceeds_max :
  let options environment :=
    BeanstalkStack._get_autoscaling_options
      {| BeanstalkStack._application := "app"; BeanstalkStack._environment := environment;
         BeanstalkStack._database := "proddb"; BeanstalkStack._network := "mainnet";
         BeanstalkStack._redis_db := "0" |} in
  options "proddb" = Ok (<["MinSize" := VInt 4]> (<["MaxSize" := VInt 2]> ∅)) ∧
  options "demodb" = Ok (<["MinSize" := VInt 2]> (<["MaxSize" := VInt 1]> ∅)) ∧
  options "staging" = Ok (<["MinSize" := VInt 1]> (<["MaxSize" := VInt 1]> ∅)) ∧
  Settings.get MinNodesSettings "proddb" = Ok (VInt 4) ∧
  Settings.get MaxNodesSettings "proddb" = Ok (VInt 2) ∧
  ¬ (4 ≤ 2)%Z.
Proof.
  simpl. repeat split; try (vm_compute; reflexivity). lia.
Qed.

(** ** The Redis database id *)

Lemma last_char_cons (ch : ascii) (s : string) :
  s ≠ EmptyString → last_char (String ch s) = last_char s.
Proof. by destruct s. Qed.

Lemma last_char_decimal_acc (fuel : nat) :
  ∀ (n : N) (acc : string),
    acc ≠ EmptyString → last_char (decimal_acc fuel n acc) = last_char acc.
Proof.
  induction fuel as [|fuel IH]; intros n acc Hacc; simpl.
  - by apply last_char_cons.
  - destruct (n / 10 =? 0)%N.
    + by apply last_char_cons.
    + rewrite IH by done. by apply last_char_cons.
Qed.

(** The last character of [str(n)] is the digit of [n mod 10]. *)
Lemma last_char_str_N (n : N) :
  last_char (str_N n) = Ok (String (digit_char (n mod 10)%N) EmptyString).
Proof.
  unfold str_N. destruct (N.size_nat n) as [|fuel]; simpl; [done|].
  destruct (n / 10 =? 0)%N; [done|]. by rewrite last_char_decimal_acc.
Qed.

Lemma digit_char_is_decimal_digit (d : N) :
  (d < 10)%N → is_decimal_digit (String (digit_char d) EmptyString).
Proof.
  intros Hd. unfold is_decimal_digit.
  assert (d ∈ [0; 1; 2; 3; 4; 5; 6; 7; 8; 9]%N) as Hin.
  { assert (d = 0 ∨ d = 1 ∨ d = 2 ∨ d = 3 ∨ d = 4 ∨ d = 5 ∨ d = 6 ∨ d = 7 ∨ d = 8 ∨ d = 9)%N
      as Hcases by lia.
    repeat (destruct Hcases as [->|Hcases]; [repeat constructor|]).
    subst. repeat constructor. }
  repeat (apply elem_of_cons in Hin as [->|Hin]; [vm_compute; repeat constructor|]).
  by apply elem_of_nil in Hin.
Qed.

Lemma hex_char_value (x : Z) :
  is_Some (hex_value (hashlib.hex_char (Z.land x 0xf))).
Proof.
  assert (0 ≤ Z.land x 0xf < 16)%Z as Hrange.
  { change 0xf%Z with (Z.ones 4). rewrite Z.land_ones by lia. apply Z.mod_pos_bound. lia. }
  assert (Z.land x 0xf ∈ [0; 1; 2; 3; 4; 5; 6; 7; 8; 9; 10; 11; 12; 13; 14; 15]%Z) as Hin.
  { remember (Z.land x 0xf) as v.
    assert (v = 0 ∨ v = 1 ∨ v = 2 ∨ v = 3 ∨ v = 4 ∨ v = 5 ∨ v = 6 ∨ v = 7 ∨ v = 8 ∨ v = 9
            ∨ v = 10 ∨ v = 11 ∨ v = 12 ∨ v = 13 ∨ v = 14 ∨ v = 15)%Z as Hcases by lia.
    repeat (destruct Hcases as [->|Hcases]; [repeat constructor|]).
    subst v. rewrite Hcases. repeat constructor. }
  repeat (apply elem_of_cons in Hin as [->|Hin]; [vm_compute; eauto|]).
  by apply elem_of_nil in Hin.
Qed.

Lemma all_hex_hex (count : nat) :
  ∀ (x : Z) (acc : string), all_hex acc → all_hex (hashlib.hex count x acc).
Proof.
  induction count as [|count IH]; intros x acc Hacc; simpl; [done|].
  apply IH. simpl. split; [apply hex_char_value | done].
Qed.

Lemma hex_nonempty (count : nat) :
  ∀ (x : Z) (acc : string),
    count ≠ 0 ∨ acc ≠ EmptyString → hashlib.hex count x acc ≠ EmptyString.
Proof.
  induction count as [|count IH]; intros x acc Hne; simpl.
  - by destruct Hne.
  - apply IH. by right.
Qed.

Lemma all_hex_int16_acc (s : string) :
  all_hex s → ∀ acc, is_Some (int16_acc s acc).
Proof.
  induction s as [|ch s IH]; simpl; [eauto|].
  intros [[v Hv] Hs] acc. rewrite Hv. by apply IH.
Qed.

Lemma compress_length (hash block : list Z) :
  length hash = 8 → length (hashlib.compress hash block) = 8.
Proof.
  intros H. unfold hashlib.compress. rewrite length_zip_with, H. reflexivity.
Qed.

Lemma blocks_length (fuel : nat) :
  ∀ ws hash, length hash = 8 → length (hashlib.blocks fuel ws hash) = 8.
Proof.
  induction fuel as [|fuel IH]; intros ws hash H; simpl; [done|].
  destruct ws; [done|]. apply IH. by apply compress_length.
Qed.

Lemma sha256_length (message : list Z) : length (hashlib.sha256 message) = 8.
Proof. unfold hashlib.sha256. by apply blocks_length. Qed.

#[local] Arguments hashlib.hex : simpl never.
#[local] Arguments hashlib.hexdigest : simpl never.
#[local] Arguments hashlib.encode : simpl never.
#[local] Arguments int16 : simpl never.
#[local] Arguments str_int : simpl never.
#[local] Arguments last_char : simpl never.

(** The digest in hexadecimal is read back by [int(., 16)] without error. *)
Lemma int16_hexdigest (message : list Z) :
  ∃ digest, int16 (hashlib.hexdigest message) = Ok digest.
Proof.
  unfold hashlib.hexdigest.
  pose proof (sha256_length message) as Hlen.
  destruct (hashlib.sha256 message) as [|word others]; [discriminate|].
  cbn [fold_right].
  assert (all_hex (fold_right (fun word acc => hashlib.hex 8 word acc) EmptyString others))
    as Hothers.
  { clear. induction others as [|w others IH]; [done|].
    cbn [fold_right]. by apply (all_hex_hex 8). }
  pose proof (all_hex_hex 8 word _ Hothers) as Hall.
  assert (hashlib.hex 8 word
            (fold_right (fun word acc => hashlib.hex 8 word acc) EmptyString others)
          ≠ EmptyString) as Hne.
  { apply hex_nonempty. left. discriminate. }
  unfold int16.
  destruct (hashlib.hex 8 word _) as [|ch rest] eqn:Hhex; [done|].
  destruct (all_hex_int16_acc _ Hall 0%Z) as [digest ->]. eauto.
Qed.

Lemma str_int_nonnegative (z : Z) :
  (0 ≤ z)%Z → str_int z = str_N (Z.to_N z).
Proof. intros Hz. unfold str_int. destruct (Z.ltb_spec z 0); [lia | done]. Qed.

(** The digests of the empty message and of ["abc"], and the ids of a few
    environments on a network without a shared cache database. *)
Example sha256_test_vectors :
  hashlib.hexdigest (hashlib.encode "")
    = "e3b0c44298fc1c149afbf4c8996fb92427ae41e4649b934ca495991b7852b855" ∧
  hashlib.hexdigest (hashlib.encode "abc")
    = "ba7816bf8f01cfea414140de5dae2223b00361a396177a9cb410ff61f20015ad".
Proof. split; vm_compute; reflexivity. Qed.

Example redis_db_examples :
  BeanstalkStack._get_redis_db "devnet" "abc" = Ok "5" ∧
  BeanstalkStack._get_redis_db "devnet" "staging" = Ok "0" ∧
  BeanstalkStack._get_redis_db "mainnet" "abc" = Ok "0".
Proof. repeat split; vm_compute; reflexivity. Qed.

(** C10, as stated, fails: for a network that the settings do not know the
    method raises [KeyError] instead of returning a digit. *)
Lemma redis_db_of_unknown_network :
  nonempty "staging" = true ∧ nonempty "web" = true ∧
  BeanstalkStack._get_redis_db "staging" "web" =
    Raise (KeyError "Not supported by 'SharedCacheDatabaseSettings': 'staging'.").
Proof. repeat split; vm_compute; reflexivity. Qed.

(** C10, amended. For non-empty network and environment names, the name of
    the network being none that the interpreter answers for on every class
    (none that begins with two underscores, and not [mro]): when the
    shared-cache setting of the network resolves, [_get_redis_db] returns a
    one-character string that is a decimal digit, ["0"] if the setting is
    truthy and otherwise the last digit of [sha256(environment) mod 10^8];
    that digit depends on the environment alone. When the setting does not
    resolve, the exception of [Settings.get] is raised; that is the case of
    every network but mainnet, testnet, devnet and the names of the three
    class methods, and the exception is then a [KeyError]. *)
Theorem redis_db_is_a_digit (network environment : string)
    (Hdeclared : declared_name network = true)
    (Hnetwork : nonempty network = true) (Henvironment : nonempty environment = true) :
  (∀ shared,
     Settings.get SharedCacheDatabaseSettings network = Ok shared →
     ∃ digit,
       BeanstalkStack._get_redis_db network environment = Ok digit ∧
       is_decimal_digit digit ∧
       (truthy shared = true → digit = "0") ∧
       (truthy shared = false →
          ∃ digest,
            int16 (hashlib.hexdigest (hashlib.encode environment)) = Ok digest ∧
            digit = String (digit_char (Z.to_N ((digest mod 10 ^ 8) mod 10))) EmptyString)) ∧
  (∀ network' shared shared',
     declared_name network' = true →
     nonempty network' = true →
     Settings.get SharedCacheDatabaseSettings network = Ok shared →
     Settings.get SharedCacheDatabaseSettings network' = Ok shared' →
     truthy shared = false → truthy shared' = false →
     BeanstalkStack._get_redis_db network environment =
     BeanstalkStack._get_redis_db network' environment) ∧
  (∀ e,
     Settings.get SharedCacheDatabaseSettings network = Raise e →
     BeanstalkStack._get_redis_db network environment = Raise e) ∧
  (network ∉ tiers ++ ["get"; "cycle"; "length"] →
     BeanstalkStack._get_redis_db network environment =
     Raise (KeyError ("Not supported by 'SharedCacheDatabaseSettings': '"
                      +:+ network +:+ "'."))) ∧
  (network ∈ tiers ++ ["get"; "cycle"; "length"] →
     ∃ shared, Settings.get SharedCacheDatabaseSettings network = Ok shared).
Proof.
  split; [|split; [|split; [|split]]].
  - intros shared Hshared. unfold BeanstalkStack._get_redis_db.
    rewrite Hnetwork, Henvironment, Hshared. simpl.
    destruct (truthy shared) eqn:Htruthy.
    + exists "0". split; [done|]. split; [unfold is_decimal_digit; repeat constructor|].
      split; [done | discriminate].
    + destruct (int16_hexdigest (hashlib.encode environment)) as [digest Hdigest].
      rewrite Hdigest. simpl.
      assert (0 ≤ digest mod 10 ^ 8 < 10 ^ 8)%Z as Hrange by (apply Z.mod_pos_bound; lia).
      rewrite str_int_nonnegative by lia. rewrite last_char_str_N.
      assert ((Z.to_N (digest mod 10 ^ 8) mod 10)%N = Z.to_N ((digest mod 10 ^ 8) mod 10))
        as Hmod.
      { change 10%N with (Z.to_N 10). rewrite <- Z2N.inj_mod by lia. reflexivity. }
      rewrite Hmod. eexists. split; [done|]. split.
      * apply digit_char_is_decimal_digit.
        assert (0 ≤ (digest mod 10 ^ 8) mod 10 < 10)%Z by (apply Z.mod_pos_bound; lia).
        lia.
      * split; [discriminate|]. intros _. exists digest. done.
  - intros network' shared shared' _ Hnetwork' Hshared Hshared' Hfalse Hfalse'.
    unfold BeanstalkStack._get_redis_db.
    rewrite Hnetwork, Hnetwork', Henvironment, Hshared, Hshared'. simpl.
    by rewrite Hfalse, Hfalse'.
  - intros e He. unfold BeanstalkStack._get_redis_db.
    rewrite Hnetwork, Henvironment, He. reflexivity.
  - intros Hother. unfold BeanstalkStack._get_redis_db.
    rewrite Hnetwork, Henvironment. simpl.
    rewrite (get_missing SharedCacheDatabaseSettings network); [reflexivity| |reflexivity].
    apply subclass_lookup_other.
    + intros Hown. apply Hother. apply elem_of_app. left. exact Hown.
    + intros ->. apply Hother. apply elem_of_app. right. repeat constructor.
    + intros ->. apply Hother. apply elem_of_app. right. repeat constructor.
    + intros ->. apply Hother. apply elem_of_app. right. repeat constructor.
  - intros Hknown. apply elem_of_app in Hknown as [Hknown|Hknown].
    + tier_cases Hknown; eexists; vm_compute; reflexivity.
    + repeat (apply elem_of_cons in Hknown as [->|Hknown];
              [eexists; vm_compute; reflexivity|]).
      by apply elem_of_nil in Hknown.
Qed.

Lemma redis_db_is_a_digit_witness :
  declared_name "devnet" = true ∧
  ∃ digit,
    BeanstalkStack._get_redis_db "devnet" "abc" = Ok digit ∧ is_decimal_digit digit.
Proof.
  split; [reflexivity|].
  destruct (proj1 (redis_db_is_a_digit "devnet" "abc" eq_refl eq_refl eq_refl) (VBool false))
    as (digit & Hdigit & Hdecimal & _).
  - vm_compute. reflexivity.
  - exists digit. exact (conj Hdigit Hdecimal).
Defined.

(** * Further properties of the code *)

(** ** Strings *)

Lemma str_app_cons (ch : ascii) (x y : string) :
  String ch x +:+ y = String ch (x +:+ y).
Proof. reflexivity. Qed.

Lemma str_app_assoc (x y z : string) : (x +:+ y) +:+ z = x +:+ (y +:+ z).
Proof.
  induction x as [|ch x IH]; [reflexivity|].
  rewrite !str_app_cons. f_equal. exact IH.
Qed.

Lemma str_length_app (x y : string) :
  String.length (x +:+ y) = String.length x + String.length y.
Proof.
  induction x as [|ch x IH]; [reflexivity|].
  rewrite str_app_cons. simpl. by rewrite IH.
Qed.

(** Two strings that end with suffixes of the same length agree on them. *)
Lemma str_app_inj_same_length (x1 x2 t1 t2 : string) :
  String.length t1 = String.length t2 →
  x1 +:+ t1 = x2 +:+ t2 → x1 = x2 ∧ t1 = t2.
Proof.
  intros Hlen. revert x2. induction x1 as [|ch x1 IH]; intros [|ch2 x2] H.
  - done.
  - apply (f_equal String.length) in H. rewrite !str_length_app in H.
    simpl in H. lia.
  - apply (f_equal String.length) in H. rewrite !str_length_app in H.
    simpl in H. lia.
  - rewrite !str_app_cons in H. injection H as -> H. by destruct (IH x2 H) as [-> ->].
Qed.

(** ** [app.py]: validation of the parameters *)

(** X1. [app.py] passes its checks exactly when the context values
    application, database, network and environment and the variables
    CDK_DEFAULT_ACCOUNT and CDK_DEFAULT_REGION are all set and non-empty;
    the profile is not looked at. *)
Theorem validate_accepts_exactly_complete_settings (c : App.cli) :
  (App.validate c = Ok tt ↔
     App.missing (App.application_ctx c) = false ∧
     App.missing (App.database_ctx c) = false ∧
     App.missing (App.network_ctx c) = false ∧
     App.missing (App.environment_ctx c) = false ∧
     App.missing (App.CDK_DEFAULT_ACCOUNT c) = false ∧
     App.missing (App.CDK_DEFAULT_REGION c) = false) ∧
  (∀ p, App.validate
          (App.MkCli p (App.application_ctx c) (App.database_ctx c) (App.network_ctx c)
             (App.environment_ctx c) (App.CDK_DEFAULT_ACCOUNT c) (App.CDK_DEFAULT_REGION c))
        = App.validate c).
Proof.
  split; [|reflexivity].
  unfold App.validate. destruct c as [p a d n e acc reg]. simpl.
  destruct acc as [acc|]; simpl; [|split; [discriminate | intros (_ & _ & _ & _ & [=] & _)]].
  destruct reg as [reg|]; simpl; [|split; [discriminate | intros (_ & _ & _ & _ & _ & [=])]].
  destruct (App.missing a); simpl; [split; [discriminate | intros ([=] & _)] |].
  destruct (App.missing d); simpl; [split; [discriminate | intros (_ & [=] & _)] |].
  destruct (App.missing n); simpl; [split; [discriminate | intros (_ & _ & [=] & _)] |].
  destruct (App.missing e); simpl; [split; [discriminate | intros (_ & _ & _ & [=] & _)] |].
  destruct (nonempty acc); simpl; [|split; [discriminate | intros (_ & _ & _ & _ & [=] & _)]].
  destruct (nonempty reg); simpl; [|split; [discriminate | intros (_ & _ & _ & _ & _ & [=])]].
  done.
Qed.

(** ** [app.py]: the ids of the stacks *)

Lemma construct_id_ends (c : Wiring.settings) (target : App.stack) :
  ∃ front, Wiring.construct_id c target = front +:+ construct_id_ending target.
Proof.
  destruct target; simpl.
  - exists (Wiring.application c +:+ "-regis"). by rewrite !str_app_assoc.
  - exists (Wiring.application c +:+ "-" +:+ Wiring.network c +:+ "-").
    by rewrite !str_app_assoc.
  - exists (Wiring.application c +:+ "-" +:+ Wiring.network c +:+ "-secur").
    by rewrite !str_app_assoc.
  - exists (Wiring.application c +:+ "-" +:+ Wiring.network c +:+ "-bast").
    by rewrite !str_app_assoc.
  - exists (Wiring.application c +:+ "-" +:+ Wiring.network c +:+ "-").
    by rewrite !str_app_assoc.
  - exists (Wiring.application c +:+ "-" +:+ Wiring.network c +:+ "-me").
    by rewrite !str_app_assoc.
  - exists (Wiring.application c +:+ "-" +:+ Wiring.network c +:+ "-re").
    by rewrite !str_app_assoc.
  - exists (Wiring.application c +:+ "-" +:+ Wiring.network c).
    by rewrite !str_app_assoc.
  - exists (Wiring.application c +:+ "-" +:+ Wiring.network c +:+ "-"
              +:+ Wiring.database c +:+ "-datab").
    by rewrite !str_app_assoc.
  - exists (Wiring.application c +:+ "-" +:+ Wiring.network c +:+ "-"
              +:+ Wiring.database c +:+ "-" +:+ Wiring.environment c +:+ "-environm").
    by rewrite !str_app_assoc.
Qed.

(** X2. Whatever the application, network, database and environment names
    are, the ten stacks of [app.py] get ten different construct ids. *)
Theorem construct_ids_are_distinct (c : Wiring.settings) (x y : App.stack) :
  Wiring.construct_id c x = Wiring.construct_id c y → x = y.
Proof.
  destruct (construct_id_ends c x) as [fx ->].
  destruct (construct_id_ends c y) as [fy ->].
  intros H. apply str_app_inj_same_length in H as [_ H].
  - destruct x, y; first [reflexivity | discriminate H].
  - by destruct x, y.
Qed.

Lemma construct_ids_are_distinct_witness :
  let c := Wiring.MkSettings "default" "app" "demodb" "devnet" "staging" "123" "us-west-2" in
  Wiring.construct_id c App.cache = "app-devnet-redis-stack" ∧
  ∀ x, Wiring.construct_id c x = "app-devnet-redis-stack" → x = App.cache.
Proof.
  intros c. split; [reflexivity|].
  intros x Hx. apply (construct_ids_are_distinct c x App.cache). exact Hx.
Defined.

(** ** [app.py]: the declared dependencies *)

(** X3. The dependencies declared with [add_dependency] are acyclic, and
    every stack other than the network stack depends on the network stack,
    directly or through another stack. *)
Theorem dependencies_are_acyclic_and_rooted_in_network (x : App.stack) :
  Wiring.depends_on x x = false ∧
  (x ≠ App.network → Wiring.depends_on x App.network = true).
Proof.
  split.
  - destruct x; vm_compute; reflexivity.
  - intros Hx. destruct x; first [done | vm_compute; reflexivity].
Qed.

Lemma dependencies_are_acyclic_and_rooted_in_network_witness :
  Wiring.depends_on App.opensearch App.network = true.
Proof.
  apply (proj2 (dependencies_are_acyclic_and_rooted_in_network App.opensearch)).
  discriminate.
Defined.

Lemma validate_accepts_exactly_complete_settings_witness :
  App.validate
    (App.MkCli None (Some "app") (Some "demodb") (Some "devnet") (Some "staging")
       (Some "767087296931") (Some "us-west-2")) = Ok tt.
Proof.
  apply (proj1 (validate_accepts_exactly_complete_settings _)).
  repeat split; reflexivity.
Defined.

(** ** Every imported name is exported *)

(** For a configured network, what the network stack exports and what
    [NetworkProtectedStack.load] imports. *)
Lemma network_wiring (c : Wiring.settings) :
  Wiring.network c ∈ tiers → Wiring.application c ≠ "" → Wiring.region c ≠ "" →
  ∃ names,
    Wiring.network_exports c = names ∧
    names ≠ [] ∧
    ∀ name, name ∈ Wiring.network_imports c ↔ name ∈ names.
Proof.
  intros Hn Ha Hr.
  destruct (deploy_configured _ _ _ Hn Ha Hr) as [s Hs].
  pose proof Hs as Hinv.
  apply deploy_Ok_inv in Hinv
    as (Ha' & Hn' & Hr' & vc & zv & z & pv & publics & qv & privates & Hvc & Hzv & Hz & Hne
        & Hpv & Hpublics & Hqv & Hprivates & Hsa & Hsn & Hout & Hvpc & Hlpub & Hlpriv).
  destruct (export_Ok s Hvpc Hout) as (s' & Hexport & Hnames).
  destruct (load_Ok _ _ _ vc zv pv qv z publics privates Ha' Hn' Hr' Hvc Hzv Hz Hne
              Hpv Hpublics Hqv Hprivates)
    as (p & vpc & Hload & _ & _ & _ & _ & _ & Himports).
  exists (NetworkStack.export_names s').
  unfold Wiring.network_exports, Wiring.network_imports.
  rewrite Hs. simpl. rewrite Hexport, Hload, Himports, Hnames, Hsa, Hsn, Hlpub, Hlpriv.
  split; [done|]. split; [done|].
  intros name. rewrite elem_of_app, !elem_of_cons, !elem_of_app. tauto.
Qed.

(** Tries the stack [y] as the exporter of the name of the goal. *)
Ltac exported_by y :=
  exists y; split;
  [ cbn [Wiring.exports]; vm_compute; solve [repeat constructor]
  | first [ left; vm_compute; reflexivity | right; split; reflexivity ] ].

(** X4. Every name a stack imports is exported by another stack. For a
    configured network and non-empty application and region names, each name
    passed to [Fn.import_value] by the [load] of a stack is among the export
    names of some stack, and that stack is one the importer depends on by
    the [add_dependency] calls of [app.py] -- except for the bucket name and
    CDN domain that the environment stack imports from the media stack, on
    which it does not depend. *)
Theorem every_import_is_exported (c : Wiring.settings) (x : App.stack) (name : string) :
  Wiring.network c ∈ tiers → Wiring.application c ≠ "" → Wiring.region c ≠ "" →
  name ∈ Wiring.imports c x →
  ∃ y, name ∈ Wiring.exports c y ∧
       (Wiring.depends_on x y = true ∨ (x = App.environment ∧ y = App.media)).
Proof.
  intros Hn Ha Hr Hin.
  destruct (network_wiring c Hn Ha Hr) as (names & Hexports & _ & Himports).
  assert (name ∈ Wiring.network_imports c → x ≠ App.network →
          Wiring.depends_on x App.network = true →
          ∃ y, name ∈ Wiring.exports c y ∧
               (Wiring.depends_on x y = true ∨ (x = App.environment ∧ y = App.media)))
    as Hnetwork.
  { intros Hname _ Hdep. exists App.network. split; [|by left].
    cbn [Wiring.exports]. rewrite Hexports. by apply Himports. }
  destruct x; cbn [Wiring.imports] in Hin.
  - by apply elem_of_nil in Hin.
  - by apply elem_of_nil in Hin.
  - by apply Hnetwork.
  - apply elem_of_app in Hin as [Hin|Hin]; [by apply Hnetwork|].
    apply elem_of_cons in Hin as [->|Hin]; [|by apply elem_of_nil in Hin].
    exported_by App.security.
  - by apply elem_of_nil in Hin.
  - by apply elem_of_nil in Hin.
  - by apply Hnetwork.
  - by apply Hnetwork.
  - by apply Hnetwork.
  - apply elem_of_app in Hin as [Hin|Hin]; [by apply Hnetwork|].
    unfold beanstalk_import_names in Hin.
    repeat (apply elem_of_cons in Hin as [->|Hin];
            [first [ exported_by App.application | exported_by App.cache
                   | exported_by App.database | exported_by App.opensearch
                   | exported_by App.security | exported_by App.media
                   | exported_by App.registry ]|]).
    by apply elem_of_nil in Hin.
Qed.

Lemma every_import_is_exported_witness :
  let c := Wiring.MkSettings "default" "app" "demodb" "devnet" "staging" "123" "us-west-2" in
  ∃ y, "app::devnet::subnet::private::2::id" ∈ Wiring.exports c y ∧
       (Wiring.depends_on App.cache y = true ∨ (App.cache = App.environment ∧ y = App.media)).
Proof.
  intros c. apply (every_import_is_exported c App.cache).
  - unfold tiers. repeat constructor.
  - discriminate.
  - discriminate.
  - vm_compute. repeat constructor.
Defined.

(** The two imports that no declared dependency covers. *)
Example environment_does_not_depend_on_media :
  Wiring.depends_on App.environment App.media = false ∧
  ∀ c, Exports.media (Wiring.application c) (Wiring.network c)
       ⊆ Wiring.imports c App.environment.
Proof.
  split; [vm_compute; reflexivity|].
  intros c name Hname. cbn [Wiring.imports]. apply elem_of_app. right.
  unfold Exports.media in Hname. unfold beanstalk_import_names.
  repeat (apply elem_of_cons in Hname as [->|Hname]; [repeat constructor|]).
  by apply elem_of_nil in Hname.
Qed.

(** ** [stacks/network.py]: what a deployed network stack holds *)

Lemma create_subnets_Ok_cidrs (kind : string) (self : NetworkStack.t) (vpc_cidr : value) :
  ∀ blocks index it acc subnets,
    NetworkStack.create_subnets kind self vpc_cidr index blocks it acc = Ok subnets →
    ∃ new, subnets = acc ++ new ∧ map cidr_block new = map Some blocks.
Proof.
  induction blocks as [|b blocks IH]; intros index it acc subnets; simpl.
  - intros [= <-]. exists []. by rewrite app_nil_r.
  - intros H. bind_step H as v Hv. destruct (cidr_mismatch b v); [discriminate|].
    bind_step H as tok Htok. bind_step H as zone Hzone.
    apply IH in H as (new & -> & Hnew).
    eexists (_ :: new). rewrite <- app_assoc. split; [done|]. simpl. by rewrite Hnew.
Qed.

Lemma create_nat_gateways_Ok (self : NetworkStack.t) :
  ∀ count index acc gateways,
    NetworkStack.create_nat_gateways self index count acc = Ok gateways →
    length gateways = length acc + count ∧
    (0 < count →
       index + count ≤ length (NetworkStack._eip self) ∧
       index + count ≤ length (NetworkStack._public_subnets self)).
Proof.
  induction count as [|count IH]; intros index acc gateways; simpl.
  - intros [= <-]. split; lia.
  - intros H. bind_step H as eip Heip. bind_step H as subnet Hsubnet.
    apply IH in H as [Hlen Hbound]. rewrite length_app in Hlen. simpl in Hlen.
    split; [lia|]. intros _.
    unfold getitem in Heip, Hsubnet.
    destruct (NetworkStack._eip self !! index) eqn:He; [|discriminate].
    destruct (NetworkStack._public_subnets self !! index) eqn:Hp; [|discriminate].
    apply lookup_lt_Some in He, Hp.
    destruct count as [|count']; [lia|]. destruct Hbound as [H1 H2]; lia.
Qed.

Lemma create_nat_gateways_in_range (self : NetworkStack.t) :
  ∀ count index acc,
    index + count ≤ length (NetworkStack._eip self) →
    index + count ≤ length (NetworkStack._public_subnets self) →
    ∃ gateways, NetworkStack.create_nat_gateways self index count acc = Ok gateways.
Proof.
  induction count as [|count IH]; intros index acc He Hp; simpl; [eauto|].
  unfold getitem.
  destruct (lookup_lt_is_Some_2 (NetworkStack._eip self) index) as [eip ->]; [lia|].
  destruct (lookup_lt_is_Some_2 (NetworkStack._public_subnets self) index) as [sn ->]; [lia|].
  simpl. apply IH; lia.
Qed.

Lemma create_nat_gateways_out_of_range (self : NetworkStack.t) :
  ∀ count index acc,
    index ≤ length (NetworkStack._eip self) →
    index ≤ length (NetworkStack._public_subnets self) →
    length (NetworkStack._eip self) < index + count ∨
    length (NetworkStack._public_subnets self) < index + count →
    NetworkStack.create_nat_gateways self index count acc
      = Raise (IndexError "list index out of range").
Proof.
  induction count as [|count IH]; intros index acc Hie Hip Hout; simpl; [lia|].
  unfold getitem.
  destruct (NetworkStack._eip self !! index) as [eip|] eqn:He; simpl; [|done].
  destruct (NetworkStack._public_subnets self !! index) as [sn|] eqn:Hp; simpl; [|done].
  apply lookup_lt_Some in He, Hp. apply IH; lia.
Qed.

(** X7. [_create_nat_gateways] places the gateway of the private subnet
    number [i] in the public subnet number [i] with the elastic IP number
    [i]: with at least one elastic IP, it succeeds and adds one gateway per
    private subnet when there are at least as many elastic IPs and public
    subnets as private subnets, and raises [IndexError] otherwise; without
    any elastic IP it raises [AttributeError]. *)
Theorem nat_gateways_need_a_public_subnet_each (self : NetworkStack.t) :
  let privates := length (NetworkStack._private_subnets self) in
  let publics := length (NetworkStack._public_subnets self) in
  let eips := length (NetworkStack._eip self) in
  (eips = 0 →
     NetworkStack._create_nat_gateways self
       = Raise (AttributeError "AWS Elastic IPs not created!")) ∧
  (0 < eips → privates ≤ eips → privates ≤ publics →
     ∃ self', NetworkStack._create_nat_gateways self = Ok self' ∧
              length (NetworkStack._nat_gateways self')
                = length (NetworkStack._nat_gateways self) + privates ∧
              NetworkStack._private_subnets self' = NetworkStack._private_subnets self ∧
              NetworkStack._public_subnets self' = NetworkStack._public_subnets self) ∧
  (0 < eips → eips < privates ∨ publics < privates →
     NetworkStack._create_nat_gateways self = Raise (IndexError "list index out of range")).
Proof.
  intros privates publics eips. unfold NetworkStack._create_nat_gateways.
  assert (0 < eips → negb (length (NetworkStack._eip self) =? 0) = true) as Hsome.
  { intros H. apply negb_true_iff, Nat.eqb_neq. unfold eips in H. lia. }
  split; [|split].
  - intros H. unfold eips in H. by rewrite H.
  - intros H0 He Hp. rewrite (Hsome H0). simpl.
    destruct (create_nat_gateways_in_range self privates 0 (NetworkStack._nat_gateways self))
      as [gateways Hg]; [exact He | exact Hp |].
    unfold privates in Hg. rewrite Hg. simpl. eexists. split; [reflexivity|]. simpl.
    apply create_nat_gateways_Ok in Hg as [Hlen _]. done.
  - intros H0 Hout. rewrite (Hsome H0). simpl.
    rewrite create_nat_gateways_out_of_range; [reflexivity | lia | lia |].
    unfold privates, publics, eips in Hout. simpl. lia.
Qed.

Lemma nat_gateways_need_a_public_subnet_each_witness :
  let subnet id :=
    MkSubnet id (Ref id "subnet_id") (Some "10.0.0.0/19") "us-west-2a" in
  NetworkStack._create_nat_gateways
    (NetworkStack.Mk "app" "mainnet" "us-west-2" None
       [subnet "public-1"] [subnet "private-1"; subnet "private-2"] [] None
       ["ip-1"; "ip-2"] [] [])
  = Raise (IndexError "list index out of range").
Proof.
  intros subnet.
  apply (proj2 (proj2 (nat_gateways_need_a_public_subnet_each _))).
  - simpl. lia.
  - simpl. lia.
Defined.

(** What a successful [deploy] of a fresh network stack has built. *)
Lemma deploy_Ok_structure (a n r : string) (s : NetworkStack.t) :
  NetworkStack.deploy (NetworkStack.new a n r) = Ok s →
  ∃ z publics privates,
    tier_zones n z ∧ z ≠ [] ∧
    (∃ pv, Settings.get PublicSubnetCidrSettings n = Ok pv ∧
           Settings.as_sequence pv = Some publics) ∧
    (∃ qv, Settings.get PrivateSubnetCidrSettings n = Ok qv ∧
           Settings.as_sequence qv = Some privates) ∧
    NetworkStack.region s = r ∧
    map cidr_block (NetworkStack._public_subnets s) = map Some publics ∧
    map cidr_block (NetworkStack._private_subnets s) = map Some privates ∧
    zones_assigned r z 0 (NetworkStack._public_subnets s) ∧
    zones_assigned r z 0 (NetworkStack._private_subnets s) ∧
    length (NetworkStack._eip s) = length privates ∧
    length (NetworkStack._nat_gateways s) = length privates ∧
    length (NetworkStack._endpoints s) = 4 ∧
    is_Some (NetworkStack._igw s) ∧
    privates ≠ [] ∧ length privates ≤ length publics.
Proof.
  unfold NetworkStack.deploy. intros H.
  bind_step H as u1 Ha. bind_step H as u2 Hn. bind_step H as u3 Hr.
  (* _create_vpc *)
  bind_step H as s1 H1. unfold NetworkStack._create_vpc in H1. simpl in H1.
  bind_step H1 as vc Hvc. bind_step H1 as max_azs Hmax. injection H1 as <-.
  (* _create_public_subnets *)
  bind_step H as s2 H2. unfold NetworkStack._create_public_subnets in H2. simpl in H2.
  bind_step H2 as vc2 Hvc2. bind_step H2 as pv Hpv. bind_step H2 as it Hit.
  bind_step H2 as publics Hpublics. bind_step H2 as pubs Hpubs. injection H2 as <-.
  apply Settings_cycle_Ok_inv in Hit as (zv & z & Hzv & Hz & ->).
  apply as_list_Ok_inv in Hpublics.
  (* _create_private_subnets *)
  bind_step H as s3 H3. unfold NetworkStack._create_private_subnets in H3. simpl in H3.
  bind_step H3 as vc3 Hvc3. bind_step H3 as qv Hqv. bind_step H3 as it Hit.
  bind_step H3 as privates Hprivates. bind_step H3 as privs Hprivs. injection H3 as <-.
  apply Settings_cycle_Ok_inv in Hit as (zv' & z' & Hzv' & Hz' & ->).
  rewrite Hzv in Hzv'. injection Hzv' as <-. rewrite Hz in Hz'. injection Hz' as <-.
  apply as_list_Ok_inv in Hprivates.
  (* _create_internet_gateway, _create_eip, _create_nat_gateways *)
  bind_step H as s4 H4. unfold NetworkStack._create_internet_gateway in H4. simpl in H4.
  bind_step H4 as u4 Higw. injection H4 as <-.
  bind_step H as s5 H5. unfold NetworkStack._create_eip in H5. simpl in H5.
  bind_step H5 as qv5 Hqv5. bind_step H5 as blocks5 Hblocks5. injection H5 as <-.
  rewrite Hqv in Hqv5. injection Hqv5 as <-.
  apply as_list_Ok_inv in Hblocks5. rewrite Hprivates in Hblocks5. injection Hblocks5 as <-.
  bind_step H as s6 H6. unfold NetworkStack._create_nat_gateways in H6. simpl in H6.
  bind_step H6 as u6 Heip. bind_step H6 as gateways Hgateways. injection H6 as <-.
  (* _create_vpc_endpoints *)
  unfold NetworkStack._create_vpc_endpoints in H.
  bind_step H as u7 Hvpc. bind_step H as u8 Hnonempty.
  apply require_Ok_inv in Hnonempty. simpl in Hnonempty. injection H as <-. simpl.
  (* the facts *)
  pose proof (create_subnets_length _ _ _ _ _ _ _ _ Hprivs) as Hlen. simpl in Hlen.
  pose proof (create_subnets_length _ _ _ _ _ _ _ _ Hpubs) as Hlenp. simpl in Hlenp.
  assert (privates ≠ []) as Hne.
  { intros ->. simpl in Hlen. rewrite Hlen in Hnonempty. discriminate. }
  destruct (create_subnets_zones _ _ _ _ _ _ _ _ Hprivs Hne) as [zone Hzone].
  apply next_cycle_nonempty in Hzone.
  pose proof (create_subnets_Ok_cidrs _ _ _ _ _ _ _ _ Hpubs) as (new1 & -> & Hc1).
  pose proof (create_subnets_Ok_cidrs _ _ _ _ _ _ _ _ Hprivs) as (new2 & -> & Hc2).
  apply (create_subnets_Ok_zones _ _ _ z Hzone _ _ _ _ _ (cycle_at_start z)) in Hpubs
    as (new1' & Heq1 & _ & Hz1).
  apply (create_subnets_Ok_zones _ _ _ z Hzone _ _ _ _ _ (cycle_at_start z)) in Hprivs
    as (new2' & Heq2 & _ & Hz2).
  simpl in Heq1, Heq2. subst new1' new2'. simpl in *.
  apply create_nat_gateways_Ok in Hgateways as [Hg Hbound]. simpl in Hg, Hbound.
  exists z, publics, privates.
  split; [by exists zv|]. split; [done|]. split; [eauto|]. split; [eauto|].
  split; [done|]. split; [done|]. split; [done|]. split; [done|]. split; [done|].
  split; [by rewrite length_imap|]. split; [lia|]. split; [done|]. split; [eauto|].
  split; [done|].
  destruct Hbound as [_ Hb]; [destruct privates; [done | simpl in Hlen; lia]|]. lia.
Qed.

(** X5. A network stack that deploys has created, in order, one public
    subnet per configured public CIDR block and one private subnet per
    configured private CIDR block, each with its block, then one elastic IP
    and one NAT gateway per private subnet, an internet gateway and four VPC
    endpoints; the network has at least one private subnet and at least as
    many public as private subnets. *)
Theorem deployed_network_follows_the_settings (a n r : string) (s : NetworkStack.t) :
  NetworkStack.deploy (NetworkStack.new a n r) = Ok s →
  ∃ publics privates,
    (∃ pv, Settings.get PublicSubnetCidrSettings n = Ok pv ∧
           Settings.as_sequence pv = Some publics) ∧
    (∃ qv, Settings.get PrivateSubnetCidrSettings n = Ok qv ∧
           Settings.as_sequence qv = Some privates) ∧
    map cidr_block (NetworkStack._public_subnets s) = map Some publics ∧
    map cidr_block (NetworkStack._private_subnets s) = map Some privates ∧
    length (NetworkStack._eip s) = length privates ∧
    length (NetworkStack._nat_gateways s) = length privates ∧
    length (NetworkStack._endpoints s) = 4 ∧
    is_Some (NetworkStack._igw s) ∧
    privates ≠ [] ∧ length privates ≤ length publics.
Proof.
  intros H. apply deploy_Ok_structure in H
    as (z & publics & privates & _ & _ & Hpub & Hpriv & _ & Hc1 & Hc2 & _ & _ & He & Hg
        & Hend & Higw & Hne & Hle).
  exists publics, privates. repeat (split; [assumption|]). assumption.
Qed.

Lemma deployed_network_follows_the_settings_witness :
  ∃ s, NetworkStack.deploy (NetworkStack.new "app" "mainnet" "us-west-2") = Ok s ∧
       length (NetworkStack._nat_gateways s) = 3 ∧
       map cidr_block (NetworkStack._private_subnets s)
         = [Some "10.0.96.0/19"; Some "10.0.128.0/19"; Some "10.0.160.0/19"].
Proof.
  destruct (NetworkStack.deploy (NetworkStack.new "app" "mainnet" "us-west-2"))
    as [s|e] eqn:Hs; [|exfalso; vm_compute in Hs; discriminate].
  exists s. split; [reflexivity|].
  destruct (deployed_network_follows_the_settings _ _ _ s Hs)
    as (publics & privates & _ & (qv & Hqv & Hseq) & _ & Hc & _ & Hg & _).
  assert (privates = ["10.0.96.0/19"; "10.0.128.0/19"; "10.0.160.0/19"]) as ->.
  { vm_compute in Hqv. injection Hqv as <-. simpl in Hseq. by injection Hseq as <-. }
  split; [exact Hg | exact Hc].
Defined.

(** Where the loop of [_create_nat_gateways] places the gateways it adds. *)
Lemma create_nat_gateways_placement (self : NetworkStack.t) :
  ∀ count index acc gateways,
    NetworkStack.create_nat_gateways self index count acc = Ok gateways →
    ∃ new,
      gateways = acc ++ new ∧ length new = count ∧
      ∀ j gateway, new !! j = Some gateway →
        ∃ eip public,
          NetworkStack._eip self !! (index + j) = Some eip ∧
          NetworkStack._public_subnets self !! (index + j) = Some public ∧
          allocation_id gateway = Ref eip "attr_allocation_id" ∧
          nat_subnet_id gateway = subnet_id public.
Proof.
  induction count as [|count IH]; intros index acc gateways; simpl.
  - intros [= <-]. exists []. rewrite app_nil_r. split; [done|]. split; [done|].
    intros j gateway Hj. by rewrite lookup_nil in Hj.
  - intros H. bind_step H as eip Heip. bind_step H as public Hpublic.
    apply IH in H as (new & -> & Hlen & Hnew).
    unfold getitem in Heip, Hpublic.
    destruct (NetworkStack._eip self !! index) as [eip'|] eqn:He; [|discriminate].
    destruct (NetworkStack._public_subnets self !! index) as [public'|] eqn:Hp;
      [|discriminate].
    injection Heip as ->. injection Hpublic as ->.
    eexists (_ :: new). rewrite <- app_assoc. split; [done|].
    split; [simpl; by rewrite Hlen|].
    intros [|j] gateway Hj; simpl in Hj.
    + injection Hj as <-. exists eip, public. rewrite Nat.add_0_r. done.
    + destruct (Hnew j gateway Hj) as (eip' & public' & He' & Hp' & Ha & Hs).
      exists eip', public'. replace (index + S j) with (S index + j) by lia. done.
Qed.

(** The gateways of a network stack that has deployed. *)
Lemma deploy_Ok_gateways (a n r : string) (s : NetworkStack.t) :
  NetworkStack.deploy (NetworkStack.new a n r) = Ok s →
  ∀ i gateway, NetworkStack._nat_gateways s !! i = Some gateway →
    ∃ eip public,
      NetworkStack._eip s !! i = Some eip ∧
      NetworkStack._public_subnets s !! i = Some public ∧
      allocation_id gateway = Ref eip "attr_allocation_id" ∧
      nat_subnet_id gateway = subnet_id public.
Proof.
  unfold NetworkStack.deploy. intros H.
  bind_step H as u1 Ha. bind_step H as u2 Hn. bind_step H as u3 Hr.
  bind_step H as s1 H1. unfold NetworkStack._create_vpc in H1. simpl in H1.
  bind_step H1 as vc Hvc. bind_step H1 as max_azs Hmax. injection H1 as <-.
  bind_step H as s2 H2. unfold NetworkStack._create_public_subnets in H2. simpl in H2.
  bind_step H2 as vc2 Hvc2. bind_step H2 as pv Hpv. bind_step H2 as it Hit.
  bind_step H2 as publics Hpublics. bind_step H2 as pubs Hpubs. injection H2 as <-.
  bind_step H as s3 H3. unfold NetworkStack._create_private_subnets in H3. simpl in H3.
  bind_step H3 as vc3 Hvc3. bind_step H3 as qv Hqv. bind_step H3 as it' Hit'.
  bind_step H3 as privates Hprivates. bind_step H3 as privs Hprivs. injection H3 as <-.
  bind_step H as s4 H4. unfold NetworkStack._create_internet_gateway in H4. simpl in H4.
  bind_step H4 as u4 Higw. injection H4 as <-.
  bind_step H as s5 H5. unfold NetworkStack._create_eip in H5. simpl in H5.
  bind_step H5 as qv5 Hqv5. bind_step H5 as blocks5 Hblocks5. injection H5 as <-.
  bind_step H as s6 H6. unfold NetworkStack._create_nat_gateways in H6. simpl in H6.
  bind_step H6 as u6 Heip. bind_step H6 as gateways Hgateways. injection H6 as <-.
  unfold NetworkStack._create_vpc_endpoints in H.
  bind_step H as u7 Hvpc. bind_step H as u8 Hnonempty. injection H as <-. simpl.
  apply create_nat_gateways_placement in Hgateways as (new & -> & _ & Hnew).
  simpl in Hnew. intros i gateway Hi. by apply Hnew.
Qed.

(** X6. In a deployed network the NAT gateway made for the private subnet
    number [i], the gateway number [i], is placed in the public subnet
    number [i], and that public subnet lies in the availability zone of the
    private subnet: each private subnet has its gateway in its own zone. *)
Theorem private_subnets_route_within_their_zone (a n r : string) (s : NetworkStack.t)
    (i : nat) (private : Subnet) :
  NetworkStack.deploy (NetworkStack.new a n r) = Ok s →
  NetworkStack._private_subnets s !! i = Some private →
  ∃ gateway public,
    NetworkStack._nat_gateways s !! i = Some gateway ∧
    NetworkStack._public_subnets s !! i = Some public ∧
    nat_subnet_id gateway = subnet_id public ∧
    availability_zone public = availability_zone private.
Proof.
  intros H Hi. pose proof (deploy_Ok_gateways _ _ _ _ H) as Hgateways.
  apply deploy_Ok_structure in H
    as (z & publics & privates & _ & _ & _ & _ & _ & Hc1 & Hc2 & Hz1 & Hz2 & _ & Hg
        & _ & _ & _ & Hle).
  assert (i < length (NetworkStack._nat_gateways s)) as Hlt.
  { apply lookup_lt_Some in Hi.
    apply (f_equal length) in Hc2. rewrite !length_map in Hc2. lia. }
  destruct (lookup_lt_is_Some_2 _ _ Hlt) as [gateway Hgateway].
  destruct (Hgateways i gateway Hgateway) as (eip & public & _ & Hpublic & _ & Hplaced).
  exists gateway, public. split; [done|]. split; [done|]. split; [done|].
  destruct (Hz1 i public Hpublic) as (zone1 & Hzone1 & ->).
  destruct (Hz2 i private Hi) as (zone2 & Hzone2 & ->).
  congruence.
Qed.

Lemma private_subnets_route_within_their_zone_witness :
  ∃ s private gateway public,
    NetworkStack.deploy (NetworkStack.new "app" "testnet" "us-west-2") = Ok s ∧
    NetworkStack._private_subnets s !! 1 = Some private ∧
    NetworkStack._nat_gateways s !! 1 = Some gateway ∧
    NetworkStack._public_subnets s !! 1 = Some public ∧
    nat_subnet_id gateway = subnet_id public ∧
    availability_zone public = availability_zone private.
Proof.
  destruct (NetworkStack.deploy (NetworkStack.new "app" "testnet" "us-west-2"))
    as [s|e] eqn:Hs; [|exfalso; vm_compute in Hs; discriminate].
  destruct (NetworkStack._private_subnets s !! 1) as [private|] eqn:Hprivate.
  - destruct (private_subnets_route_within_their_zone _ _ _ s 1 private Hs Hprivate)
      as (gateway & public & Hgateway & Hpublic & Hplaced & Hzone).
    exists s, private, gateway, public.
    exact (conj eq_refl (conj Hprivate (conj Hgateway (conj Hpublic (conj Hplaced Hzone))))).
  - exfalso. vm_compute in Hs. injection Hs as <-. discriminate Hprivate.
Defined.

(** X8. [NetworkStack.deploy] checks its names in the order application,
    network, region and raises [AttributeError] for the first that is
    empty; with all three given, a network for which [VpcCidrSettings] has
    neither an attribute nor a default makes it raise the [KeyError] of
    [Settings.get]. The last part is for the names of networks that the
    interpreter does not answer for on every class (none that begins with
    two underscores, and not [mro]). *)
Theorem network_deploy_refuses_missing_names (a n r : string) :
  (a = "" →
     NetworkStack.deploy (NetworkStack.new a n r)
       = Raise (AttributeError "Unknown application name!")) ∧
  (a ≠ "" → n = "" →
     NetworkStack.deploy (NetworkStack.new a n r)
       = Raise (AttributeError "Unknown network name!")) ∧
  (a ≠ "" → n ≠ "" → r = "" →
     NetworkStack.deploy (NetworkStack.new a n r)
       = Raise (AttributeError "Unknown region name!")) ∧
  (a ≠ "" → n ≠ "" → r ≠ "" →
     declared_name n = true →
     ¬ has_attribute VpcCidrSettings n →
     NetworkStack.deploy (NetworkStack.new a n r)
       = Raise (KeyError ("Not supported by 'VpcCidrSettings': '" +:+ n +:+ "'."))).
Proof.
  assert (∀ s, s ≠ "" → nonempty s = true) as Hnonempty.
  { intros [|ch s] Hs; [done|reflexivity]. }
  unfold NetworkStack.deploy. simpl.
  split; [|split; [|split]].
  - intros ->. reflexivity.
  - intros Ha ->. by rewrite (Hnonempty a Ha).
  - intros Ha Hn ->. by rewrite (Hnonempty a Ha), (Hnonempty n Hn).
  - intros Ha Hn Hr _ Hmissing.
    rewrite (Hnonempty a Ha), (Hnonempty n Hn), (Hnonempty r Hr). simpl.
    unfold NetworkStack._create_vpc. simpl.
    rewrite (get_missing VpcCidrSettings n).
    + reflexivity.
    + by apply class_lookup_None.
    + vm_compute. reflexivity.
Qed.

Lemma network_deploy_refuses_missing_names_witness :
  NetworkStack.deploy (NetworkStack.new "app" "staging" "us-west-2")
    = Raise (KeyError "Not supported by 'VpcCidrSettings': 'staging'.").
Proof.
  apply (proj2 (proj2 (proj2 (network_deploy_refuses_missing_names "app" "staging" "us-west-2")))).
  - discriminate.
  - discriminate.
  - discriminate.
  - reflexivity.
  - apply class_lookup_None. vm_compute. reflexivity.
Defined.

(** ** [stacks/protected.py]: what a loaded stack holds *)

Lemma import_subnets_ids (kind : string) (self : NetworkProtectedStack.t) :
  ∀ count index it subnets,
    NetworkProtectedStack.import_subnets kind self index count it = Ok subnets →
    length subnets = count ∧
    map subnet_id subnets =
      map (fun i => ImportValue
                      (subnet_export_name (NetworkProtectedStack._application self)
                         (NetworkProtectedStack._network self) kind i))
          (seq index count).
Proof.
  induction count as [|count IH]; intros index it subnets; simpl.
  - intros [= <-]. done.
  - intros H. bind_step H as zone Hzone. bind_step H as others Hothers.
    injection H as <-. apply IH in Hothers as [Hlen Hids]. simpl.
    split; [by rewrite Hlen | by rewrite Hids].
Qed.

Lemma py_len_sequence (v : value) (k : nat) (l : list string) :
  py_len v = Ok k → Settings.as_sequence v = Some l → k = length l.
Proof. destruct v; simpl; intros [= <-] [= <-]; reflexivity. Qed.

Lemma Settings_length_Ok_inv (cls : pyclass) (n : string) (k : nat) :
  Settings.length cls n = Ok k →
  ∃ v l, Settings.get cls n = Ok v ∧ Settings.as_sequence v = Some l ∧ k = length l.
Proof.
  unfold Settings.length. intros H. bind_step H as v Hv.
  destruct (Settings.as_sequence v) as [l|] eqn:Hl; [|discriminate].
  injection H as <-. eauto.
Qed.

(** What a successful [load] has read and imported. *)
Lemma load_Ok_inv (self p : NetworkProtectedStack.t) :
  NetworkProtectedStack.load self = Ok p →
  ∃ vc z publics privates vpc self1 self2,
    Settings.get VpcCidrSettings (NetworkProtectedStack._network self) = Ok vc ∧
    tier_zones (NetworkProtectedStack._network self) z ∧
    (∃ pv, Settings.get PublicSubnetCidrSettings (NetworkProtectedStack._network self) = Ok pv ∧
           Settings.as_sequence pv = Some publics) ∧
    (∃ qv, Settings.get PrivateSubnetCidrSettings (NetworkProtectedStack._network self) = Ok qv ∧
           Settings.as_sequence qv = Some privates) ∧
    NetworkProtectedStack._application p = NetworkProtectedStack._application self ∧
    NetworkProtectedStack._network p = NetworkProtectedStack._network self ∧
    NetworkProtectedStack.region p = NetworkProtectedStack.region self ∧
    NetworkProtectedStack._vpc p = Some vpc ∧
    vpc_cidr_block vpc = vc ∧
    vpc_id vpc = ImportValue (vpc_export_name (NetworkProtectedStack._application self)
                                (NetworkProtectedStack._network self)) ∧
    public_subnet_ids vpc
      = NetworkProtectedStack.import_subnet_ids self "public" (length publics) ∧
    private_subnet_ids vpc
      = NetworkProtectedStack.import_subnet_ids self "private" (length privates) ∧
    NetworkProtectedStack._application self1 = NetworkProtectedStack._application self ∧
    NetworkProtectedStack._network self1 = NetworkProtectedStack._network self ∧
    NetworkProtectedStack.region self1 = NetworkProtectedStack.region self ∧
    NetworkProtectedStack.import_subnets "public" self1 0 (length publics) (itertools.cycle z)
      = Ok (NetworkProtectedStack._public_subnets p) ∧
    NetworkProtectedStack._application self2 = NetworkProtectedStack._application self ∧
    NetworkProtectedStack._network self2 = NetworkProtectedStack._network self ∧
    NetworkProtectedStack.region self2 = NetworkProtectedStack.region self ∧
    NetworkProtectedStack.import_subnets "private" self2 0 (length privates) (itertools.cycle z)
      = Ok (NetworkProtectedStack._private_subnets p).
Proof.
  unfold NetworkProtectedStack.load. intros H.
  bind_step H as u1 Ha. bind_step H as u2 Hn. bind_step H as u3 Hr.
  (* _import_vpc *)
  bind_step H as s1 H1. unfold NetworkProtectedStack._import_vpc in H1.
  bind_step H1 as u4 Hn'. bind_step H1 as vc Hvc. bind_step H1 as zv Hzv.
  bind_step H1 as pv Hpv. bind_step H1 as kp Hkp.
  bind_step H1 as qv Hqv. bind_step H1 as kq Hkq. injection H1 as <-.
  (* _import_public_subnets *)
  bind_step H as s2 H2. unfold NetworkProtectedStack._import_public_subnets in H2.
  cbn [NetworkProtectedStack.region NetworkProtectedStack._network
       NetworkProtectedStack._application NetworkProtectedStack._vpc
       NetworkProtectedStack._public_subnets NetworkProtectedStack._private_subnets] in H2.
  bind_step H2 as u5 Hr2. bind_step H2 as u6 Hn2. bind_step H2 as u7 Ha2.
  bind_step H2 as it Hit. bind_step H2 as count Hcount. bind_step H2 as pubs Hpubs.
  injection H2 as <-.
  apply Settings_cycle_Ok_inv in Hit as (zv' & z & Hzv' & Hz & ->).
  rewrite Hzv in Hzv'. injection Hzv' as <-.
  apply Settings_length_Ok_inv in Hcount as (pv' & publics & Hpv' & Hpublics & ->).
  rewrite Hpv in Hpv'. injection Hpv' as <-.
  pose proof (py_len_sequence _ _ _ Hkp Hpublics) as ->.
  (* _import_private_subnets *)
  unfold NetworkProtectedStack._import_private_subnets in H.
  cbn [NetworkProtectedStack.region NetworkProtectedStack._network
       NetworkProtectedStack._application NetworkProtectedStack._vpc
       NetworkProtectedStack._public_subnets NetworkProtectedStack._private_subnets] in H.
  bind_step H as it Hit. bind_step H as count Hcount. bind_step H as privs Hprivs.
  injection H as <-.
  apply Settings_cycle_Ok_inv in Hit as (zv' & z' & Hzv' & Hz' & ->).
  rewrite Hzv in Hzv'. injection Hzv' as <-. rewrite Hz in Hz'. injection Hz' as <-.
  apply Settings_length_Ok_inv in Hcount as (qv' & privates & Hqv' & Hprivates & ->).
  rewrite Hqv in Hqv'. injection Hqv' as <-.
  pose proof (py_len_sequence _ _ _ Hkq Hprivates) as ->.
  eexists vc, z, publics, privates, _, _, _.
  split; [exact Hvc|]. split; [by exists zv|]. split; [eauto|]. split; [eauto|].
  cbn [NetworkProtectedStack.region NetworkProtectedStack._network
       NetworkProtectedStack._application NetworkProtectedStack._vpc
       NetworkProtectedStack._public_subnets NetworkProtectedStack._private_subnets].
  do 4 (split; [reflexivity|]). cbn [vpc_cidr_block vpc_id public_subnet_ids private_subnet_ids].
  do 4 (split; [reflexivity|]).
  split; [|split; [|split; [|split; [exact Hpubs|]]]]; [reflexivity..|].
  split; [|split; [|split; [|exact Hprivs]]]; reflexivity.
Qed.

Lemma tier_zones_unique (n : string) (z z' : list string) :
  tier_zones n z → tier_zones n z' → z = z'.
Proof. intros (v & Hv & Hz) (v' & Hv' & Hz'). congruence. Qed.

Lemma zones_assigned_unique (region : string) (z : list string) (first : nat)
    (l1 l2 : list Subnet) :
  zones_assigned region z first l1 → zones_assigned region z first l2 →
  length l1 = length l2 →
  map availability_zone l1 = map availability_zone l2.
Proof.
  revert first l2. induction l1 as [|s1 l1 IH]; intros first [|s2 l2] H1 H2 Hlen;
    simpl in *; try done.
  f_equal.
  - destruct (H1 0 s1 eq_refl) as (zone1 & Hz1 & ->).
    destruct (H2 0 s2 eq_refl) as (zone2 & Hz2 & ->). congruence.
  - apply (IH (S first)); [| |lia].
    + intros i s Hi. destruct (H1 (S i) s Hi) as (zone & Hz & Hs).
      exists zone. by rewrite Nat.add_succ_comm.
    + intros i s Hi. destruct (H2 (S i) s Hi) as (zone & Hz & Hs).
      exists zone. by rewrite Nat.add_succ_comm.
Qed.

(** X9. After [load], the subnets imported one by one are those named in
    the attributes of the imported VPC: their ids are the same imported
    values, in the same order, for the public and for the private subnets;
    the VPC carries the CIDR block configured for the network and the id
    exported by the network stack. *)
Theorem loaded_subnets_are_those_of_the_vpc (self p : NetworkProtectedStack.t) :
  NetworkProtectedStack.load self = Ok p →
  ∃ vpc,
    NetworkProtectedStack._vpc p = Some vpc ∧
    map subnet_id (NetworkProtectedStack._public_subnets p) = public_subnet_ids vpc ∧
    map subnet_id (NetworkProtectedStack._private_subnets p) = private_subnet_ids vpc ∧
    Settings.get VpcCidrSettings (NetworkProtectedStack._network self)
      = Ok (vpc_cidr_block vpc) ∧
    vpc_id vpc = ImportValue (vpc_export_name (NetworkProtectedStack._application self)
                                (NetworkProtectedStack._network self)).
Proof.
  intros H. apply load_Ok_inv in H
    as (vc & z & publics & privates & vpc & self1 & self2 & Hvc & _ & _ & _ & _ & _ & _
        & Hvpc & Hcidr & Hid & Hpub & Hpriv & Ha1 & Hn1 & _ & Hpubs & Ha2 & Hn2 & _ & Hprivs).
  exists vpc. split; [exact Hvpc|].
  apply import_subnets_ids in Hpubs as [_ Hpubs].
  apply import_subnets_ids in Hprivs as [_ Hprivs].
  rewrite Hpubs, Hprivs, Hpub, Hpriv, Ha1, Hn1, Ha2, Hn2, Hcidr.
  unfold NetworkProtectedStack.import_subnet_ids. done.
Qed.

Lemma loaded_subnets_are_those_of_the_vpc_witness :
  ∃ p vpc,
    NetworkProtectedStack.load (NetworkProtectedStack.new "app" "mainnet" "us-west-2") = Ok p ∧
    NetworkProtectedStack._vpc p = Some vpc ∧
    map subnet_id (NetworkProtectedStack._public_subnets p) = public_subnet_ids vpc.
Proof.
  destruct (NetworkProtectedStack.load (NetworkProtectedStack.new "app" "mainnet" "us-west-2"))
    as [p|e] eqn:Hp; [|exfalso; vm_compute in Hp; discriminate].
  destruct (loaded_subnets_are_those_of_the_vpc _ p Hp) as (vpc & Hvpc & Hpub & _).
  exists p, vpc. exact (conj eq_refl (conj Hvpc Hpub)).
Defined.

(** X10. A stack that imports the network places each imported subnet in
    the availability zone the network stack created it in: after [deploy]
    of the network stack and [load] of a network-protected stack for the
    same application, network and region, the public subnets, and the
    private subnets, have the same zones position by position. *)
Theorem imported_subnets_keep_their_zone (a n r : string)
    (s : NetworkStack.t) (p : NetworkProtectedStack.t) :
  NetworkStack.deploy (NetworkStack.new a n r) = Ok s →
  NetworkProtectedStack.load (NetworkProtectedStack.new a n r) = Ok p →
  map availability_zone (NetworkProtectedStack._public_subnets p)
    = map availability_zone (NetworkStack._public_subnets s) ∧
  map availability_zone (NetworkProtectedStack._private_subnets p)
    = map availability_zone (NetworkStack._private_subnets s).
Proof.
  intros Hs Hp.
  apply deploy_Ok_structure in Hs
    as (z & publics & privates & Hz & Hne & (pv & Hpv & Hpublics) & (qv & Hqv & Hprivates)
        & _ & Hc1 & Hc2 & Hz1 & Hz2 & _).
  apply load_Ok_inv in Hp
    as (vc & z' & publics' & privates' & vpc & self1 & self2 & _ & Hz' & (pv' & Hpv' & Hpublics')
        & (qv' & Hqv' & Hprivates') & _ & _ & _ & _ & _ & _ & _ & _ & _ & _ & Hr1 & Hpubs
        & _ & _ & Hr2 & Hprivs).
  simpl in *.
  pose proof (tier_zones_unique _ _ _ Hz Hz') as <-.
  rewrite Hpv in Hpv'. injection Hpv' as <-. rewrite Hpublics in Hpublics'.
  injection Hpublics' as <-.
  rewrite Hqv in Hqv'. injection Hqv' as <-. rewrite Hprivates in Hprivates'.
  injection Hprivates' as <-.
  destruct (import_subnets_spec "public" self1 z Hne (length publics) 0 (itertools.cycle z)
              (cycle_at_start z)) as (pubs & Hpubs' & Hl1 & Hzp & _).
  destruct (import_subnets_spec "private" self2 z Hne (length privates) 0 (itertools.cycle z)
              (cycle_at_start z)) as (privs & Hprivs' & Hl2 & Hzq & _).
  rewrite Hpubs in Hpubs'. injection Hpubs' as <-.
  rewrite Hprivs in Hprivs'. injection Hprivs' as <-.
  rewrite Hr1 in Hzp. rewrite Hr2 in Hzq.
  apply (f_equal length) in Hc1, Hc2. rewrite !length_map in Hc1, Hc2.
  split; eapply zones_assigned_unique; eauto; lia.
Qed.

Lemma imported_subnets_keep_their_zone_witness :
  ∃ s p,
    NetworkStack.deploy (NetworkStack.new "app" "devnet" "us-west-2") = Ok s ∧
    NetworkProtectedStack.load (NetworkProtectedStack.new "app" "devnet" "us-west-2") = Ok p ∧
    map availability_zone (NetworkProtectedStack._private_subnets p)
      = map availability_zone (NetworkStack._private_subnets s).
Proof.
  destruct (NetworkStack.deploy (NetworkStack.new "app" "devnet" "us-west-2"))
    as [s|e] eqn:Hs; [|exfalso; vm_compute in Hs; discriminate].
  destruct (NetworkProtectedStack.load (NetworkProtectedStack.new "app" "devnet" "us-west-2"))
    as [p|e] eqn:Hp; [|exfalso; vm_compute in Hp; discriminate].
  exists s, p.
  exact (conj eq_refl (conj eq_refl
           (proj2 (imported_subnets_keep_their_zone _ _ _ s p Hs Hp)))).
Defined.

(** ** [str] of a number can be read back *)

Lemma digit_char_value (d : N) : (d < 10)%N → (N_of_ascii (digit_char d) - 48 = d)%N.
Proof.
  intros Hd. unfold digit_char. rewrite N_ascii_embedding by lia. lia.
Qed.

Lemma decimal_value_decimal_acc (fuel : nat) :
  ∀ (n : N) (acc : string),
    (n < 10 ^ N.of_nat (S fuel))%N →
    decimal_value (decimal_acc fuel n acc)
      = (n * 10 ^ N.of_nat (String.length acc) + decimal_value acc)%N.
Proof.
  induction fuel as [|fuel IH]; intros n acc Hn.
  - simpl in Hn. assert (n < 10)%N as Hlt by lia.
    cbn [decimal_acc decimal_value]. rewrite digit_char_value by (apply N.mod_lt; lia).
    by rewrite N.mod_small.
  - cbn [decimal_acc]. destruct (N.eqb_spec (n / 10) 0) as [Hz|Hnz].
    + assert (n < 10)%N as Hlt.
      { apply N.div_small_iff in Hz; lia. }
      cbn [decimal_value]. rewrite digit_char_value by (apply N.mod_lt; lia).
      by rewrite N.mod_small.
    + rewrite IH.
      * cbn [decimal_value String.length].
        rewrite digit_char_value by (apply N.mod_lt; lia).
        rewrite Nat2N.inj_succ, N.pow_succ_r'.
        rewrite (N.div_mod n 10) at 3 by lia. lia.
      * rewrite Nat2N.inj_succ, N.pow_succ_r' in Hn.
        apply N.Div0.div_lt_upper_bound. lia.
Qed.

Lemma size_nat_bound (n : N) : (n < 10 ^ N.of_nat (S (N.size_nat n)))%N.
Proof.
  destruct n as [|p]; [simpl; lia|].
  simpl N.size_nat. induction p as [p IH|p IH|].
  - cbn [Pos.size_nat]. rewrite Nat2N.inj_succ, N.pow_succ_r'. lia.
  - cbn [Pos.size_nat]. rewrite Nat2N.inj_succ, N.pow_succ_r'. lia.
  - simpl. lia.
Qed.

(** Reading [str(n)] as a decimal number gives [n] back. *)
Lemma decimal_value_str_N (n : N) : decimal_value (str_N n) = n.
Proof.
  unfold str_N. rewrite decimal_value_decimal_acc by apply size_nat_bound.
  simpl. lia.
Qed.

Lemma str_nat_inj (i j : nat) : str_nat i = str_nat j → i = j.
Proof.
  unfold str_nat. intros H. apply (f_equal decimal_value) in H.
  rewrite !decimal_value_str_N in H. lia.
Qed.

(** ** The exported names are pairwise different *)

Lemma subnet_export_name_inj (a n kind : string) (i j : nat) :
  subnet_export_name a n kind i = subnet_export_name a n kind j → i = j.
Proof.
  unfold subnet_export_name. intros H.
  do 6 apply String.app_inj in H.
  apply str_app_inj_same_length in H as [H _]; [|reflexivity].
  apply str_nat_inj in H. lia.
Qed.

Lemma public_private_names_differ (a n : string) (i j : nat) :
  subnet_export_name a n "public" i ≠ subnet_export_name a n "private" j.
Proof.
  unfold subnet_export_name. intros H.
  do 4 apply String.app_inj in H. cbv [String.append] in H. discriminate H.
Qed.

Lemma vpc_subnet_names_differ (a n kind : string) (i : nat) :
  vpc_export_name a n ≠ subnet_export_name a n kind i.
Proof.
  unfold vpc_export_name, subnet_export_name. intros H.
  do 3 apply String.app_inj in H. cbv [String.append] in H. discriminate H.
Qed.

Lemma NoDup_map_seq (f : nat → string) (start count : nat) :
  (∀ i j, f i = f j → i = j) → NoDup (map f (seq start count)).
Proof.
  intros Hf. revert start. induction count as [|count IH]; intros start; simpl.
  - constructor.
  - apply NoDup_cons. split; [|apply IH].
    intros Hin. apply list_elem_of_In, in_map_iff in Hin as (j & Hj & Hin).
    apply Hf in Hj as ->. apply in_seq in Hin. lia.
Qed.

Lemma elem_of_map_seq (f : nat → string) (start count : nat) (x : string) :
  x ∈ map f (seq start count) → ∃ i, x = f i.
Proof.
  intros Hin. apply list_elem_of_In, in_map_iff in Hin as (i & <- & _). eauto.
Qed.

(** X11. The names a deployed network stack exports are pairwise
    different, whatever the application and network names: no two
    [CfnOutput]s of [NetworkStack.export] share an id or an export name. *)
Theorem network_export_names_are_distinct (a n r : string) (s s' : NetworkStack.t) :
  NetworkStack.deploy (NetworkStack.new a n r) = Ok s →
  NetworkStack.export s = Ok s' →
  NoDup (NetworkStack.export_names s') ∧
  map output_id (NetworkStack.outputs s') = NetworkStack.export_names s'.
Proof.
  intros Hs Hexport.
  apply deploy_Ok_inv in Hs
    as (_ & _ & _ & vc & zv & z & pv & publics & qv & privates & _ & _ & _ & _
        & _ & _ & _ & _ & Hsa & Hsn & Hout & Hvpc & Hlpub & Hlpriv).
  destruct (export_Ok s Hvpc Hout) as (s'' & Hexport' & Hnames).
  rewrite Hexport in Hexport'. injection Hexport' as <-.
  split.
  - rewrite Hnames, Hsa, Hsn. unfold public_names, private_names.
    apply NoDup_cons. split.
    + intros Hin. apply elem_of_app in Hin as [Hin|Hin];
        apply elem_of_map_seq in Hin as [i Hi]; by apply vpc_subnet_names_differ in Hi.
    + apply NoDup_app. split; [|split].
      * apply NoDup_map_seq. apply subnet_export_name_inj.
      * intros x Hx Hx'. apply elem_of_map_seq in Hx as [i ->].
        apply elem_of_map_seq in Hx' as [j Hj].
        by apply public_private_names_differ in Hj.
      * apply NoDup_map_seq. apply subnet_export_name_inj.
  - unfold NetworkStack.export in Hexport. destruct Hvpc as [vpc Hvpc].
    rewrite Hvpc in Hexport. simpl in Hexport. injection Hexport as <-.
    unfold NetworkStack.export_names. simpl. rewrite Hout. simpl. f_equal.
    rewrite !map_app, !subnet_outputs_names. unfold NetworkStack.subnet_outputs.
    f_equal; by apply imap_names.
Qed.

Lemma network_export_names_are_distinct_witness :
  ∃ s s',
    NetworkStack.deploy (NetworkStack.new "app" "mainnet" "us-west-2") = Ok s ∧
    NetworkStack.export s = Ok s' ∧
    NoDup (NetworkStack.export_names s').
Proof.
  destruct (NetworkStack.deploy (NetworkStack.new "app" "mainnet" "us-west-2"))
    as [s|e] eqn:Hs; [|exfalso; vm_compute in Hs; discriminate].
  destruct (NetworkStack.export s) as [s'|e] eqn:Hs'.
  - exists s, s'.
    exact (conj eq_refl (conj Hs'
             (proj1 (network_export_names_are_distinct _ _ _ s s' Hs Hs')))).
  - exfalso. vm_compute in Hs. injection Hs as <-. discriminate Hs'.
Defined.

(** ** [stacks/bastion.py]: bastion servers and their subnets *)

Lemma create_instances_Ok (self : BastionStack.t) (z : list string) :
  z ≠ [] →
  ∀ subnets index it acc instances,
    cycle_at z index it →
    BastionStack.create_instances self index subnets it acc = Ok instances →
    ∃ new,
      instances = acc ++ new ∧
      map instance_subnet new = subnets ∧
      ∀ i b, new !! i = Some b →
        ∃ zone, z !! ((index + i) mod length z) = Some zone ∧
                instance_availability_zone b = BastionStack.region self +:+ zone.
Proof.
  intros Hz. induction subnets as [|subnet subnets IH]; intros index it acc instances Hit; simpl.
  - intros [= <-]. exists []. rewrite app_nil_r. repeat split.
    intros i b Hi. by rewrite lookup_nil in Hi.
  - intros H. bind_step H as zone Hzone.
    bind_step H as ty Hty. bind_step H as key Hkey. bind_step H as image Himage.
    destruct (next_cycle_at z index it Hz Hit) as (x & it' & Hnext & Hx & Hit').
    rewrite Hnext in Hzone. injection Hzone as <-. simpl in H.
    apply (IH _ _ _ _ Hit') in H as (new & -> & Hsubnets & Hzones).
    eexists (_ :: new). rewrite <- app_assoc. split; [done|].
    split; [simpl; by rewrite Hsubnets|].
    intros [|i] b Hi.
    + injection Hi as <-. simpl. exists x. by rewrite Nat.add_0_r.
    + simpl in Hi. destruct (Hzones i b Hi) as (zone & Hzone & Hb).
      exists zone. by rewrite <- Nat.add_succ_comm.
Qed.

Lemma import_subnets_called_next (kind : string) (self : NetworkProtectedStack.t)
    (index count : nat) (it : itertools.cycle_iter) (subnets : list Subnet) :
  NetworkProtectedStack.import_subnets kind self index count it = Ok subnets →
  count ≠ 0 → ∃ zone, next it = Ok zone.
Proof.
  destruct count as [|count]; [done|]. simpl. intros H _.
  bind_step H as zone Hzone. eauto.
Qed.

(** X12. A bastion stack that loads and deploys has one server in each of
    the first [MAX_EC2_INSTANCES] (two) public subnets it imported, in
    order, each declared in the availability zone of its subnet, and one
    elastic IP per server. *)
Theorem bastions_sit_in_the_zone_of_their_subnet (a n r : string) (self self' : BastionStack.t) :
  BastionStack.load (BastionStack.new a n r) = Ok self →
  BastionStack.deploy self = Ok self' →
  let publics := NetworkProtectedStack._public_subnets (BastionStack.parent self') in
  map instance_subnet (BastionStack._ec2 self') = take BastionStack.MAX_EC2_INSTANCES publics ∧
  0 < length (BastionStack._ec2 self') ≤ BastionStack.MAX_EC2_INSTANCES ∧
  length (BastionStack._eip self') = length (BastionStack._ec2 self') ∧
  ∀ b, b ∈ BastionStack._ec2 self' →
       instance_availability_zone b = availability_zone (instance_subnet b).
Proof.
  intros Hload Hdeploy publics.
  (* load *)
  unfold BastionStack.load in Hload. simpl in Hload.
  bind_step Hload as p Hp. injection Hload as <-.
  apply load_Ok_inv in Hp
    as (vc & z & pubs & privs & vpc & self1 & self2 & _ & Hz & _ & _ & _ & Hpn & Hpr & _
        & _ & _ & _ & _ & _ & _ & Hr1 & Hpubs & _).
  simpl in Hz, Hpn, Hpr, Hr1.
  (* deploy *)
  unfold BastionStack.deploy in Hdeploy. simpl in Hdeploy.
  bind_step Hdeploy as u1 Ha. bind_step Hdeploy as u2 Hn. bind_step Hdeploy as u3 Hr.
  bind_step Hdeploy as u4 Hpublic. apply require_Ok_inv in Hpublic.
  unfold BastionStack._create_ec2 in Hdeploy. simpl in Hdeploy.
  bind_step Hdeploy as self3 H3. bind_step H3 as it Hit. bind_step H3 as instances Hinstances.
  injection H3 as <-. simpl in Hdeploy. injection Hdeploy as <-. subst publics. simpl.
  rewrite (tier_zones_cycle _ _ Hz) in Hit. injection Hit as <-.
  (* the zones are not empty, since a subnet was imported *)
  assert (length pubs ≠ 0) as Hcount.
  { intros Hzero. rewrite Hzero in Hpubs. simpl in Hpubs. injection Hpubs as Hnil.
    rewrite <- Hnil in Hpublic. discriminate. }
  destruct (import_subnets_called_next _ _ _ _ _ _ Hpubs Hcount) as [zone Hzone].
  apply next_cycle_nonempty in Hzone.
  destruct (import_subnets_spec "public" self1 z Hzone (length pubs) 0 (itertools.cycle z)
              (cycle_at_start z)) as (subnets & Hsubnets & Hlen & Hzones & _).
  rewrite Hpubs in Hsubnets. injection Hsubnets as Heq. rewrite Heq in *. clear Heq.
  apply (create_instances_Ok _ z Hzone _ _ _ _ _ (cycle_at_start z)) in Hinstances
    as (new & -> & Hmap & Hnew).
  simpl. split; [exact Hmap|].
  assert (length new = length (take BastionStack.MAX_EC2_INSTANCES subnets)) as Hlnew.
  { by rewrite <- Hmap, length_map. }
  rewrite length_take in Hlnew. unfold BastionStack.MAX_EC2_INSTANCES in *.
  split; [lia|]. split; [by rewrite length_imap|].
  intros b Hb. apply list_elem_of_lookup in Hb as [i Hi].
  destruct (Hnew i b Hi) as (zone1 & Hzone1 & Hb1).
  assert (take 2 subnets !! i = Some (instance_subnet b)) as Hsub.
  { rewrite <- Hmap. change (map instance_subnet new) with (instance_subnet <$> new).
    rewrite list_lookup_fmap, Hi. done. }
  apply lookup_take_Some in Hsub as [Hsub _].
  destruct (Hzones i _ Hsub) as (zone2 & Hzone2 & Hb2).
  simpl in Hzone1, Hb1. rewrite Hb1, Hb2, Hr1. unfold BastionStack.region. simpl.
  rewrite Hpr. simpl in Hzone2. congruence.
Qed.

Lemma bastions_sit_in_the_zone_of_their_subnet_witness :
  ∃ self self',
    BastionStack.load (BastionStack.new "app" "mainnet" "us-west-2") = Ok self ∧
    BastionStack.deploy self = Ok self' ∧
    0 < length (BastionStack._ec2 self') ≤ 2.
Proof.
  destruct (BastionStack.load (BastionStack.new "app" "mainnet" "us-west-2"))
    as [self|e] eqn:Hload; [|exfalso; vm_compute in Hload; discriminate].
  destruct (BastionStack.deploy self) as [self'|e] eqn:Hdeploy.
  - exists self, self'.
    exact (conj eq_refl (conj Hdeploy
             (proj1 (proj2 (bastions_sit_in_the_zone_of_their_subnet _ _ _ _ _ Hload Hdeploy))))).
  - exfalso. vm_compute in Hload. injection Hload as <-. vm_compute in Hdeploy.
    discriminate Hdeploy.
Defined.

(** ** [stacks/environment.py]: rolling updates *)

Lemma rolling_update_enabled (self : BeanstalkStack.t) (v w x : value) :
  class_lookup RollingUpdateRollingUpdateEnabledSettings (BeanstalkStack._network self)
    = Some v →
  truthy v = true →
  class_lookup RollingUpdateMaxBatchSizeSettings (BeanstalkStack._network self) = Some w →
  class_lookup RollingUpdateMinInstancesInServiceSettings (BeanstalkStack._network self)
    = Some x →
  EnvironmentOptions._get_rolling_update_options self =
  Ok (<["MaxBatchSize" := w]>
      (<["MinInstancesInService" := x]> (<["RollingUpdateEnabled" := VBool true]> ∅))).
Proof.
  intros Hv Htrue Hw Hx. unfold EnvironmentOptions._get_rolling_update_options.
  rewrite (get_exact _ _ _ Hv), (get_exact _ _ _ Hw), (get_exact _ _ _ Hx).
  simpl. by rewrite Htrue.
Qed.

(** X13. For a network whose name the interpreter does not answer for on
    every class (none that begins with two underscores, and not [mro]),
    [_get_rolling_update_options] does not raise, although two of the three
    settings classes it reads have no default. Its result is either empty
    or has the three options with [RollingUpdateEnabled] true, and then the
    name of the network is an attribute of
    [RollingUpdateRollingUpdateEnabledSettings] with a true value. The
    classes are keyed by database tiers and read by network: for the
    networks mainnet, testnet and devnet the result is empty, whatever the
    database and the environment are. *)
Theorem rolling_updates_are_read_by_network (self : BeanstalkStack.t) :
  declared_name (BeanstalkStack._network self) = true →
  ∃ options,
    EnvironmentOptions._get_rolling_update_options self = Ok options ∧
    (options = ∅ ∨
     (options !! "RollingUpdateEnabled" = Some (VBool true) ∧
      is_Some (options !! "MaxBatchSize") ∧
      is_Some (options !! "MinInstancesInService") ∧
      ∃ v, attribute_of RollingUpdateRollingUpdateEnabledSettings
             (BeanstalkStack._network self) v ∧ truthy v = true)) ∧
    (BeanstalkStack._network self ∈ tiers → options = ∅).
Proof.
  intros _.
  assert (Hknown : ∀ v w x,
    class_lookup RollingUpdateRollingUpdateEnabledSettings (BeanstalkStack._network self)
      = Some v →
    truthy v = true →
    class_lookup RollingUpdateMaxBatchSizeSettings (BeanstalkStack._network self)
      = Some w →
    class_lookup RollingUpdateMinInstancesInServiceSettings (BeanstalkStack._network self)
      = Some x →
    BeanstalkStack._network self ∉ tiers →
    ∃ options,
      EnvironmentOptions._get_rolling_update_options self = Ok options ∧
      (options = ∅ ∨
       (options !! "RollingUpdateEnabled" = Some (VBool true) ∧
        is_Some (options !! "MaxBatchSize") ∧
        is_Some (options !! "MinInstancesInService") ∧
        ∃ v, attribute_of RollingUpdateRollingUpdateEnabledSettings
               (BeanstalkStack._network self) v ∧ truthy v = true)) ∧
      (BeanstalkStack._network self ∈ tiers → options = ∅)).
  { intros v w x Hv Htrue Hw Hx Hm.
    rewrite (rolling_update_enabled self v w x Hv Htrue Hw Hx).
    eexists. split; [reflexivity|]. split; [|done].
    right. split; [|split; [|split]].
    - rewrite lookup_insert_ne by done. rewrite lookup_insert_ne by done.
      apply lookup_insert_eq.
    - rewrite lookup_insert_eq. eauto.
    - rewrite lookup_insert_ne by done. rewrite lookup_insert_eq. eauto.
    - exists v. split; [by apply class_lookup_sound|done]. }
  revert Hknown. set (n := BeanstalkStack._network self).
  assert (Hn : BeanstalkStack._network self = n) by done. clearbody n. intros Hknown.
  assert (Htiers : ∀ m, m ∈ ["proddb"; "demodb"; "get"; "cycle"; "length"] → m ∉ tiers).
  { intros m Hm Ht. unfold tiers in Ht.
    repeat (apply elem_of_cons in Hm as [->|Hm]);
      try (by apply elem_of_nil in Hm);
      repeat (apply elem_of_cons in Ht as [Ht|Ht]; [discriminate|]);
      by apply elem_of_nil in Ht. }
  destruct (decide (n ∈ ["proddb"; "demodb"; "get"; "cycle"; "length"])) as [Hin|Hin].
  - pose proof (Htiers n Hin) as Ht.
    repeat (apply elem_of_cons in Hin as [->|Hin]);
      try (by apply elem_of_nil in Hin);
      eapply Hknown; try reflexivity; done.
  - assert (Hdefault : Settings.get RollingUpdateRollingUpdateEnabledSettings n
                       = Ok (VBool false)).
    { destruct (decide (n = "default")) as [->|Hd]; [reflexivity|].
      apply get_default; [|reflexivity].
      apply subclass_lookup_other; simpl.
      - intros Hown. apply Hin.
        repeat (apply elem_of_cons in Hown as [->|Hown]);
          try (by apply elem_of_nil in Hown); try done;
          repeat constructor.
      - intros ->. apply Hin. repeat constructor.
      - intros ->. apply Hin. repeat constructor.
      - intros ->. apply Hin. repeat constructor. }
    unfold EnvironmentOptions._get_rolling_update_options.
    rewrite Hn, Hdefault. simpl. exists ∅. by auto.
Qed.

Lemma rolling_updates_are_read_by_network_witness :
  declared_name "mainnet" = true ∧
  EnvironmentOptions._get_rolling_update_options
    (BeanstalkStack.Mk "app" "proddb" "proddb" "mainnet" "0") = Ok ∅.
Proof.
  split; [reflexivity|].
  destruct (rolling_updates_are_read_by_network
              (BeanstalkStack.Mk "app" "proddb" "proddb" "mainnet" "0") eq_refl)
    as (options & Hoptions & _ & Hempty).
  rewrite Hoptions. f_equal. apply Hempty. unfold tiers. simpl. repeat constructor.
Defined.

(** ** [stacks/environment.py]: the options as strings *)

Lemma pyobj_induction (P : pyobj → Prop) :
  (∀ items, Forall (λ entry, P (snd entry)) items → P (ODict items)) →
  (∀ items, Forall P items → P (OList items)) →
  (∀ s, P (OStr s)) →
  (∀ b, P (OBool b)) →
  (∀ z, P (OInt z)) →
  (∀ text truth, P (OOther text truth)) →
  ∀ o, P o.
Proof.
  intros Hdict Hlist Hstr Hbool Hint Hother. fix IH 1. intros [items|items|s|b|z|text truth].
  - apply Hdict. induction items as [|[name item] rest IHrest]; constructor; [apply IH|done].
  - apply Hlist. induction items as [|item rest IHrest]; constructor; [apply IH|done].
  - apply Hstr.
  - apply Hbool.
  - apply Hint.
  - apply Hother.
Qed.

Lemma comprehension_Ok_inv {A B : Type} (body : A → result B) (items : list A)
    (results : list B) :
  comprehension body items = Ok results →
  Forall2 (λ item result, body item = Ok result) items results.
Proof.
  revert results. induction items as [|item rest IH]; intros results; simpl.
  - intros [= <-]. constructor.
  - intros H. bind_step H as first Hfirst. bind_step H as others Hothers.
    injection H as <-. constructor; [done|by apply IH].
Qed.

Lemma comprehension_Ok {A B : Type} (body : A → result B) (items : list A)
    (results : list B) :
  Forall2 (λ item result, body item = Ok result) items results →
  comprehension body items = Ok results.
Proof.
  induction 1 as [|item result rest results Hfirst _ IH]; simpl; [done|].
  by rewrite Hfirst, IH.
Qed.

Lemma comprehension_Raise {A B : Type} (body : A → result B) (items : list A) (e : exn) :
  comprehension body items = Raise e → ∃ item, item ∈ items ∧ body item = Raise e.
Proof.
  induction items as [|item rest IH]; simpl; [discriminate|].
  destruct (body item) as [first|e'] eqn:Hfirst; simpl.
  - destruct (comprehension body rest) as [others|e''] eqn:Hrest; simpl; [discriminate|].
    intros [= ->]. destruct (IH eq_refl) as (x & Hx & Hbody).
    exists x. split; [apply elem_of_cons; by right|done].
  - intros [= ->]. exists item. split; [apply elem_of_cons; by left|done].
Qed.

Lemma cast_dict (json_dumps : list pyobj → string) (items : list (string * pyobj)) :
  EnvironmentOptions._cast_to_string json_dumps (ODict items) =
  let! items :=
    comprehension
      (λ entry : string * pyobj,
         let! item := EnvironmentOptions._cast_to_string json_dumps (snd entry) in
         Ok (fst entry, item))
      items in
  Ok (ODict items).
Proof. reflexivity. Qed.

Lemma cast_list (json_dumps : list pyobj → string) (items : list pyobj) :
  EnvironmentOptions._cast_to_string json_dumps (OList items) =
  let! items := comprehension (EnvironmentOptions._cast_to_string json_dumps) items in
  Ok (OStr (json_dumps items)).
Proof. reflexivity. Qed.

#[local] Arguments EnvironmentOptions._cast_to_string : simpl never.

(** What [_cast_to_string] makes of a dictionary: the same keys, in the same
    order, each with its value cast. *)
Lemma cast_dict_Ok_inv (json_dumps : list pyobj → string)
    (items : list (string * pyobj)) (w : pyobj) :
  EnvironmentOptions._cast_to_string json_dumps (ODict items) = Ok w →
  ∃ results,
    w = ODict results ∧
    Forall2 (λ entry result,
               fst result = fst entry ∧
               EnvironmentOptions._cast_to_string json_dumps (snd entry)
               = Ok (snd result))
            items results.
Proof.
  rewrite cast_dict. intros H. bind_step H as results Hresults.
  injection H as <-. exists results. split; [done|].
  apply comprehension_Ok_inv in Hresults.
  eapply Forall2_impl; [exact Hresults|].
  intros [name item] [name' item'] Hentry. simpl in *.
  bind_step Hentry as y Hy. by injection Hentry as <- <-.
Qed.

Lemma cast_Ok_plain (json_dumps : list pyobj → string) (value w : pyobj) :
  EnvironmentOptions._cast_to_string json_dumps value = Ok w → plain w = true.
Proof.
  revert w. induction value as [items IH|items _|s|b|z|text truth] using pyobj_induction;
    intros w H.
  - apply cast_dict_Ok_inv in H as (results & -> & Hresults).
    simpl. apply forallb_forall. intros result Hin. apply list_elem_of_In in Hin.
    apply list_elem_of_lookup in Hin as [i Hi].
    destruct (Forall2_lookup_r _ _ _ _ _ Hresults Hi) as (entry & Hentry & _ & Hcast).
    apply list_elem_of_lookup_2 in Hentry.
    by apply (proj1 (Forall_forall _ _) IH entry Hentry).
  - rewrite cast_list in H. bind_step H as results Hresults.
    by injection H as <-.
  - by injection H as <-.
  - by injection H as <-.
  - by injection H as <-.
  - discriminate.
Qed.

Lemma cast_plain_fixed (json_dumps : list pyobj → string) (w : pyobj) :
  plain w = true → EnvironmentOptions._cast_to_string json_dumps w = Ok w.
Proof.
  induction w as [items IH|items _|s|b|z|text truth] using pyobj_induction;
    simpl; try discriminate; [|done].
  intros Hplain. rewrite cast_dict.
  rewrite (comprehension_Ok _ items items); [done|].
  induction items as [|[name item] rest IHrest]; constructor.
  - apply Forall_cons in IH as [IHitem _]. simpl in *.
    apply andb_true_iff in Hplain as [Hitem _]. by rewrite (IHitem Hitem).
  - apply Forall_cons in IH as [_ IHothers]. simpl in Hplain.
    apply andb_true_iff in Hplain as [_ Hothers]. by apply IHrest.
Qed.

(** X14. When [_cast_to_string] returns, the result holds nothing but
    dictionaries and strings, and casting it again changes nothing. *)
Theorem cast_to_string_gives_plain_strings (json_dumps : list pyobj → string)
    (value w : pyobj) :
  EnvironmentOptions._cast_to_string json_dumps value = Ok w →
  plain w = true ∧ EnvironmentOptions._cast_to_string json_dumps w = Ok w.
Proof.
  intros H. apply cast_Ok_plain in H as Hplain.
  split; [done|by apply cast_plain_fixed].
Qed.

Lemma cast_to_string_gives_plain_strings_witness :
  EnvironmentOptions._cast_to_string json_dumps_sample options_example
    = Ok options_example_cast ∧
  plain options_example_cast = true ∧
  EnvironmentOptions._cast_to_string json_dumps_sample options_example_cast
    = Ok options_example_cast.
Proof.
  assert (H : EnvironmentOptions._cast_to_string json_dumps_sample options_example
              = Ok options_example_cast)
    by (vm_compute; reflexivity).
  exact (conj H (cast_to_string_gives_plain_strings json_dumps_sample
                   options_example options_example_cast H)).
Defined.

(** X15. [_cast_to_string] raises exactly when the value holds, at any depth
    of its dictionaries and lists, an object that is no dictionary, list,
    string, boolean or integer; the exception is then a [TypeError] that
    shows such an object. *)
Theorem cast_to_string_refuses_other_objects (json_dumps : list pyobj → string)
    (value : pyobj) :
  match EnvironmentOptions._cast_to_string json_dumps value with
  | Ok _ => ∀ text truth, ¬ holds value (OOther text truth)
  | Raise e =>
      ∃ text truth,
        holds value (OOther text truth) ∧ e = TypeError ("Invalid option: " +:+ text)
  end.
Proof.
  induction value as [items IH|items IH|s|b|z|text truth] using pyobj_induction.
  - rewrite cast_dict.
    destruct (comprehension _ items) as [results|e] eqn:Hresults; simpl.
    + intros text truth Hholds. apply comprehension_Ok_inv in Hresults.
      inversion Hholds as [| items' name item x Hin Hitem |]; subst.
      apply (proj1 (Forall_forall _ _) IH) in Hin as IHitem. simpl in IHitem.
      apply list_elem_of_lookup in Hin as [i Hi].
      destruct (Forall2_lookup_l _ _ _ _ _ Hresults Hi) as (result & _ & Hcast).
      simpl in Hcast.
      destruct (EnvironmentOptions._cast_to_string json_dumps item); [|discriminate].
      by apply (IHitem text truth).
    + apply comprehension_Raise in Hresults as ([name item] & Hin & Hcast).
      apply (proj1 (Forall_forall _ _) IH) in Hin as IHitem. simpl in *.
      destruct (EnvironmentOptions._cast_to_string json_dumps item) as [y|e'];
        [discriminate|].
      injection Hcast as ->. destruct IHitem as (text & truth & Hholds & ->).
      exists text, truth. split; [by eapply holds_in_dict|done].
  - rewrite cast_list.
    destruct (comprehension _ items) as [results|e] eqn:Hresults; simpl.
    + intros text truth Hholds. apply comprehension_Ok_inv in Hresults.
      inversion Hholds as [| | items' item x Hin Hitem]; subst.
      apply (proj1 (Forall_forall _ _) IH) in Hin as IHitem.
      apply list_elem_of_lookup in Hin as [i Hi].
      destruct (Forall2_lookup_l _ _ _ _ _ Hresults Hi) as (result & _ & Hcast).
      rewrite Hcast in IHitem. by apply (IHitem text truth).
    + apply comprehension_Raise in Hresults as (item & Hin & Hcast).
      apply (proj1 (Forall_forall _ _) IH) in Hin as IHitem.
      rewrite Hcast in IHitem. destruct IHitem as (text & truth & Hholds & ->).
      exists text, truth. split; [by eapply holds_in_list|done].
  - intros text truth Hholds. inversion Hholds.
  - intros text truth Hholds. inversion Hholds.
  - intros text truth Hholds. inversion Hholds.
  - exists text, truth. split; [constructor|done].
Qed.

(** ** [stacks/environment.py]: the option settings handed to Elastic Beanstalk *)

Lemma settings_of_namespace_elem (name : string) (options : list (string * pyobj))
    (setting : OptionSettingProperty) :
  setting ∈ EnvironmentOptions.settings_of_namespace name options ↔
  namespace setting = name ∧
  (option_name setting, option_value setting) ∈ options ∧
  option_name setting ≠ "" ∧ truth_of (option_value setting) = true.
Proof.
  unfold EnvironmentOptions.settings_of_namespace. rewrite list_elem_of_fmap. split.
  - intros ([option value] & -> & Hin). simpl.
    apply list_elem_of_In, filter_In in Hin as [Hin Hkept]. simpl in Hkept.
    apply andb_true_iff in Hkept as [Hoption Hvalue].
    split; [done|]. split; [by apply list_elem_of_In|]. split; [|done].
    intros ->. discriminate.
  - intros (Hname & Hin & Hoption & Hvalue).
    exists (option_name setting, option_value setting). split.
    + destruct setting. simpl in *. by subst.
    + apply list_elem_of_In, filter_In. split; [by apply list_elem_of_In|].
      simpl. apply andb_true_iff. split; [|done].
      unfold nonempty. by destruct (String.eqb_spec (option_name setting) "").
Qed.

Lemma option_settings_of_elem (namespaces : list (string * pyobj))
    (settings : list OptionSettingProperty) :
  EnvironmentOptions.option_settings_of namespaces = Ok settings →
  ∀ setting,
    setting ∈ settings ↔
    ∃ options,
      (namespace setting, ODict options) ∈ namespaces ∧
      (option_name setting, option_value setting) ∈ options ∧
      option_name setting ≠ "" ∧ truth_of (option_value setting) = true.
Proof.
  revert settings. induction namespaces as [|[name options] rest IH]; intros settings; simpl.
  - intros [= <-] setting. split.
    + intros Hin. by apply elem_of_nil in Hin.
    + intros (options & Hin & _). by apply elem_of_nil in Hin.
  - intros H. bind_step H as items Hitems. bind_step H as others Hothers.
    injection H as <-. destruct options; try discriminate. injection Hitems as ->.
    intros setting. rewrite elem_of_app, settings_of_namespace_elem, (IH others Hothers).
    split.
    + intros [(Hname & Hin & Hkept)|(options & Hin & Hkept)].
      * exists items. split; [|done]. apply elem_of_cons. left. by rewrite Hname.
      * exists options. split; [|done]. apply elem_of_cons. by right.
    + intros (options & Hin & Hkept). apply elem_of_cons in Hin as [Hhere|Hin].
      * injection Hhere as -> ->. by left.
      * right. by exists options.
Qed.

Lemma decimal_acc_nonempty (fuel : nat) (n : N) (acc : string) :
  decimal_acc fuel n acc ≠ "".
Proof.
  revert n acc. induction fuel as [|fuel IH]; intros n acc; simpl; [done|].
  destruct (n / 10 =? 0)%N; [done|apply IH].
Qed.

(** Only a dictionary is cast to a dictionary. *)
Lemma cast_Ok_dict_inv (json_dumps : list pyobj → string) (value : pyobj)
    (results : list (string * pyobj)) :
  EnvironmentOptions._cast_to_string json_dumps value = Ok (ODict results) →
  ∃ items,
    value = ODict items ∧
    Forall2 (λ entry result,
               fst result = fst entry ∧
               EnvironmentOptions._cast_to_string json_dumps (snd entry)
               = Ok (snd result))
            items results.
Proof.
  destruct value as [items|items|s|b|z|text truth]; try discriminate.
  - intros H. apply cast_dict_Ok_inv in H as (results' & [= <-] & Hresults). eauto.
  - rewrite cast_list. intros H. bind_step H as y Hy. discriminate.
Qed.

(** X16. The option settings that [_create_env] hands over have a name and
    a value that are not empty, the value holding nothing but strings, and
    each comes from an option of its namespace, cast to a string. The test
    [if option and value] is made after the cast, so a [False] and a [0]
    are not dropped: they are handed over as the strings "false" and "0". *)
Theorem option_settings_keep_false_and_zero (json_dumps : list pyobj → string)
    (namespaces : list (string * pyobj)) (settings : list OptionSettingProperty) :
  EnvironmentOptions.option_settings json_dumps (ODict namespaces) = Ok settings →
  (∀ setting, setting ∈ settings →
     option_name setting ≠ "" ∧
     option_value setting ≠ OStr "" ∧
     plain (option_value setting) = true ∧
     ∃ options value,
       (namespace setting, ODict options) ∈ namespaces ∧
       (option_name setting, value) ∈ options ∧
       EnvironmentOptions._cast_to_string json_dumps value
       = Ok (option_value setting)) ∧
  (∀ name options option,
     (name, ODict options) ∈ namespaces → option ≠ "" →
     (∀ b, (option, OBool b) ∈ options →
        MkOptionSettingProperty name option (OStr (if b then "true" else "false"))
        ∈ settings) ∧
     (∀ z, (option, OInt z) ∈ options →
        MkOptionSettingProperty name option (OStr (str_int z)) ∈ settings)).
Proof.
  unfold EnvironmentOptions.option_settings, EnvironmentOptions._get_options.
  intros H. bind_step H as cast Hcast. bind_step H as results Hitems.
  apply cast_dict_Ok_inv in Hcast as (results' & -> & Hresults).
  injection Hitems as ->.
  pose proof (option_settings_of_elem _ _ H) as Helem.
  split.
  - intros setting Hin. apply Helem in Hin as (options' & Hin & Hoption & Hname & Htruth).
    apply list_elem_of_lookup in Hin as [i Hi].
    destruct (Forall2_lookup_r _ _ _ _ _ Hresults Hi)
      as ([name value] & Hentry & Hfst & Hvalue).
    simpl in Hfst, Hvalue. subst name.
    apply cast_Ok_dict_inv in Hvalue as (options & -> & Hoptions).
    apply list_elem_of_lookup in Hoption as [j Hj].
    destruct (Forall2_lookup_r _ _ _ _ _ Hoptions Hj)
      as ([option value] & Hsource & Hfst & Hvalue).
    simpl in Hfst, Hvalue. subst option.
    split; [done|]. split.
    { intros Hempty. rewrite Hempty in Htruth. discriminate. }
    split; [by eapply cast_Ok_plain|].
    exists options, value. split; [by eapply list_elem_of_lookup_2|].
    split; [by eapply list_elem_of_lookup_2|done].
  - intros name options option Hin Hoption.
    apply list_elem_of_lookup in Hin as [i Hi].
    destruct (Forall2_lookup_l _ _ _ _ _ Hresults Hi)
      as ([name' value'] & Hresult & Hfst & Hvalue).
    simpl in Hfst, Hvalue. subst name'.
    apply cast_dict_Ok_inv in Hvalue as (options' & -> & Hoptions).
    apply list_elem_of_lookup_2 in Hresult.
    assert (Hkept : ∀ value text,
      (option, value) ∈ options →
      EnvironmentOptions._cast_to_string json_dumps value = Ok (OStr text) →
      text ≠ "" →
      MkOptionSettingProperty name option (OStr text) ∈ settings).
    { intros value text Hvalue Hcast Htext.
      apply list_elem_of_lookup in Hvalue as [j Hj].
      destruct (Forall2_lookup_l _ _ _ _ _ Hoptions Hj)
        as ([option' value'] & Hresult' & Hfst & Hvalue').
      simpl in Hfst, Hvalue'. subst option'.
      rewrite Hcast in Hvalue'. injection Hvalue' as <-.
      apply list_elem_of_lookup_2 in Hresult'.
      apply Helem. exists options'. simpl. split; [done|]. split; [done|].
      split; [done|]. unfold nonempty. by destruct (String.eqb_spec text ""). }
    split.
    + intros b Hb. apply (Hkept (OBool b)); [done|done|]. by destruct b.
    + intros z Hz. apply (Hkept (OInt z)); [done|done|].
      unfold str_int, str_N. destruct (z <? 0)%Z; [done|].
      apply decimal_acc_nonempty.
Qed.

Lemma option_settings_keep_false_and_zero_witness :
  EnvironmentOptions.option_settings json_dumps_sample options_example
    = Ok options_example_settings ∧
  MkOptionSettingProperty "aws:ec2:instances" "EnableSpot" (OStr "false")
    ∈ options_example_settings ∧
  MkOptionSettingProperty "aws:autoscaling:asg" "MinSize" (OStr "0")
    ∈ options_example_settings.
Proof.
  assert (H : EnvironmentOptions.option_settings json_dumps_sample options_example
              = Ok options_example_settings)
    by (vm_compute; reflexivity).
  pose proof (proj2 (option_settings_keep_false_and_zero json_dumps_sample _ _ H))
    as Hkept.
  split; [exact H|]. split.
  - apply (proj1 (Hkept "aws:ec2:instances"
                    [("EnableSpot", OBool false); ("SupportedArchitectures", OStr "x86_64");
                     ("InstanceTypes", OStr "")]
                    "EnableSpot" ltac:(repeat constructor) ltac:(discriminate)) false).
    repeat constructor.
  - apply (proj2 (Hkept "aws:autoscaling:asg"
                    [("MinSize", OInt 0); ("MaxSize", OInt 1)]
                    "MinSize" ltac:(unfold options_example; apply elem_of_cons; right; repeat constructor) ltac:(discriminate)) 0%Z).
    repeat constructor.
Defined.
